(** * Weather-Prediction-Model: lag features, regressor bank, historical store

    A shallow embedding of [weather_prediction_model.py],
    [weather_data_analyzer.py] and the routes of [app.py].

    Conventions of the embedding.
    - A pandas [DataFrame] is a row count together with an ordered list of
      named columns; a column ([Series]) is a list of cells.  A cell is a
      missing value ([NaN], also standing for [None] and [NaT]), a number, a
      string or a timestamp.  Numbers are idealised as exact rationals:
      integers and floats are not told apart, and sums, means and [round]
      are exact where the program computes in binary floating point (there
      a mean can leave the interval of its values by a unit in the last
      place, and a value next to a tie can be rounded the other way).
    - A Python exception is a value of [exn]; a call that may raise returns a
      [result].
    - An object that the Python code mutates in place (the caller's data
      frame, the dictionaries of the model object, the two CSV logs) is a
      component of an explicit state that every operation returns.
    - scikit-learn, [pd.to_datetime] and matplotlib are not part of the
      repository: they are the fields of the [Toolkit] class below, and every
      theorem holds for every instance of it.  In the same way the network
      ([requests.get]), the configured key and [strftime] are variables of
      the sections on the weather routes. *)

From Stdlib Require Import QArith Qround Qminmax Qabs Lqa ZArith Lia Bool.
From Stdlib Require Import String Ascii List DecimalString DecimalNat.
From Stdlib Require Import Sorted Permutation.
From stdpp Require Import gmap strings.
Import ListNotations.

Local Open Scope string_scope.
Local Open Scope list_scope.
Local Open Scope nat_scope.

(** ** Exceptions and results *)

Inductive exn :=
| KeyError (key : string)
| ValueError (msg : string)
| TypeError (msg : string)
| IndexError (msg : string)
| OtherError (msg : string).

Inductive result (A : Type) :=
| Ok (a : A)
| Raise (e : exn).
Arguments Ok {A} a.
Arguments Raise {A} e.

Definition is_ok {A} (r : result A) : bool :=
  match r with Ok _ => true | Raise _ => false end.

(** A computation over a mutable state [S] that may raise.  The state reached
    when it raises is kept: Python does not roll back. *)
Definition M (S A : Type) : Type := S -> S * result A.

Definition ret {S A} (a : A) : M S A := fun s => (s, Ok a).

Definition raise {S A} (e : exn) : M S A := fun s => (s, Raise e).

Definition bind {S A B} (m : M S A) (k : A -> M S B) : M S B :=
  fun s =>
    match m s with
    | (s', Ok a) => k a s'
    | (s', Raise e) => (s', Raise e)
    end.

Definition lift {S A} (r : result A) : M S A := fun s => (s, r).

Notation "'let*' p ':=' c 'in' k" := (bind c (fun p => k))
  (at level 10, p pattern, c at level 100, k at level 200, only parsing).

(** A [for] loop over a list. *)
Fixpoint for_each {S A : Type} (l : list A) (body : A -> M S unit) : M S unit :=
  match l with
  | [] => ret tt
  | a :: l' => let* _ := body a in for_each l' body
  end.

(** [str(e)] as the route handlers and the analyzer report it.  For a
    [KeyError] Python prints the [repr] of the key. *)
Definition str_exn (e : exn) : string :=
  match e with
  | KeyError k => "'" ++ k ++ "'"
  | ValueError m | TypeError m | IndexError m | OtherError m => m
  end.

(** ** Data frames *)

Inductive cell :=
| NaN
| Num (q : Q)
| Str (s : string)
| Time (t : Z).

Definition isna (c : cell) : bool :=
  match c with NaN => true | _ => false end.

Definition Series := list cell.

Record DataFrame := mkDF {
  nrows : nat;                         (* len(df) *)
  columns : list (string * Series)     (* in column order *)
}.

Definition names (df : DataFrame) : list string := map fst (columns df).

(** Every column is as long as the index, and column names are unique (as in
    every frame that [pd.read_csv] returns). *)
Definition well_formed (df : DataFrame) : Prop :=
  List.NoDup (names df) /\
  forall nm s, In (nm, s) (columns df) -> length s = nrows df.

Fixpoint assoc_get (nm : string) (cs : list (string * Series)) : option Series :=
  match cs with
  | [] => None
  | (k, v) :: cs' => if String.eqb k nm then Some v else assoc_get nm cs'
  end.

(** [df[nm] = s]: an existing column is replaced where it stands, a new one
    is appended. *)
Fixpoint assoc_set (nm : string) (s : Series) (cs : list (string * Series))
  : list (string * Series) :=
  match cs with
  | [] => [(nm, s)]
  | (k, v) :: cs' =>
      if String.eqb k nm then (nm, s) :: cs' else (k, v) :: assoc_set nm s cs'
  end.

(** [df[nm]] *)
Definition getitem (df : DataFrame) (nm : string) : result Series :=
  match assoc_get nm (columns df) with
  | Some s => Ok s
  | None => Raise (KeyError nm)
  end.

(** [df[nm] = s] for a series over the same index *)
Definition setitem (df : DataFrame) (nm : string) (s : Series) : DataFrame :=
  mkDF (nrows df) (assoc_set nm s (columns df)).

(** [s.shift(i)]: the values move down by [i] places, the first [i] places are
    filled with [NaN], the length is kept. *)
Definition shift (i : nat) (s : Series) : Series :=
  firstn (length s) (repeat NaN i ++ s).

Definition cell_at (s : Series) (r : nat) : cell := nth r s NaN.

(** [df.dropna()]: keeps the rows that have no missing value in any column. *)
Definition row_complete (cs : list (string * Series)) (r : nat) : bool :=
  forallb (fun c => negb (isna (cell_at (snd c) r))) cs.

Definition kept_rows (df : DataFrame) : list nat :=
  List.filter (row_complete (columns df)) (seq 0 (nrows df)).

Definition take_rows (rows : list nat) (s : Series) : Series :=
  map (cell_at s) rows.

Definition dropna (df : DataFrame) : DataFrame :=
  let rows := kept_rows df in
  mkDF (length rows)
       (map (fun c => (fst c, take_rows rows (snd c))) (columns df)).

(** [df[cols]] for a list of column names *)
Fixpoint select_columns (df : DataFrame) (cols : list string)
  : result (list (string * Series)) :=
  match cols with
  | [] => Ok []
  | nm :: cols' =>
      match getitem df nm with
      | Raise e => Raise e
      | Ok s =>
          match select_columns df cols' with
          | Raise e => Raise e
          | Ok cs => Ok ((nm, s) :: cs)
          end
      end
  end.

Definition getitems (df : DataFrame) (cols : list string) : result DataFrame :=
  match select_columns df cols with
  | Raise e => Raise e
  | Ok cs => Ok (mkDF (nrows df) cs)
  end.

(** [s.endswith(suffix)] and [s.endswith((suffix, ...))] *)
Definition endswith (s suffix : string) : bool :=
  let n := String.length s in
  let m := String.length suffix in
  (m <=? n) && String.eqb (substring (n - m) m s) suffix.

Definition endswith_any (s : string) (suffixes : list string) : bool :=
  existsb (endswith s) suffixes.

(** ** weather_prediction_model.py *)

(** [self.feature_columns] *)
Definition feature_columns : list string :=
  ["temperature"; "humidity"; "wind_speed"; "precipitation"; "pressure"].

Definition str_of_nat (i : nat) : string :=
  NilEmpty.string_of_uint (Nat.to_uint i).

(** [f'{col}_lag_{i}'] *)
Definition lag_name (col : string) (i : nat) : string :=
  col ++ "_lag_" ++ str_of_nat i.

(** The tuple of suffixes written out in [prepare_data]: it does not follow
    [n_steps]. *)
Definition lag_suffixes : list string :=
  ["lag_1"; "lag_2"; "lag_3"; "lag_4"; "lag_5"; "lag_6"; "lag_7"].

(** [df[f'{col}_lag_{i}'] = df[col].shift(i)] on the caller's frame *)
Definition assign_lag (i : nat) (col : string) : M DataFrame unit :=
  fun df =>
    match getitem df col with
    | Raise e => (df, Raise e)
    | Ok s => (setitem df (lag_name col i) (shift i s), Ok tt)
    end.

(** The two nested loops of [prepare_data]. *)
Definition create_lag_features (n_steps : nat) : M DataFrame unit :=
  for_each (seq 1 n_steps) (fun i =>
    for_each feature_columns (fun col => assign_lag i col)).

(** [prepare_data(df, target_column, n_steps)].  The state is the caller's
    frame: the lag columns are assigned to it before [df = df.dropna()]
    rebinds the local name to a new frame, which the caller never sees. *)
Definition prepare_data (df : DataFrame) (target_column : string) (n_steps : nat)
  : DataFrame * result (DataFrame * Series) :=
  match create_lag_features n_steps df with
  | (df1, Raise e) => (df1, Raise e)
  | (df1, Ok _) =>
      let df2 := dropna df1 in
      let feature_cols :=
        List.filter (fun col => endswith_any col lag_suffixes) (names df2) in
      match getitems df2 feature_cols with
      | Raise e => (df1, Raise e)
      | Ok X =>
          match getitem df2 target_column with
          | Raise e => (df1, Raise e)
          | Ok y => (df1, Ok (X, y))
          end
      end
  end.

(** *** Rounding *)

(** Rounding to the nearest integer, ties to the even one. *)
Definition round_half_even (q : Q) : Z :=
  let f := Qfloor q in
  match Qcompare (q - inject_Z f) (1 # 2) with
  | Lt => f
  | Gt => (f + 1)%Z
  | Eq => if Z.even f then f else (f + 1)%Z
  end.

(** [round(q, ndigits)] *)
Definition py_round (q : Q) (ndigits : nat) : Q :=
  let scale := inject_Z (10 ^ Z.of_nat ndigits) in
  (inject_Z (round_half_even (q * scale)) / scale)%Q.

Definition round_cell (c : cell) (ndigits : nat) : cell :=
  match c with
  | Num q => Num (py_round q ndigits)
  | other => other
  end.

(** *** The libraries behind the model *)

(** A two-dimensional array, row by row ([df.values]). *)
Definition Matrix := list (list cell).

Definition values (df : DataFrame) : Matrix :=
  map (fun r => map (fun c => cell_at (snd c) r) (columns df))
      (seq 0 (nrows df)).

(** [df.iloc[rows]] *)
Definition iloc (df : DataFrame) (rows : list nat) : DataFrame :=
  mkDF (length rows)
       (map (fun c => (fst c, take_rows rows (snd c))) (columns df)).

(** What the code uses of numpy, scikit-learn, pandas and matplotlib.  Every
    estimator call may raise (scikit-learn validates its input).  A random
    generator is a state that a consumer reads and advances. *)
Class Toolkit := {
  rng : Type;
  RandomState : Z -> rng;                        (* np.random.RandomState(seed) *)
  permutation : rng -> nat -> list nat * rng;    (* rng.permutation(n) *)
  Scaler : Type;                                 (* a fitted StandardScaler *)
  StandardScaler_fit : Matrix -> result Scaler;
  StandardScaler_transform : Scaler -> Matrix -> result Matrix;
  Forest : Type;                                 (* a fitted RandomForestRegressor *)
  RandomForestRegressor_fit :
    nat -> rng -> Matrix -> Series -> result Forest * rng;
  RandomForestRegressor_predict : Forest -> Matrix -> result (list Q);
  mean_squared_error : Series -> list Q -> result Q;
  r2_score : Series -> list Q -> result Q;
  savefig : Series -> list Q -> string -> result unit;
  to_datetime : Series -> result Series;
  np_sqrt : Q -> Q
}.

(** [d[key]] on a dictionary with string keys *)
Definition dict_get {A} (d : gmap string A) (key : string) : result A :=
  match d !! key with
  | Some a => Ok a
  | None => Raise (KeyError key)
  end.

(** [a[0]] *)
Definition first {A} (a : list A) : result A :=
  match a with
  | x :: _ => Ok x
  | [] => Raise (IndexError "index 0 is out of bounds for axis 0 with size 0")
  end.

Section Model.

Context {toolkit : Toolkit}.

(** [check_random_state(random_state)]: an integer seeds a generator of its
    own; [None] is the generator shared by the whole process, which the
    consumer advances. *)
Definition check_random_state {A} (random_state : option Z)
  (consumer : rng -> A * rng) (global : rng) : A * rng :=
  match random_state with
  | Some seed => (fst (consumer (RandomState seed)), global)
  | None => consumer global
  end.

(** [_validate_shuffle_split] for a fractional [test_size] and no
    [train_size]. *)
Definition validate_shuffle_split (n_samples : nat) (test_size : Q)
  : result (nat * nat) :=
  let n_test :=
    Z.to_nat (Qceiling (test_size * inject_Z (Z.of_nat n_samples))) in
  let n_train := n_samples - n_test in
  if n_train =? 0 then
    Raise (ValueError
      ("With n_samples=" ++ str_of_nat n_samples ++
       ", test_size=0.2 and train_size=None, the resulting train set will " ++
       "be empty. Adjust any of the aforementioned parameters."))
  else Ok (n_train, n_test).

(** [train_test_split(X, y, test_size=..., random_state=...)] *)
Definition train_test_split (X : DataFrame) (y : Series) (test_size : Q)
  (random_state : option Z) (global : rng)
  : result (DataFrame * DataFrame * Series * Series) * rng :=
  match validate_shuffle_split (nrows X) test_size with
  | Raise e => (Raise e, global)
  | Ok (n_train, n_test) =>
      let '(perm, global') :=
        check_random_state random_state
          (fun r => permutation r (nrows X)) global in
      let ind_test := firstn n_test perm in
      let ind_train := firstn n_train (skipn n_test perm) in
      (Ok (iloc X ind_train, iloc X ind_test,
           take_rows ind_train y, take_rows ind_test y), global')
  end.

(** [RandomForestRegressor(n_estimators=..., random_state=...).fit(X, y)] *)
Definition RandomForestRegressor (n_estimators : nat) (random_state : option Z)
  (X : Matrix) (y : Series) (global : rng) : result Forest * rng :=
  check_random_state random_state
    (fun r => RandomForestRegressor_fit n_estimators r X y) global.

(** [StandardScaler().fit_transform(X)], with the fitted scaler *)
Definition fit_transform (X : Matrix) : result (Scaler * Matrix) :=
  match StandardScaler_fit X with
  | Raise e => Raise e
  | Ok scaler =>
      match StandardScaler_transform scaler X with
      | Raise e => Raise e
      | Ok scaled => Ok (scaler, scaled)
      end
  end.

(** *** The model object and what its methods see *)

(** [self.models] and [self.scalers] *)
Record WeatherPredictionModel := mkModel {
  models : gmap string Forest;
  scalers : gmap string Scaler
}.

(** [WeatherPredictionModel()] *)
Definition new_model : WeatherPredictionModel := mkModel ∅ ∅.

(** The objects a method call works on: the data frame it is given, the model
    object, and the process-wide random generator of numpy. *)
Record Env := mkEnv {
  frame : DataFrame;
  self : WeatherPredictionModel;
  np_random : rng
}.

Definition on_frame {A} (m : DataFrame -> DataFrame * result A) : M Env A :=
  fun e =>
    let '(df, r) := m (frame e) in (mkEnv df (self e) (np_random e), r).

Definition on_random {A} (m : rng -> result A * rng) : M Env A :=
  fun e =>
    let '(r, g) := m (np_random e) in (mkEnv (frame e) (self e) g, r).

(** [self.models[target] = model; self.scalers[target] = scaler] *)
Definition store_model (target : string) (model : Forest) (scaler : Scaler)
  : M Env unit :=
  fun e =>
    (mkEnv (frame e)
           (mkModel (<[target := model]> (models (self e)))
                    (<[target := scaler]> (scalers (self e))))
           (np_random e), Ok tt).

(** [plot_predictions]: the scatter plot saved as [{target}_predictions.png] *)
Definition plot_predictions (y_true : Series) (y_pred : list Q) (target : string)
  : result unit :=
  savefig y_true y_pred (target ++ "_predictions.png").

(** The body of the loop of [train] (the [print] calls write to the console
    only and are left out). *)
Definition train_target (target : string) : M Env unit :=
  let* (X, y) := on_frame (fun df => prepare_data df target 7) in
  let* (X_train, X_test, y_train, y_test) :=
    on_random (train_test_split X y (1 # 5) (Some 42%Z)) in
  let* (scaler, X_train_scaled) := lift (fit_transform (values X_train)) in
  let* X_test_scaled := lift (StandardScaler_transform scaler (values X_test)) in
  let* model := on_random
             (RandomForestRegressor 100 (Some 42%Z) X_train_scaled y_train) in
  let* y_pred := lift (RandomForestRegressor_predict model X_test_scaled) in
  let* _ := lift (mean_squared_error y_test y_pred) in
  let* _ := lift (r2_score y_test y_pred) in
  let* _ := store_model target model scaler in
  lift (plot_predictions y_test y_pred target).

(** [train(self, df)] *)
Definition train : M Env unit := for_each feature_columns train_target.

(** [X.iloc[-1:].values] *)
Definition last_row_values (X : DataFrame) : Matrix :=
  values (iloc X (skipn (nrows X - 1) (seq 0 (nrows X)))).

(** The body of the loop of [predict_next_day]; [predictions] is the local
    dictionary being filled. *)
Definition predict_target (predictions : gmap string Q) (target : string)
  : M Env (gmap string Q) :=
  let* (X, _) := on_frame (fun df => prepare_data df target 7) in
  if 0 <? nrows X then
    let last_features := last_row_values X in
    let* scaler := (fun e => (e, dict_get (scalers (self e)) target)) in
    let* last_features_scaled :=
      lift (StandardScaler_transform scaler last_features) in
    let* model := (fun e => (e, dict_get (models (self e)) target)) in
    let* y_pred :=
      lift (RandomForestRegressor_predict model last_features_scaled) in
    let* pred := lift (first y_pred) in
    ret (<[target := py_round pred 2]> predictions)
  else ret predictions.

Fixpoint predict_loop (targets : list string) (predictions : gmap string Q)
  : M Env (gmap string Q) :=
  match targets with
  | [] => ret predictions
  | target :: rest =>
      let* predictions' := predict_target predictions target in
      predict_loop rest predictions'
  end.

(** [predict_next_day(self, df)] *)
Definition predict_next_day : M Env (gmap string Q) :=
  predict_loop feature_columns ∅.

(** ** app.py: the two routes that drive the model *)

(** The module-level [model], the file [weather_data.csv] as [pd.read_csv]
    returns it (or the exception it raises), and numpy's generator. *)
Record App := mkApp {
  model : option WeatherPredictionModel;
  weather_data_csv : result DataFrame;
  numpy_random : rng
}.

(** A JSON body with its HTTP status code. *)
Record Response := mkResponse {
  status : string;
  message : option string;
  predictions : option (gmap string Q);
  code : nat
}.

Definition error_response (msg : string) (c : nat) : Response :=
  mkResponse "error" (Some msg) None c.

(** [df = pd.read_csv('weather_data.csv'); df['date'] = pd.to_datetime(df['date'])] *)
Definition load_dataset (app : App) : result DataFrame :=
  match weather_data_csv app with
  | Raise e => Raise e
  | Ok df =>
      match getitem df "date" with
      | Raise e => Raise e
      | Ok s =>
          match to_datetime s with
          | Raise e => Raise e
          | Ok d => Ok (setitem df "date" d)
          end
      end
  end.

(** [GET /api/initialize].  The global [model] is bound to the new object
    before [train] runs, and [train] fills that object in place. *)
Definition initialize_model (app : App) : App * Response :=
  match load_dataset app with
  | Raise e => (app, error_response (str_exn e) 500)
  | Ok df =>
      let '(env, r) := train (mkEnv df new_model (numpy_random app)) in
      let app' := mkApp (Some (self env)) (weather_data_csv app) (np_random env) in
      match r with
      | Ok _ =>
          (app', mkResponse "success"
                   (Some "Model initialized and trained successfully") None 200)
      | Raise e => (app', error_response (str_exn e) 500)
      end
  end.

(** [GET /api/predict] *)
Definition predict (app : App) : App * Response :=
  match model app with
  | None =>
      (app, error_response
              "Model not initialized. Please call /api/initialize first" 400)
  | Some m =>
      match load_dataset app with
      | Raise e => (app, error_response (str_exn e) 500)
      | Ok df =>
          let '(env, r) := predict_next_day (mkEnv df m (numpy_random app)) in
          let app' := mkApp (Some (self env)) (weather_data_csv app) (np_random env) in
          match r with
          | Ok p => (app', mkResponse "success" None (Some p) 200)
          | Raise e => (app', error_response (str_exn e) 500)
          end
      end
  end.

(** The process starts with [model = None]. *)
Definition start (csv : result DataFrame) (g : rng) : App := mkApp None csv g.

Inductive request := GET_initialize | GET_predict.

Definition handle (app : App) (r : request) : App * Response :=
  match r with
  | GET_initialize => initialize_model app
  | GET_predict => predict app
  end.

(** The application after a sequence of requests, with the responses. *)
Fixpoint serve (app : App) (rs : list request) : App * list Response :=
  match rs with
  | [] => (app, [])
  | r :: rs' =>
      let '(app1, resp) := handle app r in
      let '(app2, resps) := serve app1 rs' in
      (app2, resp :: resps)
  end.

End Model.

(** ** weather_prediction_model.py: the script *)

Section Script.

Context {toolkit : Toolkit}.

(** [main()]: load the data set, train a new model on it and predict from
    the same frame.  The result is the dictionary that the script prints, or
    the exception that ends it. *)
Definition main (csv : result DataFrame) (g : rng) : result (gmap string Q) :=
  match load_dataset (start csv g) with
  | Raise e => Raise e
  | Ok df =>
      match train (mkEnv df new_model g) with
      | (_, Raise e) => Raise e
      | (env, Ok _) => snd (predict_next_day env)
      end
  end.

End Script.

(** ** weather_data_analyzer.py *)

(** Time is counted in microseconds from a midnight of the local clock. *)
Definition second : Z := 1000000.
Definition day : Z := 86400 * second.

(** [t.strftime('%Y-%m-%d %H:%M:%S')] and [t.strftime('%Y-%m-%d')], as the
    time that [pd.to_datetime] reads back from the text. *)
Definition strftime_seconds (t : Z) : Z := (t - t mod second)%Z.
Definition strftime_date (t : Z) : Z := (t - t mod day)%Z.

(** A record of [current_weather.csv] *)
Module Current.
Record row := mk {
  timestamp : Z;
  city : cell;
  temperature : cell;
  feels_like : cell;
  humidity : cell;
  pressure : cell;
  wind_speed : cell;
  description : cell;
  icon : cell
}.
End Current.

(** A record of [historical_weather.csv] *)
Module Historical.
Record row := mk {
  date : Z;
  city : cell;
  temperature : cell;
  humidity : cell;
  wind_speed : cell;
  pressure : cell;
  description : cell
}.
End Historical.

Module Stats.
Record t := mk { mean : cell; min : cell; max : cell; std : cell }.
End Stats.

Module Analysis.
Record t := mk {
  temperature : Stats.t;
  humidity : Stats.t;
  wind_speed : Stats.t;
  pressure : Stats.t;
  weather_conditions : list (cell * nat);
  data_points : nat;
  date_range : Z * Z
}.
End Analysis.

(** What [json.dump] has left in the summary file: the whole dictionary, or
    its text up to the value that it could not write, the minimum of
    [attribute]. *)
Inductive summary :=
| Written (data : Analysis.t)
| Truncated (data : Analysis.t) (attribute : string).

(** The files under [data/]: the two logs, a record per line after the
    header, and the summary written last.  A log is given by the records
    that were appended to it.  The readers work on these records: what
    [pd.read_csv] makes of the text of a record (a city written as NA is read
    as a missing value, a city written in digits as a number) is not
    modelled. *)
Record WeatherDataAnalyzer := mkAnalyzer {
  current_data_file : list Current.row;
  historical_data_file : list Historical.row;
  analysis_file : option summary
}.

(** The dictionary that the analysis returns: [status] is ['error'] with a
    [message], or ['success'] with the [data]. *)
Inductive AnalysisResult :=
| analysis_error (message : string)
| analysis_success (data : Analysis.t).

Definition bind_result {A B} (r : result A) (k : A -> result B) : result B :=
  match r with
  | Ok a => k a
  | Raise e => Raise e
  end.

Notation "'let?' p ':=' c 'in' k" := (bind_result c (fun p => k))
  (at level 10, p pattern, c at level 100, k at level 200, only parsing).

(** The dictionary [new_data] of [store_current_weather] *)
Definition new_data (weather_data : gmap string cell) (now : Z)
  : result Current.row :=
  let timestamp := strftime_seconds now in
  let? city := dict_get weather_data "city" in
  let? temperature := dict_get weather_data "temperature" in
  let? feels_like := dict_get weather_data "feels_like" in
  let? humidity := dict_get weather_data "humidity" in
  let? pressure := dict_get weather_data "pressure" in
  let? wind_speed := dict_get weather_data "wind_speed" in
  let? description := dict_get weather_data "description" in
  let? icon := dict_get weather_data "icon" in
  Ok (Current.mk timestamp city temperature feels_like humidity pressure
                 wind_speed description icon).

(** The dictionary [historical_data] of [store_current_weather] *)
Definition historical_data (weather_data : gmap string cell) (now : Z)
  : result Historical.row :=
  let date := strftime_date now in
  let? city := dict_get weather_data "city" in
  let? temperature := dict_get weather_data "temperature" in
  let? humidity := dict_get weather_data "humidity" in
  let? wind_speed := dict_get weather_data "wind_speed" in
  let? pressure := dict_get weather_data "pressure" in
  let? description := dict_get weather_data "description" in
  Ok (Historical.mk date city temperature humidity wind_speed pressure
                    description).

(** [store_current_weather(weather_data)].  [now] and [now'] are the two
    readings of [datetime.now()].  Whatever is raised inside the [try] is
    printed and answered with [False]; what was appended before stays. *)
Definition store_current_weather (weather_data : gmap string cell)
  (now now' : Z) (a : WeatherDataAnalyzer) : WeatherDataAnalyzer * bool :=
  match new_data weather_data now with
  | Raise _ => (a, false)
  | Ok row =>
      let a1 := mkAnalyzer (current_data_file a ++ [row])
                           (historical_data_file a) (analysis_file a) in
      match historical_data weather_data now' with
      | Raise _ => (a1, false)
      | Ok hrow =>
          (mkAnalyzer (current_data_file a1)
                      (historical_data_file a1 ++ [hrow]) (analysis_file a1),
           true)
      end
  end.

(** *** Descriptive statistics of a column *)

(** The values that pandas aggregates: missing ones are skipped, and a cell
    that is not a number makes the aggregation raise. *)
Fixpoint numeric_values (s : Series) : result (list Q) :=
  match s with
  | [] => Ok []
  | NaN :: s' => numeric_values s'
  | Num q :: s' => let? qs := numeric_values s' in Ok (q :: qs)
  | _ :: _ => Raise (TypeError "Could not convert to numeric")
  end.

Definition Qsum (xs : list Q) : Q := fold_right Qplus 0%Q xs.

Definition Qlen (xs : list Q) : Q := inject_Z (Z.of_nat (length xs)).

(** [s.mean()] *)
Definition series_mean (xs : list Q) : cell :=
  match xs with
  | [] => NaN
  | _ => Num (Qsum xs / Qlen xs)
  end.

(** [s.min()] and [s.max()] *)
Definition series_min (xs : list Q) : cell :=
  match xs with
  | [] => NaN
  | x :: xs' => Num (fold_left Qmin xs' x)
  end.

Definition series_max (xs : list Q) : cell :=
  match xs with
  | [] => NaN
  | x :: xs' => Num (fold_left Qmax xs' x)
  end.

Section Analyzer.

Context {toolkit : Toolkit}.

(** [s.std()]: the sample standard deviation ([ddof=1]), which is undefined
    for fewer than two values. *)
Definition series_std (xs : list Q) : cell :=
  if length xs <=? 1 then NaN
  else
    let m := (Qsum xs / Qlen xs)%Q in
    Num (np_sqrt (Qsum (map (fun x => (x - m) * (x - m)) xs) / (Qlen xs - 1))%Q).

(** The four rounded statistics of one column *)
Definition describe (s : Series) : result Stats.t :=
  let? xs := numeric_values s in
  Ok (Stats.mk (round_cell (series_mean xs) 1) (round_cell (series_min xs) 1)
               (round_cell (series_max xs) 1) (round_cell (series_std xs) 1)).

(** [s.value_counts().to_dict()]: how often each value occurs, missing values
    not counted.  (pandas lists the values by decreasing count; the listing
    here is by first occurrence.) *)
Definition cell_eqb (a b : cell) : bool :=
  match a, b with
  | Num p, Num q => Qeq_bool p q
  | Str s, Str t => String.eqb s t
  | Time s, Time t => Z.eqb s t
  | _, _ => false
  end.

Fixpoint count_value (c : cell) (counts : list (cell * nat)) : list (cell * nat) :=
  match counts with
  | [] => [(c, 1)]
  | (k, n) :: rest =>
      if cell_eqb k c then (k, S n) :: rest else (k, n) :: count_value c rest
  end.

Definition value_counts (s : Series) : list (cell * nat) :=
  fold_left (fun counts c => if isna c then counts else count_value c counts)
            s [].

(** [if city:] *)
Definition truthy (city : option string) : bool :=
  match city with
  | Some s => negb (String.eqb s "")
  | None => false
  end.

(** [end_date - pd.Timedelta(days=days)] for [end_date = now].  pandas keeps
    a [Timedelta] in 64-bit nanoseconds, which is at most 106751 days, and
    the running clock is taken to stand between the years 1970 and 2100:
    within the bounds below the start is a time that [datetime] and the
    timestamps of pandas both hold.  What a number of days beyond them gives
    (an exception of the [Timedelta], of the subtraction or of the
    comparison, or a start computed otherwise) is not modelled: it is the
    argument [beyond]. *)
Definition window_start (beyond : result Z) (days now : Z) : result Z :=
  if ((-36500 <=? days) && (days <=? 106751))%Z then Ok (now - days * day)%Z
  else beyond.

(** The rows of [df] after the two filters of [get_weather_analysis] *)
Definition filter_history (rows : list Historical.row) (city : option string)
  (start_date : Z) : list Historical.row :=
  let df := if truthy city
            then List.filter
                   (fun r => cell_eqb (Historical.city r)
                                      (Str (default "" city))) rows
            else rows in
  List.filter (fun r => (start_date <=? Historical.date r)%Z) df.

Definition dates_min (dates : list Z) : Z :=
  match dates with [] => 0%Z | d :: ds => fold_left Z.min ds d end.

Definition dates_max (dates : list Z) : Z :=
  match dates with [] => 0%Z | d :: ds => fold_left Z.max ds d end.

(** The dictionary [analysis] *)
Definition analyse (df : list Historical.row) : result Analysis.t :=
  let? temperature := describe (map Historical.temperature df) in
  let? humidity := describe (map Historical.humidity df) in
  let? wind_speed := describe (map Historical.wind_speed df) in
  let? pressure := describe (map Historical.pressure df) in
  Ok (Analysis.mk temperature humidity wind_speed pressure
        (value_counts (map Historical.description df))
        (length df)
        (dates_min (map Historical.date df), dates_max (map Historical.date df))).

(** [json.dump(analysis, f, indent=4)] on the file just opened for writing.
    The minimum and the maximum of a column that pandas has read with an
    integer type are numpy integers, also after [round], and [json] refuses
    them; the text before the first of them has been written by then.
    [int64 c] tells whether the column [c] of the historical log has an
    integer type (every entry of the file is written as an integer and none
    is missing): the cells, being rationals, do not record it. *)
Definition json_dump (int64 : string -> bool) (analysis : Analysis.t)
  : summary * result unit :=
  match List.find int64 ["temperature"; "humidity"; "wind_speed"; "pressure"] with
  | Some c =>
      (Truncated analysis c,
       Raise (TypeError "Object of type int64 is not JSON serializable"))
  | None => (Written analysis, Ok tt)
  end.

(** [get_weather_analysis(city, days)], [now] being [datetime.now()].
    Whatever is raised inside the [try] is answered as an error with the
    text of the exception. *)
Definition get_weather_analysis (city : option string) (days now : Z)
  (beyond : result Z) (int64 : string -> bool)
  (a : WeatherDataAnalyzer) : WeatherDataAnalyzer * AnalysisResult :=
  match window_start beyond days now with
  | Raise e => (a, analysis_error (str_exn e))
  | Ok start_date =>
      let df := filter_history (historical_data_file a) city start_date in
      if length df =? 0 then
        (a, analysis_error "No data available for the specified period")
      else
        match analyse df with
        | Raise e => (a, analysis_error (str_exn e))
        | Ok analysis =>
            let '(file, r) := json_dump int64 analysis in
            let a' := mkAnalyzer (current_data_file a) (historical_data_file a)
                                 (Some file) in
            match r with
            | Raise e => (a', analysis_error (str_exn e))
            | Ok _ => (a', analysis_success analysis)
            end
        end
  end.

End Analyzer.

(** ** weather_data_analyzer.py: the two queries *)

(** [df.tail(n)]: the last [n] rows; for a negative [n], all rows but the
    first [-n]. *)
Definition tail {A} (n : Z) (l : list A) : list A :=
  if (0 <=? n)%Z then skipn (length l - Z.to_nat n) l
  else skipn (Z.to_nat (- n)) l.

(** [get_recent_weather(city, limit)] *)
Definition get_recent_weather (city : option string) (limit : Z)
  (a : WeatherDataAnalyzer) : list Current.row :=
  let df := current_data_file a in
  let df := if truthy city
            then List.filter
                   (fun r => cell_eqb (Current.city r) (Str (default "" city)))
                   df
            else df in
  tail limit df.

Section Queries.

(** [pd.to_datetime] of the text of a request argument: a time, [NaT]
    (here [NaN]), or an exception. *)
Variable to_timestamp : string -> result cell.

(** [if s:] for a request argument *)
Definition given (s : option string) : bool := truthy s.

(** [df['date'] >= ts] and [df['date'] <= ts]; nothing compares with
    [NaT]. *)
Definition date_ge (ts : cell) (r : Historical.row) : bool :=
  match ts with
  | Time t => (t <=? Historical.date r)%Z
  | _ => false
  end.

Definition date_le (ts : cell) (r : Historical.row) : bool :=
  match ts with
  | Time t => (Historical.date r <=? t)%Z
  | _ => false
  end.

(** The body of the [try] of [get_historical_data] *)
Definition historical_query (city start_date end_date : option string)
  (rows : list Historical.row) : result (list Historical.row) :=
  let df := if truthy city
            then List.filter
                   (fun r => cell_eqb (Historical.city r)
                                      (Str (default "" city))) rows
            else rows in
  let? df := if given start_date
             then let? ts := to_timestamp (default "" start_date) in
                  Ok (List.filter (date_ge ts) df)
             else Ok df in
  let? df := if given end_date
             then let? ts := to_timestamp (default "" end_date) in
                  Ok (List.filter (date_le ts) df)
             else Ok df in
  Ok df.

(** [get_historical_data(city, start_date, end_date)]: whatever is raised is
    printed and answered with the empty list. *)
Definition get_historical_data (city start_date end_date : option string)
  (a : WeatherDataAnalyzer) : list Historical.row :=
  match historical_query city start_date end_date (historical_data_file a) with
  | Ok df => df
  | Raise _ => []
  end.

End Queries.

(** ** app.py: the weather routes *)

(** A JSON document as [response.json()] returns it.  An object is a
    dictionary: a key is looked up among its fields.  A number is a
    rational, whether the document writes it as an integer or not. *)
Inductive json :=
| JNull
| JBool (b : bool)
| JNum (q : Q)
| JStr (s : string)
| JArr (items : list json)
| JObj (fields : list (string * json)).

Fixpoint fields_get (key : string) (fields : list (string * json)) : option json :=
  match fields with
  | [] => None
  | (k, v) :: rest => if String.eqb k key then Some v else fields_get key rest
  end.

(** [j[key]] for a text key *)
Definition subscript (j : json) (key : string) : result json :=
  match j with
  | JObj fields =>
      match fields_get key fields with
      | Some v => Ok v
      | None => Raise (KeyError key)
      end
  | JArr _ => Raise (TypeError "list indices must be integers or slices, not str")
  | JStr _ => Raise (TypeError "string indices must be integers, not 'str'")
  | _ => Raise (TypeError "object is not subscriptable")
  end.

(** [j[0]] *)
Definition item0 (j : json) : result json :=
  match j with
  | JArr (x :: _) => Ok x
  | JArr [] => Raise (IndexError "list index out of range")
  | JStr (String c _) => Ok (JStr (String c EmptyString))
  | JStr EmptyString => Raise (IndexError "string index out of range")
  | JObj _ => Raise (KeyError "0")
  | _ => Raise (TypeError "object is not subscriptable")
  end.

(** The number that an arithmetic operation, a comparison with a number or
    [round] sees in a JSON value; anything but a number or a boolean makes
    them raise [TypeError]. *)
Definition as_number (j : json) : result Q :=
  match j with
  | JNum q => Ok q
  | JBool true => Ok 1%Q
  | JBool false => Ok 0%Q
  | _ => Raise (TypeError "unsupported operand type(s)")
  end.

(** [if j:] *)
Definition json_truthy (j : json) : bool :=
  match j with
  | JNull => false
  | JBool b => b
  | JNum q => negb (Qeq_bool q 0)
  | JStr s => negb (String.eqb s "")
  | JArr items => match items with [] => false | _ => true end
  | JObj fields => match fields with [] => false | _ => true end
  end.

(** *** get_weather_data *)

(** What [requests.get(url)] does: it raises a [RequestException] or
    something else, or returns a response with its status code, its text and
    what [response.json()] gives. *)
Inductive failure :=
| RequestException (msg : string)
| OtherException (msg : string).

Inductive http_result :=
| Failed (f : failure)
| Response_ (status_code : nat) (text : string) (body : failure + json).

Definition error_dict (code message : string) : json :=
  JObj [("error", JStr code); ("message", JStr message)].

Definition failure_dict (f : failure) : json :=
  match f with
  | RequestException msg => error_dict "NETWORK_ERROR" ("Network error: " ++ msg)
  | OtherException msg =>
      error_dict "UNKNOWN_ERROR" ("An unexpected error occurred: " ++ msg)
  end.

(** A JSON answer of a route with its status code. *)
Record Reply (A : Type) := mkReply {
  reply_status : string;
  reply_message : option string;
  reply_data : option A;
  reply_code : nat
}.
Arguments mkReply {A}.
Arguments reply_status {A}.
Arguments reply_message {A}.
Arguments reply_data {A}.
Arguments reply_code {A}.

Section WeatherRoutes.

(** The network, the configured key ([os.getenv]) and
    [datetime.fromtimestamp(dt).strftime(...)] with the two formats that the
    routes use; [fromtimestamp] raises for a number out of its range.  The
    city of a route is the text that the address is formatted with. *)
Variable requests_get : string -> http_result.
Variable OPENWEATHER_API_KEY : option string.
Variable strftime_full : Q -> result string.
Variable strftime_day : Q -> result string.

Definition weather_url (kind city key : string) : string :=
  "http://api.openweathermap.org/data/2.5/" ++ kind ++ "?q=" ++ city ++
  "&appid=" ++ key ++ "&units=metric".

(** One of the two requests of [get_weather_data] with the tests on its
    answer; [what] is the word of the error message.  The state is the list
    of the addresses requested so far. *)
Definition fetch (kind what city key : string) (log : list string)
  : list string * (json + json) :=
  let url := weather_url kind city key in
  let log := log ++ [url] in
  match requests_get url with
  | Failed f => (log, inl (failure_dict f))
  | Response_ status_code text body =>
      if status_code =? 401 then
        (log, inl (error_dict "API_KEY_INVALID"
                     ("Invalid OpenWeather API key. Please check your API " ++
                      "key in the .env file.")))
      else if negb (status_code =? 200) then
        (log, inl (error_dict "API_ERROR"
                     ("Error fetching " ++ what ++ " data: " ++ text)))
      else
        match body with
        | inl f => (log, inl (failure_dict f))
        | inr document => (log, inr document)
        end
  end.

(** [get_weather_data(city)]: it returns a dictionary in every case. *)
Definition get_weather_data (city : string) (log : list string)
  : list string * json :=
  if negb (truthy OPENWEATHER_API_KEY) then
    (log, error_dict "API_KEY_MISSING"
            ("OpenWeather API key is not set. Please add your API key to " ++
             "the .env file."))
  else
    let key := default "" OPENWEATHER_API_KEY in
    match fetch "weather" "weather" city key log with
    | (log, inl error) => (log, error)
    | (log, inr current_data) =>
        match fetch "forecast" "forecast" city key log with
        | (log, inl error) => (log, error)
        | (log, inr forecast_data) =>
            (log, JObj [("current", current_data); ("forecast", forecast_data)])
        end
    end.

(** *** get_weather_alerts *)

Definition alert : Type := string * string.    (* type, message *)

(** The alerts for a document of current conditions: the body of the [if]
    of [get_weather_alerts], which catches nothing. *)
Definition alerts_of (current : json) : result (list alert) :=
  let alerts := [] in
  let? main := subscript current "main" in
  let? temp := subscript main "temp" in
  let? t := as_number temp in
  let alerts :=
    if Qlt_le_dec 30 t then
      alerts ++ [("warning",
                  "High temperature alert: Stay hydrated and avoid prolonged sun exposure.")]
    else if Qlt_le_dec t 10 then
      alerts ++ [("info",
                  "Low temperature alert: Dress warmly and be cautious of frost.")]
    else alerts in
  let? main := subscript current "main" in
  let? humidity := subscript main "humidity" in
  let? h := as_number humidity in
  let alerts :=
    if Qlt_le_dec 80 h then
      alerts ++ [("warning",
                  "High humidity alert: Increased risk of heat-related illnesses.")]
    else alerts in
  let? wind := subscript current "wind" in
  let? speed := subscript wind "speed" in
  let? s := as_number speed in
  let wind_speed := (s * (36 # 10))%Q in
  let alerts :=
    if Qlt_le_dec 20 wind_speed then
      alerts ++ [("warning",
                  "Strong wind alert: Secure outdoor objects and be cautious.")]
    else alerts in
  let alerts :=
    match alerts with
    | [] => [("success", "No weather alerts at this time.")]
    | _ => alerts
    end in
  Ok alerts.

(** [GET /api/weather/alerts]: the answer, or the exception that the route
    lets out. *)
Definition get_weather_alerts (city : string) (log : list string)
  : list string * result (Reply (list alert)) :=
  let '(log, weather_data) := get_weather_data city log in
  if json_truthy weather_data then
    (log,
     let? current := subscript weather_data "current" in
     let? alerts := alerts_of current in
     Ok (mkReply "success" None (Some alerts) 200))
  else
    (log, Ok (mkReply "error" (Some "Failed to fetch weather alerts") None 500)).

(** *** get_weather_forecast *)

(** A dictionary [daily_data] *)
Record daily := mkDaily {
  d_date : string;
  d_temperature : Q;
  d_humidity : json;
  d_pressure : json;
  d_wind_speed : Q;
  d_description : json;
  d_icon : json
}.

(** What the loop reads from one item of the forecast list, in the order of
    the source: the date first; the six values are read in both branches. *)
Definition read_item (item : json) : result daily :=
  let? dt := subscript item "dt" in
  let? dt := as_number dt in
  let? date := strftime_day dt in
  let? main := subscript item "main" in
  let? temp := subscript main "temp" in
  let? temp := as_number temp in
  let? main := subscript item "main" in
  let? humidity := subscript main "humidity" in
  let? main := subscript item "main" in
  let? pressure := subscript main "pressure" in
  let? wind := subscript item "wind" in
  let? speed := subscript wind "speed" in
  let? speed := as_number speed in
  let? weather := subscript item "weather" in
  let? weather0 := item0 weather in
  let? description := subscript weather0 "description" in
  let? weather := subscript item "weather" in
  let? weather0 := item0 weather in
  let? icon := subscript weather0 "icon" in
  Ok (mkDaily date (py_round temp 1) humidity pressure
              (py_round (speed * (36 # 10)) 1) description icon).

(** The state of the loop: [current_date], [daily_data] (the empty
    dictionary is [None]) and [daily_forecasts]. *)
Definition grouping : Type := option string * option daily * list daily.

Definition group_step (st : grouping) (item : json) : result grouping :=
  let '(current_date, daily_data, daily_forecasts) := st in
  let? d := read_item item in
  if negb (match current_date with
           | Some c => String.eqb (d_date d) c
           | None => false
           end)
  then
    let daily_forecasts :=
      match daily_data with
      | Some dd => if truthy current_date then daily_forecasts ++ [dd]
                   else daily_forecasts
      | None => daily_forecasts
      end in
    Ok (Some (d_date d), Some d, daily_forecasts)
  else
    match daily_data with
    | Some dd =>
        Ok (current_date,
            Some (mkDaily (d_date dd) (d_temperature d) (d_humidity d)
                          (d_pressure d) (d_wind_speed d) (d_description d)
                          (d_icon d)),
            daily_forecasts)
    | None =>
        (* never reached: the date and the dictionary are set together *)
        Ok (current_date,
            Some (mkDaily "" (d_temperature d) (d_humidity d) (d_pressure d)
                          (d_wind_speed d) (d_description d) (d_icon d)),
            daily_forecasts)
    end.

Fixpoint group_loop (st : grouping) (items : list json) : result grouping :=
  match items with
  | [] => Ok st
  | item :: rest =>
      let? st := group_step st item in
      group_loop st rest
  end.

(** The keys of a dictionary in the order in which it holds them; of a key
    that is listed twice the first entry counts, as in [fields_get]. *)
Fixpoint keys (seen : list string) (fields : list (string * json))
  : list string :=
  match fields with
  | [] => []
  | (k, _) :: rest =>
      if existsb (String.eqb k) seen then keys seen rest
      else k :: keys (k :: seen) rest
  end.

(** [for item in forecast['list']]: a list gives its items, a text its
    characters, a dictionary its keys; nothing else can be iterated. *)
Definition iterate (j : json) : result (list json) :=
  match j with
  | JArr items => Ok items
  | JStr s =>
      Ok (map (fun c => JStr (String c EmptyString)) (list_ascii_of_string s))
  | JObj fields => Ok (map JStr (keys [] fields))
  | _ => Raise (TypeError "object is not iterable")
  end.

(** The daily forecasts for a forecast document. *)
Definition daily_forecasts_of (forecast : json) : result (list daily) :=
  let? l := subscript forecast "list" in
  let? items := iterate l in
  let? st := group_loop (None, None, []) items in
  let '(_, daily_data, daily_forecasts) := st in
  Ok (match daily_data with
      | Some dd => daily_forecasts ++ [dd]
      | None => daily_forecasts
      end).

(** [GET /api/weather/forecast] *)
Definition get_weather_forecast (city : string) (log : list string)
  : list string * result (Reply (list daily)) :=
  let '(log, weather_data) := get_weather_data city log in
  if json_truthy weather_data then
    (log,
     let? forecast := subscript weather_data "forecast" in
     let? days := daily_forecasts_of forecast in
     Ok (mkReply "success" None (Some days) 200))
  else
    (log, Ok (mkReply "error" (Some "Failed to fetch forecast data") None 500)).

(** *** get_current_weather *)

(** [str] of a JSON value that is neither a number nor a text. *)
Variable py_str : json -> string.

(** The cell that a value of the dictionary [data] becomes in the logs. *)
Definition cell_of (j : json) : cell :=
  match j with
  | JNum q => Num q
  | JStr s => Str s
  | JNull => NaN
  | other => Str (py_str other)
  end.

(** The dictionary [data] of [get_current_weather] *)
Definition current_data (current : json) : result (gmap string cell) :=
  let? main := subscript current "main" in
  let? temp := subscript main "temp" in
  let? temp := as_number temp in
  let? main := subscript current "main" in
  let? feels_like := subscript main "feels_like" in
  let? feels_like := as_number feels_like in
  let? main := subscript current "main" in
  let? humidity := subscript main "humidity" in
  let? main := subscript current "main" in
  let? pressure := subscript main "pressure" in
  let? wind := subscript current "wind" in
  let? speed := subscript wind "speed" in
  let? speed := as_number speed in
  let? weather := subscript current "weather" in
  let? weather0 := item0 weather in
  let? description := subscript weather0 "description" in
  let? weather := subscript current "weather" in
  let? weather0 := item0 weather in
  let? icon := subscript weather0 "icon" in
  let? name := subscript current "name" in
  let? sys := subscript current "sys" in
  let? country := subscript sys "country" in
  let? dt := subscript current "dt" in
  let? dt := as_number dt in
  let? timestamp := strftime_full dt in
  Ok (list_to_map
        [("temperature", Num (py_round temp 1));
         ("feels_like", Num (py_round feels_like 1));
         ("humidity", cell_of humidity);
         ("pressure", cell_of pressure);
         ("wind_speed", Num (py_round (speed * (36 # 10)) 1));
         ("description", cell_of description);
         ("icon", cell_of icon);
         ("city", cell_of name);
         ("country", cell_of country);
         ("timestamp", Str timestamp)]).

(** [GET /api/weather/current].  [now] and [now'] are the two readings of
    the clock inside [store_current_weather], whose answer the route does not
    look at. *)
Definition get_current_weather (city : string) (now now' : Z)
  (st : list string * WeatherDataAnalyzer)
  : (list string * WeatherDataAnalyzer) * Reply (gmap string cell) :=
  let '(log, analyzer) := st in
  let '(log, weather_data) := get_weather_data city log in
  match weather_data with
  | JNull =>
      ((log, analyzer),
       mkReply "error"
         (Some ("Failed to fetch weather data. Please check if the API key " ++
                "is set correctly.")%string)
         None 500)
  | _ =>
  match (let? current := subscript weather_data "current" in
         current_data current) with
  | Ok data =>
      let '(analyzer, _) := store_current_weather data now now' analyzer in
      ((log, analyzer), mkReply "success" None (Some data) 200)
  | Raise (KeyError _) =>
      ((log, analyzer),
       mkReply "error"
         (Some "Error parsing weather data. Please check the API response format.")
         None 500)
  | Raise _ =>
      ((log, analyzer),
       mkReply "error"
         (Some "An unexpected error occurred while processing weather data.")
         None 500)
  end
  end.

End WeatherRoutes.
(** * Vocabulary of the statements *)

(** A sequence of column assignments, the last one to a name winning. *)
Definition assign_all (asg cs : list (string * Series)) : list (string * Series) :=
  fold_left (fun cs a => assoc_set (fst a) (snd a) cs) asg cs.

(** The column [c] of [df], empty when there is none. *)
Definition column (df : DataFrame) (c : string) : Series :=
  match assoc_get c (columns df) with Some s => s | None => [] end.

Definition has_columns (df : DataFrame) (cols : list string) : Prop :=
  forall c, In c cols -> In c (names df).

(** What the loops assign when no lookup fails, in the order of the
    assignments. *)
Definition lag_columns (df : DataFrame) (cols : list string) (i : nat)
  : list (string * Series) :=
  map (fun c => (lag_name c i, shift i (column df c))) cols.

Definition lag_assignments (df : DataFrame) (steps : list nat)
  : list (string * Series) :=
  flat_map (lag_columns df feature_columns) steps.

(** The caller's frame after the lag loops. *)
Definition lagged (n_steps : nat) (df : DataFrame) : DataFrame :=
  mkDF (nrows df)
       (assign_all (lag_assignments df (seq 1 n_steps)) (columns df)).

Definition lag_feature_names (df : DataFrame) : list string :=
  List.filter (fun col => endswith_any col lag_suffixes) (names df).

Definition is_lag_name (n_steps : nat) (nm : string) : Prop :=
  exists c i, In c feature_columns /\ 1 <= i <= n_steps /\ nm = lag_name c i.

(** No value is missing in any column, the lag columns that an earlier call
    may have left in the table aside (they are assigned again). *)
Definition complete (n_steps : nat) (df : DataFrame) : Prop :=
  forall nm s r,
    In (nm, s) (columns df) -> ~ is_lag_name n_steps nm ->
    r < nrows df -> isna (cell_at s r) = false.

Definition lag_names (steps : list nat) : list string :=
  flat_map (fun i => map (fun c => lag_name c i) feature_columns) steps.

(** The two values that [prepare_data] returns on a table that holds the
    tracked columns and the target. *)
Definition feature_frame (n_steps : nat) (df : DataFrame) : DataFrame :=
  let df1 := lagged n_steps df in
  let rows := kept_rows df1 in
  mkDF (length rows)
       (map (fun nm => (nm, take_rows rows (column df1 nm)))
            (lag_feature_names df1)).

Definition target_series (n_steps : nat) (df : DataFrame) (target : string)
  : Series :=
  let df1 := lagged n_steps df in
  take_rows (kept_rows df1) (column df1 target).

(** Checkers for concrete tables *)
Fixpoint distinct (l : list string) : bool :=
  match l with
  | [] => true
  | x :: l' => negb (existsb (String.eqb x) l') && distinct l'
  end.

Definition well_formed_b (df : DataFrame) : bool :=
  distinct (names df) &&
  forallb (fun c => length (snd c) =? nrows df) (columns df).

Definition has_columns_b (df : DataFrame) (cols : list string) : bool :=
  forallb (fun c => existsb (String.eqb c) (names df)) cols.

Definition no_missing_b (df : DataFrame) : bool :=
  forallb (fun c => forallb (fun x => negb (isna x)) (snd c)) (columns df).

(** ** Example tables *)

(** [n] days of the five attributes and a date, the value of the [a]-th
    attribute on day [r] being [10 a + r]. *)
Definition sample_column (a n : nat) : Series :=
  map (fun r => Num (inject_Z (Z.of_nat (10 * a + r)))) (seq 0 n).

Definition sample_table (n : nat) : DataFrame :=
  mkDF n [("date", map (fun r => Time (Z.of_nat r * day)) (seq 0 n));
          ("temperature", sample_column 1 n);
          ("humidity", sample_column 2 n);
          ("wind_speed", sample_column 3 n);
          ("precipitation", sample_column 4 n);
          ("pressure", sample_column 5 n)].

(** Eight days with every tracked value present; the optional city is
    missing on the last day. *)
Definition table_missing_city : DataFrame :=
  mkDF 8 (columns (sample_table 8) ++
          [("city", repeat (Str "Pune") 7 ++ [NaN])]).

(** ** What the two methods compute, apart from the objects they update *)

Section Vocabulary.

Context {toolkit : Toolkit}.

(** The prediction for one attribute from the feature frame [X]. *)
Definition predict_one (m : WeatherPredictionModel) (X : DataFrame)
  (target : string) : result Q :=
  let? scaler := dict_get (scalers m) target in
  let? scaled := StandardScaler_transform scaler (last_row_values X) in
  let? model := dict_get (models m) target in
  let? y_pred := RandomForestRegressor_predict model scaled in
  let? pred := first y_pred in
  Ok (py_round pred 2).

Fixpoint predict_all (m : WeatherPredictionModel) (X : DataFrame)
  (targets : list string) (p : gmap string Q) : result (gmap string Q) :=
  match targets with
  | [] => Ok p
  | t :: rest =>
      match predict_one m X t with
      | Ok v => predict_all m X rest (<[t := v]> p)
      | Raise e => Raise e
      end
  end.

(** The split that the seed 42 fixes. *)
Definition seeded_split (X : DataFrame) (y : Series)
  : result (DataFrame * DataFrame * Series * Series) :=
  match validate_shuffle_split (nrows X) (1 # 5) with
  | Raise e => Raise e
  | Ok (n_train, n_test) =>
      let perm := fst (permutation (RandomState 42) (nrows X)) in
      let ind_test := firstn n_test perm in
      let ind_train := firstn n_train (skipn n_test perm) in
      Ok (iloc X ind_train, iloc X ind_test,
          take_rows ind_train y, take_rows ind_test y)
  end.

(** The forest and the scaler fitted for one target, with the held-out
    values and their predictions. *)
Definition fit_target (X : DataFrame) (y : Series)
  : result (Forest * Scaler * Series * list Q) :=
  let? (X_train, X_test, y_train, y_test) := seeded_split X y in
  let? (scaler, X_train_scaled) := fit_transform (values X_train) in
  let? X_test_scaled := StandardScaler_transform scaler (values X_test) in
  let? model :=
    fst (RandomForestRegressor_fit 100 (RandomState 42) X_train_scaled y_train) in
  let? y_pred := RandomForestRegressor_predict model X_test_scaled in
  let? _ := mean_squared_error y_test y_pred in
  let? _ := r2_score y_test y_pred in
  Ok (model, scaler, y_test, y_pred).

(** The frame, the dictionaries and the outcome after the loop of [train]
    over [targets]. *)
Fixpoint train_pure (targets : list string) (df : DataFrame)
  (m : WeatherPredictionModel)
  : DataFrame * WeatherPredictionModel * result unit :=
  match targets with
  | [] => (df, m, Ok tt)
  | t :: rest =>
      match prepare_data df t 7 with
      | (df', Raise e) => (df', m, Raise e)
      | (df', Ok (X, y)) =>
          match fit_target X y with
          | Raise e => (df', m, Raise e)
          | Ok (model, scaler, y_test, y_pred) =>
              let m' := mkModel (<[t := model]> (models m))
                                (<[t := scaler]> (scalers m)) in
              match plot_predictions y_test y_pred t with
              | Raise e => (df', m', Raise e)
              | Ok _ => train_pure rest df' m'
              end
          end
      end
  end.

(** The same over a fixed feature frame [X] and target series [Y]. *)
Fixpoint bank_after (X : DataFrame) (Y : string -> Series)
  (targets : list string) (m : WeatherPredictionModel)
  : WeatherPredictionModel * result unit :=
  match targets with
  | [] => (m, Ok tt)
  | t :: rest =>
      match fit_target X (Y t) with
      | Raise e => (m, Raise e)
      | Ok (model, scaler, y_test, y_pred) =>
          let m' := mkModel (<[t := model]> (models m))
                            (<[t := scaler]> (scalers m)) in
          match plot_predictions y_test y_pred t with
          | Raise e => (m', Raise e)
          | Ok _ => bank_after X Y rest m'
          end
      end
  end.

End Vocabulary.

(** An instance on which the model runs on the example tables.  It stands for
    no library: the permutation is the identity, scaling changes nothing and
    a forest answers the first of its training targets. *)
Definition first_number (y : Series) : Q :=
  match y with
  | Num q :: _ => q
  | _ => 0%Q
  end.

Definition toy_toolkit : Toolkit := {|
  rng := nat;
  RandomState := Z.to_nat;
  permutation := fun r n => (seq 0 n, S r);
  Scaler := unit;
  StandardScaler_fit := fun _ => Ok tt;
  StandardScaler_transform := fun _ X => Ok X;
  Forest := Q;
  RandomForestRegressor_fit := fun _ r _ y => (Ok (first_number y), S r);
  RandomForestRegressor_predict := fun f X => Ok (map (fun _ => f) X);
  mean_squared_error := fun _ _ => Ok 0%Q;
  r2_score := fun _ _ => Ok 0%Q;
  savefig := fun _ _ _ => Ok tt;
  to_datetime := fun s => Ok s;
  np_sqrt := fun q => q
|}.

(** ** Vocabulary for the historical store *)

(** The keys that [store_current_weather] reads from its argument. *)
Definition payload_keys : list string :=
  ["city"; "temperature"; "feels_like"; "humidity"; "pressure"; "wind_speed";
   "description"; "icon"].

Definition has_keys (weather_data : gmap string cell) : Prop :=
  forall k, In k payload_keys -> is_Some (weather_data !! k).

(** How many cells of a column hold a number. *)
Definition count_numbers (s : Series) : nat :=
  length (List.filter (fun c => match c with Num _ => true | _ => false end) s).


(** A reading as the current-weather route passes it on. *)
Definition sample_reading : gmap string cell :=
  list_to_map
    [("city", Str "Pune"); ("temperature", Num (43 # 2));
     ("feels_like", Num (45 # 2)); ("humidity", Num (121 # 2));
     ("pressure", Num (10132 # 10)); ("wind_speed", Num (7 # 2));
     ("description", Str "clear sky"); ("icon", Str "01d");
     ("country", Str "IN"); ("timestamp", Str "2024-05-01 12:00:00")].

Definition empty_store : WeatherDataAnalyzer := mkAnalyzer [] [] None.

(** Noon of the hundredth day. *)
Definition noon : Z := (100 * day + 12 * 3600 * second)%Z.

(** The store after one reading at [noon]. *)
Definition one_reading : WeatherDataAnalyzer :=
  fst (store_current_weather sample_reading noon noon empty_store).

(** ** Example states of the model *)

(** A week of observations in the hands of a new model object. *)
Definition short_env : @Env toy_toolkit :=
  @mkEnv toy_toolkit (sample_table 7) (@new_model toy_toolkit) 0.

(** Twelve days of observations, and the objects after [train] has run on
    them. *)
Definition trained_env : @Env toy_toolkit :=
  fst (@train toy_toolkit
         (@mkEnv toy_toolkit (sample_table 12) (@new_model toy_toolkit) 0)).

(** A model object in which only the temperature has been fitted. *)
Definition only_temperature {toolkit : Toolkit} (scaler : Scaler) (model : Forest)
  : WeatherPredictionModel :=
  mkModel {["temperature" := model]} {["temperature" := scaler]}.

(** ** Vocabulary for tables with gaps *)

(** Day [r] can serve as a feature row: it has [n_steps] days before it, no
    value of its own is missing, and no tracked value of the [n_steps] days
    before it is missing. *)
Definition usable_day (n_steps : nat) (df : DataFrame) (r : nat) : Prop :=
  n_steps <= r < nrows df /\
  (forall nm s, In (nm, s) (columns df) -> ~ is_lag_name n_steps nm ->
                isna (cell_at s r) = false) /\
  (forall c i, In c feature_columns -> 1 <= i <= n_steps ->
               isna (cell_at (column df c) (r - i)) = false).

(** Twelve days of which the humidity of the third is missing. *)
Definition table_with_gap : DataFrame :=
  mkDF 12 (("humidity",
            sample_column 2 2 ++ [NaN] ++ map (fun r => Num (inject_Z (Z.of_nat r))) (seq 3 9))
           :: List.filter (fun c => negb (String.eqb (fst c) "humidity"))
                          (columns (sample_table 12))).

(** A table that lacks the humidity. *)
Definition table_without_humidity : DataFrame :=
  mkDF 9 (List.filter (fun c => negb (String.eqb (fst c) "humidity"))
                      (columns (sample_table 9))).

(** ** Vocabulary for the queries *)

(** The city filter: passed by every record when no city (or an empty one)
    is asked for, and else by the records of that city. *)
Definition of_city (city : option string) (c : cell) : bool :=
  if truthy city then cell_eqb c (Str (default "" city)) else true.

(** A stand-in for [pd.to_datetime] on request arguments: the text "dN",
    with one decimal digit N, is midnight of day N; "NaT" is [NaT]; anything
    else is refused. *)
Definition toy_timestamp (s : string) : result cell :=
  match s with
  | String "d" (String c EmptyString) =>
      let n := nat_of_ascii c - 48 in
      if n <? 10 then Ok (Time (Z.of_nat n * day))
      else Raise (ValueError "Unknown datetime string format")
  | "NaT" => Ok NaN
  | _ => Raise (ValueError "Unknown datetime string format")
  end.

(** A store with readings of two cities on the days 1, 2, 3 and 5. *)
Definition reading_of (city : string) (d : Z) (temperature : Q) : Historical.row :=
  Historical.mk (d * day) (Str city) (Num temperature) (Num 60) (Num 3)
                (Num 1013) (Str "clear sky").

Definition sample_history : WeatherDataAnalyzer :=
  mkAnalyzer []
    [reading_of "Pune" 1 21; reading_of "Oslo" 2 4; reading_of "Pune" 3 23;
     reading_of "Pune" 5 (45 # 2)]
    None.

(** A store whose numbers are all written with a fraction, so that pandas
    reads no column of it with an integer type. *)
Definition fractional_reading (city : string) (d : Z) (temperature : Q)
  : Historical.row :=
  Historical.mk (d * day) (Str city) (Num temperature) (Num (121 # 2))
                (Num (7 # 2)) (Num (10132 # 10)) (Str "clear sky").

Definition fractional_history : WeatherDataAnalyzer :=
  mkAnalyzer []
    [fractional_reading "Pune" 1 (43 # 2); fractional_reading "Oslo" 2 (17 # 4);
     fractional_reading "Pune" 3 (95 # 4); fractional_reading "Pune" 5 (45 # 2)]
    None.

(** The minimum and the maximum of a column are numbers, in order. *)
Definition ordered_extremes (st : Stats.t) : Prop :=
  exists lo hi,
    Stats.min st = Num lo /\ Stats.max st = Num hi /\ (lo <= hi)%Q.


(** ** Vocabulary for the weather routes *)

(** The document of a response that passes both tests of
    [get_weather_data]: status 200 and a body that [json()] reads. *)
Definition answered (r : http_result) : option json :=
  match r with
  | Response_ status_code _ (inr document) =>
      if status_code =? 200 then Some document else None
  | _ => None
  end.

(** The error dictionaries of [get_weather_data] *)
Definition error_codes : list string :=
  ["API_KEY_MISSING"; "API_KEY_INVALID"; "API_ERROR"; "NETWORK_ERROR";
   "UNKNOWN_ERROR"].

Definition is_error_dict (d : json) : Prop :=
  exists code message, d = error_dict code message /\ In code error_codes.



(** What the forecast loop reads from the items of a list, up to the first
    item that it cannot read. *)
Fixpoint reads (strftime_day : Q -> result string) (items : list json)
  : result (list daily) :=
  match items with
  | [] => Ok []
  | item :: rest =>
      let? d := read_item strftime_day item in
      let? ds := reads strftime_day rest in
      Ok (d :: ds)
  end.

(** Of every run of successive entries with one date, the last entry. *)
Fixpoint last_of_each_day (ds : list daily) : list daily :=
  match ds with
  | [] => []
  | d :: rest =>
      match rest with
      | [] => [d]
      | d' :: _ =>
          if String.eqb (d_date d') (d_date d) then last_of_each_day rest
          else d :: last_of_each_day rest
      end
  end.

(** A network that answers every request, and one that is down. *)
Definition toy_item (dt temp : Q) : json :=
  JObj [("dt", JNum dt);
        ("main", JObj [("temp", JNum temp); ("feels_like", JNum temp);
                       ("humidity", JNum 85); ("pressure", JNum 1009)]);
        ("wind", JObj [("speed", JNum 2)]);
        ("weather", JArr [JObj [("description", JStr "haze");
                                ("icon", JStr "50d")]]);
        ("name", JStr "Pune");
        ("sys", JObj [("country", JStr "IN")])].

Definition toy_forecast : json :=
  JObj [("list", JArr [toy_item 0 20; toy_item 10800 22; toy_item 86400 25;
                       toy_item 97200 24; toy_item 172800 19])].

Definition toy_network (url : string) : http_result :=
  if String.prefix "http://api.openweathermap.org/data/2.5/weather" url
  then Response_ 200 "" (inr (toy_item 8640000 31))
  else Response_ 200 "" (inr toy_forecast).

Definition down_network (url : string) : http_result :=
  Failed (RequestException "unreachable").

(** Stand-ins for the two formats of [strftime]: the number of the day. *)
Definition toy_day (q : Q) : result string :=
  Ok (String "d" (str_of_nat (Z.to_nat (Qfloor (q / 86400))))).

Definition toy_str (j : json) : string := "?".
(** * Properties *)

(** ** Column names *)

Lemma str_of_nat_inj (i j : nat) : str_of_nat i = str_of_nat j -> i = j.
Proof.
  unfold str_of_nat. intros H.
  assert (Hu : Nat.to_uint i = Nat.to_uint j).
  { apply (f_equal NilEmpty.uint_of_string) in H.
    rewrite !NilEmpty.usu in H. congruence. }
  apply (f_equal Nat.of_uint) in Hu.
  now rewrite !DecimalNat.Unsigned.of_to in Hu.
Qed.

Lemma in_feature_columns (c : string) :
  In c feature_columns ->
  c = "temperature" \/ c = "humidity" \/ c = "wind_speed" \/
  c = "precipitation" \/ c = "pressure".
Proof. unfold feature_columns. simpl. intuition. Qed.

Ltac each_feature H :=
  apply in_feature_columns in H;
  destruct H as [H | [H | [H | [H | H]]]];
  match type of H with ?c = _ => subst c end.

Lemma lag_name_inj (c c' : string) (i i' : nat) :
  In c feature_columns -> In c' feature_columns ->
  lag_name c i = lag_name c' i' -> c = c' /\ i = i'.
Proof.
  intros Hc Hc' H. unfold lag_name in H.
  each_feature Hc; each_feature Hc'; cbv [String.append] in H;
    try discriminate H;
    (split; [reflexivity | apply str_of_nat_inj; congruence]).
Qed.

Lemma lag_name_not_feature (c c' : string) (i : nat) :
  In c feature_columns -> In c' feature_columns -> lag_name c i <> c'.
Proof.
  intros Hc Hc' H. unfold lag_name in H.
  each_feature Hc; each_feature Hc'; cbv [String.append] in H; discriminate H.
Qed.

(** ** Named columns *)

Lemma assoc_get_set (nm nm' : string) (s : Series) cs :
  assoc_get nm' (assoc_set nm s cs) =
  if String.eqb nm nm' then Some s else assoc_get nm' cs.
Proof.
  induction cs as [| [k v] cs IH]; simpl.
  - reflexivity.
  - destruct (String.eqb k nm) eqn:Ekn; simpl.
    + apply String.eqb_eq in Ekn. subst k.
      destruct (String.eqb nm nm'); reflexivity.
    + destruct (String.eqb k nm') eqn:Ekn'.
      * apply String.eqb_eq in Ekn'. subst nm'.
        rewrite String.eqb_sym, Ekn. reflexivity.
      * exact IH.
Qed.

Lemma assoc_get_app (nm : string) (l1 l2 : list (string * Series)) :
  assoc_get nm (l1 ++ l2) =
  match assoc_get nm l1 with Some s => Some s | None => assoc_get nm l2 end.
Proof.
  induction l1 as [| [k v] l1 IH]; simpl; [reflexivity |].
  destruct (String.eqb k nm); [reflexivity | exact IH].
Qed.

Lemma assoc_get_In (nm : string) (s : Series) cs :
  assoc_get nm cs = Some s -> In (nm, s) cs.
Proof.
  induction cs as [| [k v] cs IH]; simpl; [discriminate |].
  destruct (String.eqb k nm) eqn:E.
  - apply String.eqb_eq in E. intros [= ->]. left. congruence.
  - intros H. right. auto.
Qed.

Lemma assoc_get_None (nm : string) cs :
  assoc_get nm cs = None <-> ~ In nm (map fst cs).
Proof.
  induction cs as [| [k v] cs IH]; simpl; [tauto |].
  destruct (String.eqb k nm) eqn:E.
  - apply String.eqb_eq in E. split; [discriminate | tauto].
  - apply String.eqb_neq in E. tauto.
Qed.

Lemma In_assoc_get (nm : string) (s : Series) cs :
  List.NoDup (map fst cs) -> In (nm, s) cs -> assoc_get nm cs = Some s.
Proof.
  induction cs as [| [k v] cs IH]; simpl; [tauto |].
  intros Hnd [H | H].
  - injection H as -> ->. now rewrite String.eqb_refl.
  - inversion Hnd as [| ? ? Hk Hnd']; subst.
    destruct (String.eqb k nm) eqn:E.
    + apply String.eqb_eq in E. subst k. exfalso. apply Hk.
      change nm with (fst (nm, s)). now apply in_map.
    + auto.
Qed.

Lemma assoc_get_is_Some (nm : string) cs :
  In nm (map fst cs) -> exists s, assoc_get nm cs = Some s.
Proof.
  intros H. destruct (assoc_get nm cs) as [s |] eqn:E; [eauto |].
  now apply assoc_get_None in E.
Qed.

Lemma assoc_set_names (nm : string) (s : Series) cs :
  map fst (assoc_set nm s cs) =
  match assoc_get nm cs with
  | Some _ => map fst cs
  | None => map fst cs ++ [nm]
  end.
Proof.
  induction cs as [| [k v] cs IH]; simpl; [reflexivity |].
  destruct (String.eqb k nm) eqn:E; simpl.
  - apply String.eqb_eq in E. now subst.
  - rewrite IH. now destruct (assoc_get nm cs).
Qed.

Lemma assoc_set_NoDup (nm : string) (s : Series) cs :
  List.NoDup (map fst cs) -> List.NoDup (map fst (assoc_set nm s cs)).
Proof.
  intros Hnd. rewrite assoc_set_names.
  destruct (assoc_get nm cs) eqn:E; [exact Hnd |].
  apply assoc_get_None in E.
  apply List.NoDup_rev in Hnd. rewrite <- (rev_involutive (_ ++ _)).
  apply List.NoDup_rev. rewrite rev_app_distr. simpl. constructor; [| exact Hnd].
  now rewrite <- in_rev.
Qed.

Lemma assoc_set_same (nm : string) (s : Series) cs :
  assoc_get nm cs = Some s -> assoc_set nm s cs = cs.
Proof.
  induction cs as [| [k v] cs IH]; simpl; [discriminate |].
  destruct (String.eqb k nm) eqn:E.
  - apply String.eqb_eq in E. intros [= ->]. now subst.
  - intros H. now rewrite IH.
Qed.

Lemma assoc_get_assign_all (nm : string) asg cs :
  assoc_get nm (assign_all asg cs) =
  match assoc_get nm (rev asg) with
  | Some s => Some s
  | None => assoc_get nm cs
  end.
Proof.
  revert cs. induction asg as [| [k v] asg IH]; intros cs; simpl.
  - reflexivity.
  - unfold assign_all in *. simpl. rewrite IH, assoc_get_app, assoc_get_set. simpl.
    destruct (assoc_get nm (rev asg)); [reflexivity |].
    now destruct (String.eqb k nm).
Qed.

Lemma assign_all_NoDup asg cs :
  List.NoDup (map fst cs) -> List.NoDup (map fst (assign_all asg cs)).
Proof.
  revert cs. induction asg as [| a asg IH]; intros cs H; simpl; [exact H |].
  apply IH. now apply assoc_set_NoDup.
Qed.

Lemma assign_all_app asg1 asg2 cs :
  assign_all (asg1 ++ asg2) cs = assign_all asg2 (assign_all asg1 cs).
Proof. unfold assign_all. apply fold_left_app. Qed.

(** Assigning columns that are not there yet, under distinct names, appends
    them in order. *)
Lemma assign_all_fresh_names asg cs :
  List.NoDup (map fst asg) ->
  (forall nm, In nm (map fst asg) -> ~ In nm (map fst cs)) ->
  map fst (assign_all asg cs) = map fst cs ++ map fst asg.
Proof.
  revert cs. induction asg as [| [k v] asg IH]; intros cs Hnd Hfresh; simpl.
  - now rewrite app_nil_r.
  - inversion Hnd as [| ? ? Hk Hnd']; subst.
    unfold assign_all in *. simpl. rewrite IH; [| exact Hnd' |].
    + rewrite assoc_set_names.
      assert (E : assoc_get k cs = None).
      { apply assoc_get_None. apply Hfresh. now left. }
      rewrite E, <- app_assoc. reflexivity.
    + intros nm Hin. rewrite assoc_set_names.
      assert (E : assoc_get k cs = None).
      { apply assoc_get_None. apply Hfresh. now left. }
      rewrite E, in_app_iff. simpl. intros [H | [H | []]].
      * revert H. apply Hfresh. now right.
      * subst. contradiction.
Qed.

(** Assigning again what is already stored changes nothing. *)
Lemma assign_all_same asg cs :
  (forall nm s, In (nm, s) asg -> assoc_get nm cs = Some s) ->
  assign_all asg cs = cs.
Proof.
  induction asg as [| [k v] asg IH]; intros H; [reflexivity |].
  unfold assign_all in *. simpl.
  rewrite assoc_set_same by (apply H; now left).
  apply IH. intros nm s Hin. apply H. now right.
Qed.

(** ** The lag loops *)

Lemma getitem_column (df : DataFrame) (c : string) :
  In c (names df) -> getitem df c = Ok (column df c).
Proof.
  intros H. unfold getitem, column.
  destruct (assoc_get_is_Some c (columns df) H) as [s ->]. reflexivity.
Qed.

Lemma for_each_assign_lag (df cur : DataFrame) (i : nat) (cols : list string) :
  (forall c, In c cols -> In c feature_columns) ->
  (forall c, In c feature_columns ->
             assoc_get c (columns cur) = Some (column df c)) ->
  for_each cols (fun col => assign_lag i col) cur =
  (mkDF (nrows cur) (assign_all (lag_columns df cols i) (columns cur)), Ok tt).
Proof.
  revert cur. induction cols as [| c cols IH]; intros cur Hsub Hcur.
  - cbn. now destruct cur.
  - cbn [for_each]. unfold bind, assign_lag at 1, getitem.
    rewrite (Hcur c) by (apply Hsub; now left).
    rewrite IH.
    + reflexivity.
    + intros c' Hc'. apply Hsub. now right.
    + intros c' Hc'. cbn [setitem columns]. rewrite assoc_get_set.
      destruct (String.eqb (lag_name c i) c') eqn:E; [| now apply Hcur].
      apply String.eqb_eq in E. exfalso.
      apply (lag_name_not_feature c c' i); auto. apply Hsub. now left.
Qed.

Lemma feature_column_kept (df : DataFrame) asg cs (c : string) :
  In c feature_columns ->
  (forall nm, In nm (map fst asg) ->
              exists c' i, In c' feature_columns /\ nm = lag_name c' i) ->
  assoc_get c (assign_all asg cs) = assoc_get c cs.
Proof.
  intros Hc Hasg. rewrite assoc_get_assign_all.
  destruct (assoc_get c (rev asg)) as [s |] eqn:E; [| reflexivity].
  apply assoc_get_In, in_rev in E.
  destruct (Hasg c) as (c' & i & Hc' & Heq).
  - change c with (fst (c, s)). now apply in_map.
  - symmetry in Heq. now apply lag_name_not_feature in Heq.
Qed.

Lemma lag_columns_names (df : DataFrame) (cols : list string) (i : nat) nm :
  (forall c, In c cols -> In c feature_columns) ->
  In nm (map fst (lag_columns df cols i)) ->
  exists c' i', In c' feature_columns /\ nm = lag_name c' i'.
Proof.
  intros Hsub H. unfold lag_columns in H. rewrite map_map in H. simpl in H.
  apply in_map_iff in H. destruct H as (c & <- & Hc). eauto.
Qed.

Lemma for_each_steps (df cur : DataFrame) (steps : list nat) :
  (forall c, In c feature_columns ->
             assoc_get c (columns cur) = Some (column df c)) ->
  for_each steps
    (fun i => for_each feature_columns (fun col => assign_lag i col)) cur =
  (mkDF (nrows cur) (assign_all (lag_assignments df steps) (columns cur)), Ok tt).
Proof.
  revert cur. induction steps as [| i steps IH]; intros cur Hcur.
  - cbn. now destruct cur.
  - cbn [for_each]. unfold bind at 1.
    rewrite (for_each_assign_lag df) by auto.
    rewrite IH.
    + cbn [nrows columns lag_assignments flat_map].
      now rewrite assign_all_app.
    + intros c Hc. cbn [columns]. rewrite (feature_column_kept df); auto.
      intros nm. now apply lag_columns_names.
Qed.

(** With the tracked columns in the table the loops raise nothing, and the
    caller's frame afterwards is the table with the lag columns assigned. *)
Lemma create_lag_features_ok (df : DataFrame) (n_steps : nat) :
  has_columns df feature_columns ->
  create_lag_features n_steps df =
  (mkDF (nrows df)
        (assign_all (lag_assignments df (seq 1 n_steps)) (columns df)), Ok tt).
Proof.
  intros Hcols. unfold create_lag_features. apply for_each_steps.
  intros c Hc. unfold column.
  destruct (assoc_get_is_Some c (columns df) (Hcols c Hc)) as [s ->]. reflexivity.
Qed.

Lemma In_lag_assignments (df : DataFrame) (steps : list nat) nm s :
  In (nm, s) (lag_assignments df steps) <->
  exists c i, In c feature_columns /\ In i steps /\
              nm = lag_name c i /\ s = shift i (column df c).
Proof.
  unfold lag_assignments, lag_columns. rewrite in_flat_map. split.
  - intros (i & Hi & H). apply in_map_iff in H. destruct H as (c & [= <- <-] & Hc).
    exists c, i. auto.
  - intros (c & i & Hc & Hi & -> & ->). exists i. split; [exact Hi |].
    apply in_map_iff. eauto.
Qed.

(** The lookups of the frame that the loops leave behind. *)
Lemma lag_lookup (df : DataFrame) (steps : list nat) (c : string) (i : nat) cs :
  In c feature_columns -> In i steps ->
  assoc_get (lag_name c i) (assign_all (lag_assignments df steps) cs) =
  Some (shift i (column df c)).
Proof.
  intros Hc Hi. rewrite assoc_get_assign_all.
  destruct (assoc_get (lag_name c i) (rev (lag_assignments df steps)))
    as [s |] eqn:E.
  - apply assoc_get_In, in_rev, In_lag_assignments in E.
    destruct E as (c' & i' & Hc' & _ & Heq & ->).
    apply lag_name_inj in Heq; auto. now destruct Heq as [-> ->].
  - exfalso. apply assoc_get_None in E. apply E.
    rewrite map_rev, <- in_rev.
    change (lag_name c i) with (fst (lag_name c i, shift i (column df c))).
    apply in_map, In_lag_assignments. eauto 10.
Qed.

Lemma other_lookup (df : DataFrame) (steps : list nat) nm cs :
  (forall c i, In c feature_columns -> In i steps -> nm <> lag_name c i) ->
  assoc_get nm (assign_all (lag_assignments df steps) cs) = assoc_get nm cs.
Proof.
  intros Hnm. rewrite assoc_get_assign_all.
  destruct (assoc_get nm (rev (lag_assignments df steps))) as [s |] eqn:E;
    [| reflexivity].
  apply assoc_get_In, in_rev, In_lag_assignments in E.
  destruct E as (c & i & Hc & Hi & Heq & _). now apply Hnm in Heq.
Qed.

(** ** Shifting and dropping rows *)

Lemma shift_length (i : nat) (s : Series) : length (shift i s) = length s.
Proof.
  unfold shift. rewrite length_firstn, length_app, repeat_length. lia.
Qed.

Lemma cell_at_shift (i : nat) (s : Series) (r : nat) :
  r < length s ->
  cell_at (shift i s) r = if r <? i then NaN else cell_at s (r - i).
Proof.
  intros Hr. unfold shift, cell_at. rewrite nth_firstn.
  destruct (r <? length s) eqn:E; [| apply Nat.ltb_ge in E; lia].
  destruct (r <? i) eqn:Ei.
  - apply Nat.ltb_lt in Ei. rewrite app_nth1 by (rewrite repeat_length; lia).
    apply nth_repeat.
  - apply Nat.ltb_ge in Ei. rewrite app_nth2 by (rewrite repeat_length; lia).
    now rewrite repeat_length.
Qed.

Lemma filter_seq_from (k n : nat) :
  List.filter (fun r => k <=? r) (seq 0 n) = seq k (n - k).
Proof.
  induction n as [| n IH]; [reflexivity |].
  rewrite seq_S, List.filter_app, IH. simpl.
  destruct (k <=? n) eqn:E.
  - apply Nat.leb_le in E. replace (S n - k) with (S (n - k)) by lia.
    rewrite seq_S. do 2 f_equal. lia.
  - apply Nat.leb_gt in E. replace (S n - k) with 0 by lia.
    replace (n - k) with 0 by lia. reflexivity.
Qed.

Lemma row_complete_true cs (r : nat) :
  row_complete cs r = true <->
  forall nm s, In (nm, s) cs -> isna (cell_at s r) = false.
Proof.
  unfold row_complete. rewrite forallb_forall. split.
  - intros H nm s Hin. specialize (H _ Hin). simpl in H.
    now apply negb_true_iff in H.
  - intros H [nm s] Hin. simpl. apply negb_true_iff. eauto.
Qed.

Lemma cell_at_take_rows (s : Series) (k m j : nat) :
  j < m -> cell_at (take_rows (seq k m) s) j = cell_at s (k + j).
Proof.
  intros Hj. unfold take_rows, cell_at at 1.
  rewrite (nth_indep _ NaN (cell_at s 0)) by (rewrite length_map, length_seq; lia).
  rewrite (map_nth (cell_at s)). now rewrite seq_nth.
Qed.

Lemma assoc_get_map_snd (g : Series -> Series) (nm : string) cs :
  assoc_get nm (map (fun c => (fst c, g (snd c))) cs) =
  option_map g (assoc_get nm cs).
Proof.
  induction cs as [| [k v] cs IH]; simpl; [reflexivity |].
  destruct (String.eqb k nm); [reflexivity | exact IH].
Qed.

Lemma names_dropna (df : DataFrame) : names (dropna df) = names df.
Proof. unfold names, dropna. simpl. rewrite map_map. reflexivity. Qed.

Lemma column_dropna (df : DataFrame) (nm : string) :
  In nm (names df) ->
  column (dropna df) nm = take_rows (kept_rows df) (column df nm).
Proof.
  intros H. unfold column, dropna. simpl. rewrite assoc_get_map_snd.
  destruct (assoc_get_is_Some nm (columns df) H) as [s ->]. reflexivity.
Qed.

Lemma select_columns_ok (df : DataFrame) (cols : list string) :
  (forall nm, In nm cols -> In nm (names df)) ->
  select_columns df cols = Ok (map (fun nm => (nm, column df nm)) cols).
Proof.
  induction cols as [| nm cols IH]; intros H; simpl; [reflexivity |].
  rewrite getitem_column by (apply H; now left).
  rewrite IH by (intros; apply H; now right). reflexivity.
Qed.

Lemma assoc_get_tabulate (f : string -> Series) (nm : string) (cols : list string) :
  In nm cols -> assoc_get nm (map (fun c => (c, f c)) cols) = Some (f nm).
Proof.
  induction cols as [| c cols IH]; simpl; [tauto |].
  destruct (String.eqb c nm) eqn:E.
  - apply String.eqb_eq in E. now subst.
  - apply String.eqb_neq in E. intros [H | H]; [contradiction | auto].
Qed.

(** ** prepare_data on a table that holds the tracked columns *)

Lemma names_lagged_incl (n_steps : nat) (df : DataFrame) (nm : string) :
  In nm (names df) -> In nm (names (lagged n_steps df)).
Proof.
  intros H. unfold names, lagged. simpl.
  destruct (assoc_get_is_Some nm _ H) as [s Hs].
  destruct (assoc_get nm (assign_all (lag_assignments df (seq 1 n_steps))
                                     (columns df))) as [s' |] eqn:E.
  - apply assoc_get_In in E. change nm with (fst (nm, s')). now apply in_map.
  - rewrite assoc_get_assign_all, Hs in E.
    now destruct (assoc_get nm (rev _)) in E.
Qed.

Lemma prepare_data_ok (df : DataFrame) (target : string) (n_steps : nat) :
  has_columns df feature_columns ->
  In target (names df) ->
  prepare_data df target n_steps =
  (lagged n_steps df,
   Ok (feature_frame n_steps df, target_series n_steps df target)).
Proof.
  intros Hcols Htarget. unfold prepare_data, feature_frame, target_series.
  rewrite create_lag_features_ok by exact Hcols. fold (lagged n_steps df).
  set (df1 := lagged n_steps df). set (rows := kept_rows df1).
  cbv zeta. rewrite names_dropna. fold (lag_feature_names df1).
  unfold getitems. rewrite select_columns_ok.
  - rewrite getitem_column
      by (rewrite names_dropna; now apply names_lagged_incl).
    rewrite column_dropna by now apply names_lagged_incl.
    do 3 f_equal. unfold dropna at 1. cbn [nrows]. fold rows. f_equal.
    apply map_ext_in. intros nm Hnm. f_equal. apply column_dropna.
    unfold lag_feature_names in Hnm. now apply List.filter_In in Hnm.
  - intros nm Hnm. rewrite names_dropna.
    unfold lag_feature_names in Hnm. now apply List.filter_In in Hnm.
Qed.

Lemma feature_not_lag (n_steps : nat) (c : string) :
  In c feature_columns -> ~ is_lag_name n_steps c.
Proof.
  intros Hc (c' & i & Hc' & _ & Heq). symmetry in Heq.
  now apply lag_name_not_feature in Heq.
Qed.

Lemma column_In (df : DataFrame) (c : string) :
  In c (names df) -> In (c, column df c) (columns df).
Proof.
  intros H. unfold column.
  destruct (assoc_get_is_Some c _ H) as [s Hs]. rewrite Hs.
  now apply assoc_get_In.
Qed.

Lemma column_length (df : DataFrame) (c : string) :
  well_formed df -> In c (names df) -> length (column df c) = nrows df.
Proof. intros [_ Hlen] H. apply (Hlen c). now apply column_In. Qed.

Lemma lagged_columns (n_steps : nat) (df : DataFrame) nm s :
  well_formed df ->
  In (nm, s) (columns (lagged n_steps df)) ->
  (exists c i, In c feature_columns /\ 1 <= i <= n_steps /\
               nm = lag_name c i /\ s = shift i (column df c)) \/
  (In (nm, s) (columns df) /\ ~ is_lag_name n_steps nm).
Proof.
  intros [Hnd _] Hin. unfold lagged in Hin. cbn [columns] in Hin.
  apply In_assoc_get in Hin; [| now apply assign_all_NoDup].
  rewrite assoc_get_assign_all in Hin.
  destruct (assoc_get nm (rev (lag_assignments df (seq 1 n_steps))))
    as [s' |] eqn:E.
  - injection Hin as ->. left.
    apply assoc_get_In, in_rev, In_lag_assignments in E.
    destruct E as (c & i & Hc & Hi & -> & ->). apply in_seq in Hi.
    exists c, i. repeat split; auto; lia.
  - right. split; [now apply assoc_get_In |].
    intros (c & i & Hc & Hi & ->).
    apply assoc_get_None in E. apply E. rewrite map_rev, <- in_rev.
    change (lag_name c i) with (fst (lag_name c i, shift i (column df c))).
    apply in_map, In_lag_assignments. exists c, i. repeat split; auto.
    apply in_seq. lia.
Qed.

Lemma lagged_lag_column (n_steps : nat) (df : DataFrame) (c : string) (i : nat) :
  In c feature_columns -> 1 <= i <= n_steps ->
  column (lagged n_steps df) (lag_name c i) = shift i (column df c).
Proof.
  intros Hc Hi. unfold column at 1, lagged. cbn [columns].
  rewrite lag_lookup; auto. apply in_seq. lia.
Qed.

Lemma lagged_feature_column (n_steps : nat) (df : DataFrame) (c : string) :
  In c feature_columns ->
  column (lagged n_steps df) c = column df c.
Proof.
  intros Hc. unfold column, lagged. cbn [columns].
  rewrite other_lookup; [reflexivity |].
  intros c' i Hc' _ Heq. symmetry in Heq.
  now apply lag_name_not_feature in Heq.
Qed.

Lemma In_temperature : In "temperature" feature_columns.
Proof. now left. Qed.

(** A row among the first [n_steps] has a missing lag, so it is dropped. *)
Lemma kept_rows_from (n_steps : nat) (df : DataFrame) (r : nat) :
  well_formed df -> has_columns df feature_columns ->
  In r (kept_rows (lagged n_steps df)) -> n_steps <= r < nrows df.
Proof.
  intros Hwf Hcols Hr. unfold kept_rows in Hr. apply List.filter_In in Hr.
  destruct Hr as [Hr Hcomplete]. apply in_seq in Hr. cbn [lagged nrows] in Hr.
  split; [| lia].
  destruct (Nat.le_gt_cases n_steps r) as [Hle | Hlt]; [exact Hle | exfalso].
  rewrite row_complete_true in Hcomplete.
  assert (Hin : In (lag_name "temperature" n_steps,
                    shift n_steps (column df "temperature"))
                   (columns (lagged n_steps df))).
  { apply assoc_get_In. unfold lagged. cbn [columns].
    apply lag_lookup; [apply In_temperature | apply in_seq; lia]. }
  apply Hcomplete in Hin. rewrite cell_at_shift in Hin.
  - apply Nat.ltb_lt in Hlt. rewrite Hlt in Hin. discriminate Hin.
  - rewrite column_length; auto using In_temperature. lia.
Qed.

(** On a table without missing values exactly the first [n_steps] rows are
    dropped. *)
Lemma kept_rows_lagged (n_steps : nat) (df : DataFrame) :
  well_formed df -> has_columns df feature_columns -> complete n_steps df ->
  kept_rows (lagged n_steps df) = seq n_steps (nrows df - n_steps).
Proof.
  intros Hwf Hcols Hcomplete. rewrite <- filter_seq_from.
  unfold kept_rows. cbn [lagged nrows]. apply filter_ext_in.
  intros r Hr. apply in_seq in Hr.
  destruct (n_steps <=? r) eqn:E.
  - apply Nat.leb_le in E. apply row_complete_true. intros nm s Hin.
    apply (lagged_columns n_steps df) in Hin; [| exact Hwf].
    destruct Hin as [(c & i & Hc & Hi & -> & ->) | [Hin Hno]].
    + rewrite cell_at_shift by (rewrite column_length; auto; lia).
      destruct (r <? i) eqn:Ei; [apply Nat.ltb_lt in Ei; lia |].
      apply (Hcomplete c).
      * apply column_In. auto.
      * now apply feature_not_lag.
      * lia.
    + apply (Hcomplete nm); auto. lia.
  - apply Nat.leb_gt in E.
    destruct (row_complete _ r) eqn:Erow; [exfalso | reflexivity].
    assert (Hin : In r (kept_rows (lagged n_steps df))).
    { unfold kept_rows. apply List.filter_In. split; [| exact Erow].
      apply in_seq. cbn [lagged nrows]. lia. }
    apply kept_rows_from in Hin; auto. lia.
Qed.

Lemma kept_rows_short (n_steps : nat) (df : DataFrame) :
  well_formed df -> has_columns df feature_columns ->
  nrows df <= n_steps ->
  kept_rows (lagged n_steps df) = [].
Proof.
  intros Hwf Hcols Hn.
  destruct (kept_rows (lagged n_steps df)) as [| r rows] eqn:E; [reflexivity |].
  assert (Hin : In r (kept_rows (lagged n_steps df))) by (rewrite E; now left).
  apply kept_rows_from in Hin; auto. lia.
Qed.

(** ** The names of the lag columns *)

Lemma lag_assignments_names (df : DataFrame) (steps : list nat) :
  map fst (lag_assignments df steps) = lag_names steps.
Proof.
  unfold lag_assignments, lag_names, lag_columns.
  induction steps as [| i steps IH]; [reflexivity |].
  cbn [flat_map]. rewrite map_app, map_map, IH. reflexivity.
Qed.

Lemma In_lag_names (steps : list nat) (nm : string) :
  In nm (lag_names steps) <->
  exists c i, In c feature_columns /\ In i steps /\ nm = lag_name c i.
Proof.
  unfold lag_names. rewrite in_flat_map. split.
  - intros (i & Hi & H). apply in_map_iff in H. destruct H as (c & <- & Hc). eauto.
  - intros (c & i & Hc & Hi & ->). exists i. split; [exact Hi |].
    apply in_map_iff. eauto.
Qed.

Lemma lag_names_length (steps : list nat) :
  length (lag_names steps) = 5 * length steps.
Proof.
  unfold lag_names. induction steps as [| i steps IH]; [reflexivity |].
  cbn [flat_map]. rewrite length_app, length_map, IH. simpl. lia.
Qed.

Lemma NoDup_feature_columns : List.NoDup feature_columns.
Proof.
  unfold feature_columns.
  repeat (constructor; [simpl; intuition discriminate |]). constructor.
Qed.

Lemma NoDup_lag_names (steps : list nat) :
  List.NoDup steps -> List.NoDup (lag_names steps).
Proof.
  induction steps as [| i steps IH]; intros Hnd; [constructor |].
  inversion Hnd as [| ? ? Hi Hnd']; subst.
  change (lag_names (i :: steps))
    with (map (fun c => lag_name c i) feature_columns ++ lag_names steps).
  apply List.NoDup_app.
  - apply List.NoDup_map_NoDup_ForallPairs; [| exact NoDup_feature_columns].
    intros c c' Hc Hc' Heq. now apply lag_name_inj in Heq.
  - auto.
  - intros nm H1 H2. apply in_map_iff in H1. destruct H1 as (c & <- & Hc).
    apply In_lag_names in H2. destruct H2 as (c' & i' & Hc' & Hi' & Heq).
    apply lag_name_inj in Heq; auto. destruct Heq as [_ ->]. contradiction.
Qed.

Lemma lag_name_endswith (c : string) (i : nat) :
  In c feature_columns -> 1 <= i <= 7 ->
  endswith_any (lag_name c i) lag_suffixes = true.
Proof.
  intros Hc Hi.
  assert (Hcases : i = 1 \/ i = 2 \/ i = 3 \/ i = 4 \/ i = 5 \/ i = 6 \/ i = 7)
    by lia.
  each_feature Hc;
    destruct Hcases as [-> | [-> | [-> | [-> | [-> | [-> | ->]]]]]];
    vm_compute; reflexivity.
Qed.

(** ** What a call leaves in the caller's frame *)

Lemma prepare_data_frame (df : DataFrame) (target : string) (n_steps : nat) :
  has_columns df feature_columns ->
  fst (prepare_data df target n_steps) = lagged n_steps df.
Proof.
  intros Hcols. unfold prepare_data.
  rewrite create_lag_features_ok by exact Hcols. fold (lagged n_steps df).
  cbv zeta. destruct (getitems _ _); [| reflexivity].
  destruct (getitem _ _); reflexivity.
Qed.

Lemma lag_assignments_lagged (n_steps : nat) (df : DataFrame) (steps : list nat) :
  lag_assignments (lagged n_steps df) steps = lag_assignments df steps.
Proof.
  unfold lag_assignments, lag_columns. apply flat_map_ext. intros i.
  apply map_ext_in. intros c Hc. now rewrite lagged_feature_column.
Qed.

(** A second call finds the lag columns in place and assigns them the same
    values. *)
Lemma lagged_idempotent (n_steps : nat) (df : DataFrame) :
  lagged n_steps (lagged n_steps df) = lagged n_steps df.
Proof.
  unfold lagged at 1. rewrite lag_assignments_lagged.
  rewrite assign_all_same; [reflexivity |].
  intros nm s Hin. apply In_lag_assignments in Hin.
  destruct Hin as (c & i & Hc & Hi & -> & ->).
  unfold lagged. cbn [columns]. now apply lag_lookup.
Qed.

Lemma has_columns_lagged (n_steps : nat) (df : DataFrame) cols :
  has_columns df cols -> has_columns (lagged n_steps df) cols.
Proof. intros H c Hc. apply names_lagged_incl. auto. Qed.

Lemma lagged_fresh_names (n_steps : nat) (df : DataFrame) :
  (forall nm, In nm (names df) -> ~ is_lag_name n_steps nm) ->
  names (lagged n_steps df) = names df ++ lag_names (seq 1 n_steps).
Proof.
  intros Hfresh. unfold names, lagged. cbn [columns].
  rewrite assign_all_fresh_names; rewrite lag_assignments_names.
  - reflexivity.
  - apply NoDup_lag_names, seq_NoDup.
  - intros nm Hnm Hin. apply (Hfresh nm Hin).
    apply In_lag_names in Hnm. destruct Hnm as (c & i & Hc & Hi & ->).
    apply in_seq in Hi. exists c, i. repeat split; auto; lia.
Qed.

(** ** Checking concrete tables *)

Lemma distinct_NoDup (l : list string) : distinct l = true -> List.NoDup l.
Proof.
  induction l as [| x l IH]; simpl; intros H; [constructor |].
  apply andb_true_iff in H. destruct H as [Hx Hl].
  constructor; [| auto].
  intros Hin. apply negb_true_iff in Hx.
  assert (Hex : existsb (String.eqb x) l = true).
  { apply existsb_exists. exists x. split; [exact Hin | apply String.eqb_refl]. }
  congruence.
Qed.

Lemma well_formed_b_sound (df : DataFrame) :
  well_formed_b df = true -> well_formed df.
Proof.
  unfold well_formed_b, well_formed. intros H.
  apply andb_true_iff in H. destruct H as [Hd Hl]. split.
  - now apply distinct_NoDup.
  - intros nm s Hin. rewrite forallb_forall in Hl.
    specialize (Hl _ Hin). now apply Nat.eqb_eq in Hl.
Qed.

Lemma has_columns_b_sound (df : DataFrame) (cols : list string) :
  has_columns_b df cols = true -> has_columns df cols.
Proof.
  unfold has_columns_b, has_columns. intros H c Hc.
  rewrite forallb_forall in H. specialize (H c Hc).
  apply existsb_exists in H. destruct H as (x & Hx & E).
  apply String.eqb_eq in E. now subst.
Qed.

Lemma no_missing_b_sound (n_steps : nat) (df : DataFrame) :
  well_formed df -> no_missing_b df = true -> complete n_steps df.
Proof.
  intros [_ Hlen] H nm s r Hin _ Hr. unfold no_missing_b in H.
  rewrite forallb_forall in H. specialize (H _ Hin). simpl in H.
  rewrite forallb_forall in H. apply negb_true_iff. apply H.
  apply nth_In. rewrite (Hlen nm s Hin). exact Hr.
Qed.

(** ** The feature rows *)

Lemma feature_frame_lag_column (n_steps : nat) (df : DataFrame)
  (c : string) (i : nat) :
  In c feature_columns -> 1 <= i <= n_steps ->
  endswith_any (lag_name c i) lag_suffixes = true ->
  In (lag_name c i) (names (feature_frame n_steps df)) /\
  column (feature_frame n_steps df) (lag_name c i) =
  take_rows (kept_rows (lagged n_steps df)) (shift i (column df c)).
Proof.
  intros Hc Hi Hend.
  assert (Hin : In (lag_name c i) (lag_feature_names (lagged n_steps df))).
  { unfold lag_feature_names. apply List.filter_In. split; [| exact Hend].
    unfold names. apply in_map_iff.
    exists (lag_name c i, shift i (column df c)). split; [reflexivity |].
    apply assoc_get_In. unfold lagged. cbn [columns].
    apply lag_lookup; [exact Hc | apply in_seq; lia]. }
  split.
  - unfold names, feature_frame. cbn [columns]. rewrite map_map.
    rewrite (map_ext _ (fun nm => nm)) by reflexivity.
    rewrite map_id. exact Hin.
  - unfold column at 1, feature_frame. cbn [columns].
    rewrite (assoc_get_tabulate
               (fun nm => take_rows (kept_rows (lagged n_steps df))
                                    (column (lagged n_steps df) nm))
               (lag_name c i) _ Hin).
    rewrite lagged_lag_column by assumption. reflexivity.
Qed.

Lemma take_rows_length (rows : list nat) (s : Series) :
  length (take_rows rows s) = length rows.
Proof. apply length_map. Qed.

Lemma prepare_data_rows (n_steps : nat) (df : DataFrame) (target : string) :
  well_formed df -> has_columns df feature_columns -> complete n_steps df ->
  In target feature_columns ->
  nrows (feature_frame n_steps df) = nrows df - n_steps /\
  length (target_series n_steps df target) = nrows df - n_steps /\
  (forall j, j < nrows df - n_steps ->
     cell_at (target_series n_steps df target) j =
     cell_at (column df target) (j + n_steps)) /\
  (forall c i, In c feature_columns -> 1 <= i <= n_steps ->
     endswith_any (lag_name c i) lag_suffixes = true ->
     In (lag_name c i) (names (feature_frame n_steps df)) /\
     length (column (feature_frame n_steps df) (lag_name c i)) =
       nrows df - n_steps /\
     forall j, j < nrows df - n_steps ->
       cell_at (column (feature_frame n_steps df) (lag_name c i)) j =
       cell_at (column df c) (j + n_steps - i)).
Proof.
  intros Hwf Hcols Hcomp Ht.
  assert (Hrows : kept_rows (lagged n_steps df) =
                  seq n_steps (nrows df - n_steps))
    by now apply kept_rows_lagged.
  repeat split.
  - unfold feature_frame. cbn [nrows]. now rewrite Hrows, length_seq.
  - unfold target_series. now rewrite take_rows_length, Hrows, length_seq.
  - intros j Hj. unfold target_series.
    rewrite Hrows, cell_at_take_rows by exact Hj.
    rewrite lagged_feature_column by exact Ht. f_equal. lia.
  - now apply feature_frame_lag_column.
  - destruct (feature_frame_lag_column n_steps df c i) as [_ ->]; auto.
    now rewrite take_rows_length, Hrows, length_seq.
  - intros j Hj.
    destruct (feature_frame_lag_column n_steps df c i) as [_ ->]; auto.
    rewrite Hrows, cell_at_take_rows by exact Hj.
    rewrite cell_at_shift by (rewrite column_length; auto; lia).
    destruct (n_steps + j <? i) eqn:E; [apply Nat.ltb_lt in E; lia |].
    f_equal. lia.
Qed.

Lemma feature_frame_short (n_steps : nat) (df : DataFrame) :
  well_formed df -> has_columns df feature_columns -> nrows df <= n_steps ->
  nrows (feature_frame n_steps df) = 0 /\
  values (feature_frame n_steps df) = [] /\
  (forall nm s, In (nm, s) (columns (feature_frame n_steps df)) -> s = []) /\
  forall target, target_series n_steps df target = [].
Proof.
  intros Hwf Hcols Hn.
  assert (Hrows : kept_rows (lagged n_steps df) = [])
    by now apply kept_rows_short.
  unfold feature_frame, target_series, values. cbn [nrows columns].
  rewrite Hrows. repeat split.
  intros nm s Hin. apply in_map_iff in Hin. now destruct Hin as (x & [= _ <-] & _).
Qed.

(** * The feature builder *)

(** C1 (as amended).  On a table with at least 8 rows that holds the tracked
    columns and has no missing value in any column, [prepare_data] with the
    default depth 7 returns, for each tracked target, exactly [len - 7]
    feature rows and as many target values; the feature frame has the column
    [c_lag_i] for every tracked attribute [c] and every [i] from 1 to 7, and
    its [j]-th row holds under that name the value of [c] observed [i] days
    before the day of the [j]-th target value. *)
Theorem prepare_data_feature_rows (df : DataFrame) (target : string) :
  well_formed df -> has_columns df feature_columns -> complete 7 df ->
  In target feature_columns -> 8 <= nrows df ->
  exists X y,
    snd (prepare_data df target 7) = Ok (X, y) /\
    nrows X = nrows df - 7 /\
    length y = nrows df - 7 /\
    (forall j, j < nrows df - 7 ->
       cell_at y j = cell_at (column df target) (j + 7)) /\
    (forall c i, In c feature_columns -> 1 <= i <= 7 ->
       In (lag_name c i) (names X) /\
       length (column X (lag_name c i)) = nrows df - 7 /\
       forall j, j < nrows df - 7 ->
         cell_at (column X (lag_name c i)) j =
         cell_at (column df c) (j + 7 - i) /\
         isna (cell_at (column X (lag_name c i)) j) = false).
Proof.
  intros Hwf Hcols Hcomp Ht Hn.
  exists (feature_frame 7 df), (target_series 7 df target).
  destruct (prepare_data_rows 7 df target Hwf Hcols Hcomp Ht)
    as (Hrows & Hlen & Hy & HX).
  split; [| split; [exact Hrows | split; [exact Hlen | split; [exact Hy |]]]].
  - rewrite prepare_data_ok; [reflexivity | exact Hcols |].
    apply Hcols, Ht.
  - intros c i Hc Hi.
    destruct (HX c i Hc Hi (lag_name_endswith c i Hc Hi)) as (H1 & H2 & H3).
    split; [exact H1 | split; [exact H2 |]].
    intros j Hj. split; [apply H3; exact Hj |].
    rewrite H3 by exact Hj.
    apply (Hcomp c (column df c) (j + 7 - i)).
    + apply column_In, Hcols, Hc.
    + apply feature_not_lag, Hc.
    + lia.
Qed.

(** C1, witness: nine days of complete observations give two feature rows. *)
Lemma prepare_data_feature_rows_witness :
  exists X y,
    snd (prepare_data (sample_table 9) "humidity" 7) = Ok (X, y) /\
    nrows X = nrows (sample_table 9) - 7 /\
    length y = nrows (sample_table 9) - 7 /\
    (forall j, j < nrows (sample_table 9) - 7 ->
       cell_at y j = cell_at (column (sample_table 9) "humidity") (j + 7)) /\
    (forall c i, In c feature_columns -> 1 <= i <= 7 ->
       In (lag_name c i) (names X) /\
       length (column X (lag_name c i)) = nrows (sample_table 9) - 7 /\
       forall j, j < nrows (sample_table 9) - 7 ->
         cell_at (column X (lag_name c i)) j =
         cell_at (column (sample_table 9) c) (j + 7 - i) /\
         isna (cell_at (column X (lag_name c i)) j) = false).
Proof.
  apply (prepare_data_feature_rows (sample_table 9) "humidity").
  - apply well_formed_b_sound. vm_compute. reflexivity.
  - apply has_columns_b_sound. vm_compute. reflexivity.
  - apply no_missing_b_sound.
    + apply well_formed_b_sound. vm_compute. reflexivity.
    + vm_compute. reflexivity.
  - right. left. reflexivity.
  - vm_compute. lia.
Defined.

(** C1, counterexample to the claim as stated.  The table has 8 rows and no
    missing value in any tracked column, yet [prepare_data] returns no
    feature row instead of one: [dropna] looks at every column, and the city
    of the last day is missing. *)
Lemma prepare_data_missing_city_drops_row :
  well_formed table_missing_city /\
  has_columns table_missing_city feature_columns /\
  8 <= nrows table_missing_city /\
  (forall c, In c feature_columns ->
     forallb (fun x => negb (isna x)) (column table_missing_city c) = true) /\
  exists X y,
    snd (prepare_data table_missing_city "temperature" 7) = Ok (X, y) /\
    nrows X = 0 /\
    nrows X <> nrows table_missing_city - 7.
Proof.
  split; [apply well_formed_b_sound; vm_compute; reflexivity |].
  split; [apply has_columns_b_sound; vm_compute; reflexivity |].
  split; [vm_compute; lia |].
  split.
  - intros c Hc. each_feature Hc; vm_compute; reflexivity.
  - eexists. eexists. split; [vm_compute; reflexivity |].
    split; [reflexivity | vm_compute; lia].
Qed.

(** C2.  On a table with fewer than 8 rows that holds the tracked columns,
    [prepare_data] with the default depth 7 raises nothing and returns, for
    every tracked target, a feature frame without rows (every column of it is
    empty) and no target value. *)
Theorem prepare_data_short_table (df : DataFrame) (target : string) :
  well_formed df -> has_columns df feature_columns ->
  In target feature_columns -> nrows df < 8 ->
  exists X y,
    snd (prepare_data df target 7) = Ok (X, y) /\
    nrows X = 0 /\
    values X = [] /\
    (forall nm s, In (nm, s) (columns X) -> s = []) /\
    y = [].
Proof.
  intros Hwf Hcols Ht Hn.
  exists (feature_frame 7 df), (target_series 7 df target).
  destruct (feature_frame_short 7 df Hwf Hcols) as (H1 & H2 & H3 & H4); [lia |].
  split; [| auto].
  rewrite prepare_data_ok; [reflexivity | exact Hcols |].
  apply Hcols, Ht.
Qed.

(** C2, witness: a week of observations. *)
Lemma prepare_data_short_table_witness :
  exists X y,
    snd (prepare_data (sample_table 7) "pressure" 7) = Ok (X, y) /\
    nrows X = 0 /\
    values X = [] /\
    (forall nm s, In (nm, s) (columns X) -> s = []) /\
    y = [].
Proof.
  apply (prepare_data_short_table (sample_table 7) "pressure").
  - apply well_formed_b_sound. vm_compute. reflexivity.
  - apply has_columns_b_sound. vm_compute. reflexivity.
  - do 4 right. left. reflexivity.
  - vm_compute. lia.
Defined.

(** ** Rounding *)

Lemma round_half_even_near (x : Q) :
  (x - (1 # 2) <= inject_Z (round_half_even x) <= x + (1 # 2))%Q.
Proof.
  unfold round_half_even.
  pose proof (Qfloor_le x) as Hlo. pose proof (Qlt_floor x) as Hhi.
  rewrite inject_Z_plus in Hhi. change (inject_Z 1) with 1%Q in Hhi.
  destruct (Qcompare (x - inject_Z (Qfloor x)) (1 # 2)) eqn:E.
  - apply Qeq_alt in E.
    destruct (Z.even (Qfloor x)); [| rewrite inject_Z_plus;
                                     change (inject_Z 1) with 1%Q]; lra.
  - apply Qlt_alt in E. lra.
  - apply Qgt_alt in E. rewrite inject_Z_plus. change (inject_Z 1) with 1%Q. lra.
Qed.

(** [round(q, 2)] is a whole number of hundredths, at most half a hundredth
    away from [q]. *)
Lemma py_round_two_places (q : Q) :
  (exists z : Z, py_round q 2 = (inject_Z z / inject_Z 100)%Q) /\
  (q - (1 # 200) <= py_round q 2 <= q + (1 # 200))%Q.
Proof.
  unfold py_round. change (10 ^ Z.of_nat 2)%Z with 100%Z. split.
  - eexists. reflexivity.
  - pose proof (round_half_even_near (q * inject_Z 100)) as H.
    change (inject_Z 100) with 100%Q in *.
    set (z := inject_Z (round_half_even (q * 100))) in *.
    unfold Qdiv. change (/ 100)%Q with (1 # 100)%Q. lra.
Qed.

(** ** The regressor bank *)

Section ModelFacts.

Context {toolkit : Toolkit}.

Lemma feature_frame_lagged (n_steps : nat) (df : DataFrame) :
  feature_frame n_steps (lagged n_steps df) = feature_frame n_steps df.
Proof. unfold feature_frame. now rewrite lagged_idempotent. Qed.

Lemma target_series_lagged (n_steps : nat) (df : DataFrame) (t : string) :
  target_series n_steps (lagged n_steps df) t = target_series n_steps df t.
Proof. unfold target_series. now rewrite lagged_idempotent. Qed.

(** *** predict_next_day *)

Lemma predict_target_spec (p : gmap string Q) (t : string) (e : Env) :
  has_columns (frame e) feature_columns -> In t feature_columns ->
  predict_target p t e =
  (mkEnv (lagged 7 (frame e)) (self e) (np_random e),
   if 0 <? nrows (feature_frame 7 (frame e)) then
     match predict_one (self e) (feature_frame 7 (frame e)) t with
     | Ok v => Ok (<[t := v]> p)
     | Raise x => Raise x
     end
   else Ok p).
Proof.
  intros Hcols Ht. unfold predict_target, bind at 1, on_frame.
  rewrite prepare_data_ok by (auto using Hcols).
  destruct (0 <? nrows (feature_frame 7 (frame e))); [| reflexivity].
  unfold predict_one, bind, lift, ret, bind_result. cbn [self].
  destruct (dict_get (scalers (self e)) t) as [scaler |]; [| reflexivity].
  destruct (StandardScaler_transform scaler _) as [scaled |]; [| reflexivity].
  destruct (dict_get (models (self e)) t) as [model |]; [| reflexivity].
  destruct (RandomForestRegressor_predict model scaled) as [y_pred |];
    [| reflexivity].
  destruct (first y_pred); reflexivity.
Qed.

Lemma predict_loop_spec (targets : list string) (p : gmap string Q) (e : Env) :
  has_columns (frame e) feature_columns ->
  (forall t, In t targets -> In t feature_columns) ->
  predict_loop targets p e =
  (mkEnv (match targets with [] => frame e | _ => lagged 7 (frame e) end)
         (self e) (np_random e),
   if 0 <? nrows (feature_frame 7 (frame e)) then
     predict_all (self e) (feature_frame 7 (frame e)) targets p
   else Ok p).
Proof.
  revert p e. induction targets as [| t rest IH]; intros p e Hcols Hsub.
  - cbn [predict_loop predict_all]. unfold ret. destruct e as [df m g].
    cbn [frame self np_random].
    destruct (0 <? nrows (feature_frame 7 df)); reflexivity.
  - cbn [predict_loop predict_all]. unfold bind.
    rewrite predict_target_spec by (auto; apply Hsub; now left).
    destruct (0 <? nrows (feature_frame 7 (frame e))) eqn:Erows.
    + destruct (predict_one (self e) (feature_frame 7 (frame e)) t) as [v |];
        [| reflexivity].
      rewrite IH.
      * cbn [frame self np_random].
        rewrite feature_frame_lagged, Erows, lagged_idempotent.
        now destruct rest.
      * cbn [frame]. now apply has_columns_lagged.
      * intros t' Ht'. apply Hsub. now right.
    + rewrite IH.
      * cbn [frame self np_random].
        rewrite feature_frame_lagged, Erows, lagged_idempotent.
        now destruct rest.
      * cbn [frame]. now apply has_columns_lagged.
      * intros t' Ht'. apply Hsub. now right.
Qed.

Lemma predict_next_day_spec (e : Env) :
  has_columns (frame e) feature_columns ->
  predict_next_day e =
  (mkEnv (lagged 7 (frame e)) (self e) (np_random e),
   if 0 <? nrows (feature_frame 7 (frame e)) then
     predict_all (self e) (feature_frame 7 (frame e)) feature_columns ∅
   else Ok ∅).
Proof.
  intros Hcols. unfold predict_next_day.
  rewrite predict_loop_spec by auto. reflexivity.
Qed.

Lemma predict_all_lookup (m : WeatherPredictionModel) (X : DataFrame)
  (targets : list string) (p q : gmap string Q) :
  predict_all m X targets p = Ok q ->
  (forall t, In t targets ->
             exists v, predict_one m X t = Ok v /\ q !! t = Some v) /\
  (forall t, ~ In t targets -> q !! t = p !! t).
Proof.
  revert p. induction targets as [| t0 rest IH]; intros p H.
  - injection H as <-. split; [intros t [] | reflexivity].
  - cbn [predict_all] in H.
    destruct (predict_one m X t0) as [v0 |] eqn:E0; [| discriminate].
    destruct (IH _ H) as [Hin Hout]. split.
    + intros t [<- | Ht].
      * destruct (in_dec string_dec t0 rest) as [Hr | Hr].
        -- destruct (Hin t0 Hr) as (v & Hv & Hq). exists v. split; [| exact Hq].
           congruence.
        -- exists v0. split; [exact E0 |].
           rewrite (Hout t0 Hr). apply lookup_insert_eq.
      * destruct (Hin t Ht) as (v & Hv & Hq). eauto.
    + intros t Ht. rewrite Hout by (intros Hr; apply Ht; now right).
      apply lookup_insert_ne. intros ->. apply Ht. now left.
Qed.

Lemma predict_all_ok (m : WeatherPredictionModel) (X : DataFrame)
  (targets : list string) (p : gmap string Q) :
  (forall t, In t targets -> is_ok (predict_one m X t) = true) ->
  exists q, predict_all m X targets p = Ok q.
Proof.
  revert p. induction targets as [| t0 rest IH]; intros p H.
  - eexists. reflexivity.
  - cbn [predict_all]. pose proof (H t0 (or_introl eq_refl)) as H0.
    destruct (predict_one m X t0) as [v0 |]; [| discriminate].
    apply IH. intros t Ht. apply H. now right.
Qed.

Lemma predict_all_raises (m : WeatherPredictionModel) (X : DataFrame)
  (targets : list string) (p : gmap string Q) (t : string) :
  In t targets -> is_ok (predict_one m X t) = false ->
  exists x, predict_all m X targets p = Raise x.
Proof.
  revert p. induction targets as [| t0 rest IH]; intros p Ht Hno; [destruct Ht |].
  cbn [predict_all].
  destruct (predict_one m X t0) as [v0 |] eqn:E0; [| eauto].
  destruct Ht as [<- | Ht]; [rewrite E0 in Hno; discriminate |].
  now apply IH.
Qed.

Lemma predict_one_Ok (m : WeatherPredictionModel) (X : DataFrame)
  (t : string) (v : Q) :
  predict_one m X t = Ok v ->
  exists scaler model scaled pred rest,
    scalers m !! t = Some scaler /\ models m !! t = Some model /\
    StandardScaler_transform scaler (last_row_values X) = Ok scaled /\
    RandomForestRegressor_predict model scaled = Ok (pred :: rest) /\
    v = py_round pred 2.
Proof.
  unfold predict_one, bind_result, dict_get. intros H.
  destruct (scalers m !! t) as [scaler |]; [| discriminate].
  destruct (StandardScaler_transform scaler _) as [scaled |] eqn:Es;
    [| discriminate].
  destruct (models m !! t) as [model |]; [| discriminate].
  destruct (RandomForestRegressor_predict model scaled) as [[| pred rest] |] eqn:Ep;
    [discriminate | | discriminate].
  cbn [first] in H. injection H as <-.
  exists scaler, model, scaled, pred, rest. auto.
Qed.

Lemma predict_one_no_entry (m : WeatherPredictionModel) (X : DataFrame)
  (t : string) :
  scalers m !! t = None \/ models m !! t = None ->
  is_ok (predict_one m X t) = false.
Proof.
  unfold predict_one, bind_result, dict_get. intros [H | H].
  - now rewrite H.
  - destruct (scalers m !! t) as [scaler |]; [| reflexivity].
    destruct (StandardScaler_transform scaler _); [| reflexivity].
    now rewrite H.
Qed.

End ModelFacts.

Section TrainFacts.

Context {toolkit : Toolkit}.

(** *** train *)

(** With a seed the split leaves numpy's generator alone. *)
Lemma train_test_split_seeded (X : DataFrame) (y : Series) (g : rng) :
  train_test_split X y (1 # 5) (Some 42%Z) g = (seeded_split X y, g).
Proof.
  unfold train_test_split, seeded_split.
  destruct (validate_shuffle_split (nrows X) (1 # 5)) as [[n_train n_test] |];
    reflexivity.
Qed.

Lemma train_target_eq (t : string) (e : Env) :
  train_target t e =
  match prepare_data (frame e) t 7 with
  | (df', Raise x) => (mkEnv df' (self e) (np_random e), Raise x)
  | (df', Ok (X, y)) =>
      match fit_target X y with
      | Raise x => (mkEnv df' (self e) (np_random e), Raise x)
      | Ok (model, scaler, y_test, y_pred) =>
          (mkEnv df'
                 (mkModel (<[t := model]> (models (self e)))
                          (<[t := scaler]> (scalers (self e))))
                 (np_random e),
           plot_predictions y_test y_pred t)
      end
  end.
Proof.
  unfold train_target, bind, on_frame, on_random, lift, store_model,
    fit_target, bind_result.
  destruct (prepare_data (frame e) t 7) as [df' [[X y] | x]]; [| reflexivity].
  cbn [frame self np_random]. rewrite train_test_split_seeded.
  destruct (seeded_split X y) as [[[[X_train X_test] y_train] y_test] | x];
    [| reflexivity].
  destruct (fit_transform (values X_train)) as [[scaler X_train_scaled] | x];
    [| reflexivity].
  destruct (StandardScaler_transform scaler (values X_test))
    as [X_test_scaled | x]; [| reflexivity].
  unfold RandomForestRegressor, check_random_state. cbn [frame self np_random].
  destruct (RandomForestRegressor_fit 100 (RandomState 42) X_train_scaled y_train)
    as [[model | x] g']; cbn [fst]; [| reflexivity].
  destruct (RandomForestRegressor_predict model X_test_scaled) as [y_pred | x];
    [| reflexivity].
  destruct (mean_squared_error y_test y_pred); [| reflexivity].
  destruct (r2_score y_test y_pred); reflexivity.
Qed.

Lemma train_loop_eq (targets : list string) (e : Env) :
  for_each targets train_target e =
  (mkEnv (fst (fst (train_pure targets (frame e) (self e))))
         (snd (fst (train_pure targets (frame e) (self e))))
         (np_random e),
   snd (train_pure targets (frame e) (self e))).
Proof.
  revert e. induction targets as [| t rest IH]; intros e.
  - cbn [for_each train_pure fst snd]. unfold ret. now destruct e.
  - cbn [for_each train_pure]. unfold bind. rewrite train_target_eq.
    destruct (prepare_data (frame e) t 7) as [df' [[X y] | x]]; [| reflexivity].
    destruct (fit_target X y) as [[[[model scaler] y_test] y_pred] | x];
      [| reflexivity].
    destruct (plot_predictions y_test y_pred t); [| reflexivity].
    rewrite IH. reflexivity.
Qed.

Lemma train_pure_bank (targets : list string) (df : DataFrame)
  (m : WeatherPredictionModel) :
  has_columns df feature_columns ->
  (forall t, In t targets -> In t feature_columns) ->
  train_pure targets df m =
  (match targets with [] => df | _ => lagged 7 df end,
   fst (bank_after (feature_frame 7 df) (target_series 7 df) targets m),
   snd (bank_after (feature_frame 7 df) (target_series 7 df) targets m)).
Proof.
  revert df m. induction targets as [| t rest IH]; intros df m Hcols Hsub.
  - reflexivity.
  - cbn [train_pure bank_after].
    rewrite prepare_data_ok; [| exact Hcols | apply Hcols, Hsub; now left].
    destruct (fit_target (feature_frame 7 df) (target_series 7 df t))
      as [[[[model scaler] y_test] y_pred] | x]; [| reflexivity].
    destruct (plot_predictions y_test y_pred t); [| reflexivity].
    rewrite IH.
    + rewrite feature_frame_lagged, lagged_idempotent.
      replace (target_series 7 (lagged 7 df)) with (target_series 7 df).
      * now destruct rest.
      * unfold target_series. now rewrite lagged_idempotent.
    + now apply has_columns_lagged.
    + intros t' Ht'. apply Hsub. now right.
Qed.

Lemma bank_after_keeps (X : DataFrame) (Y : string -> Series)
  (targets : list string) (m : WeatherPredictionModel) (t : string) :
  ~ In t targets ->
  models (fst (bank_after X Y targets m)) !! t = models m !! t /\
  scalers (fst (bank_after X Y targets m)) !! t = scalers m !! t.
Proof.
  revert m. induction targets as [| t0 rest IH]; intros m Ht; [now split |].
  cbn [bank_after].
  assert (Hne : t0 <> t) by (intros ->; apply Ht; now left).
  assert (Hrest : ~ In t rest) by (intros H; apply Ht; now right).
  destruct (fit_target X (Y t0)) as [[[[model scaler] y_test] y_pred] | x];
    [| now split].
  destruct (plot_predictions y_test y_pred t0).
  - destruct (IH (mkModel (<[t0:=model]> (models m))
                          (<[t0:=scaler]> (scalers m))) Hrest) as [-> ->].
    cbn [models scalers]. now rewrite !lookup_insert_ne.
  - cbn [fst models scalers]. now rewrite !lookup_insert_ne.
Qed.

(** Training again over the same features stores the same entries. *)
Lemma bank_after_idempotent (X : DataFrame) (Y : string -> Series)
  (targets : list string) (m : WeatherPredictionModel) :
  List.NoDup targets ->
  bank_after X Y targets (fst (bank_after X Y targets m)) =
  bank_after X Y targets m.
Proof.
  revert m. induction targets as [| t rest IH]; intros m Hnd; [reflexivity |].
  inversion Hnd as [| ? ? Ht Hnd']; subst.
  cbn [bank_after].
  destruct (fit_target X (Y t)) as [[[[model scaler] y_test] y_pred] | x];
    [| reflexivity].
  destruct (plot_predictions y_test y_pred t).
  - set (m' := mkModel (<[t:=model]> (models m)) (<[t:=scaler]> (scalers m))).
    destruct (bank_after_keeps X Y rest m' t Ht) as [Hm Hs].
    unfold m' in Hm at 2. unfold m' in Hs at 2. cbn [models scalers] in Hm, Hs.
    rewrite lookup_insert_eq in Hm. rewrite lookup_insert_eq in Hs.
    rewrite (insert_id _ _ _ Hm), (insert_id _ _ _ Hs).
    replace (mkModel (models (fst (bank_after X Y rest m')))
                     (scalers (fst (bank_after X Y rest m'))))
      with (fst (bank_after X Y rest m'))
      by now destruct (fst (bank_after X Y rest m')).
    now apply IH.
  - cbn [fst models scalers]. now rewrite !insert_insert_eq.
Qed.

Lemma train_spec (e : Env) :
  has_columns (frame e) feature_columns ->
  train e =
  (mkEnv (lagged 7 (frame e))
         (fst (bank_after (feature_frame 7 (frame e))
                          (target_series 7 (frame e)) feature_columns (self e)))
         (np_random e),
   snd (bank_after (feature_frame 7 (frame e))
                   (target_series 7 (frame e)) feature_columns (self e))).
Proof.
  intros Hcols. unfold train. rewrite train_loop_eq.
  rewrite train_pure_bank by auto. reflexivity.
Qed.

Lemma validate_shuffle_split_empty :
  validate_shuffle_split 0 (1 # 5) =
  Raise (ValueError
    ("With n_samples=0, test_size=0.2 and train_size=None, the resulting " ++
     "train set will be empty. Adjust any of the aforementioned parameters.")).
Proof. reflexivity. Qed.

Lemma fit_target_empty (X : DataFrame) (y : Series) :
  nrows X = 0 ->
  fit_target X y =
  Raise (ValueError
    ("With n_samples=0, test_size=0.2 and train_size=None, the resulting " ++
     "train set will be empty. Adjust any of the aforementioned parameters.")).
Proof.
  intros H. unfold fit_target, seeded_split.
  rewrite H, validate_shuffle_split_empty. reflexivity.
Qed.

End TrainFacts.

(** * The regressor bank and the forecast service *)

Section ModelClaims.

Context {toolkit : Toolkit}.

Lemma bank_after_empty (X : DataFrame) (Y : string -> Series)
  (t : string) (rest : list string) (m : WeatherPredictionModel) :
  nrows X = 0 ->
  bank_after X Y (t :: rest) m =
  (m, Raise (ValueError
    ("With n_samples=0, test_size=0.2 and train_size=None, the resulting " ++
     "train set will be empty. Adjust any of the aforementioned parameters."))).
Proof. intros H. cbn [bank_after]. now rewrite fit_target_empty. Qed.

(** C3 (what the code does; the claim asks for the opposite).  On a table
    with fewer than 8 rows that holds the tracked columns, [train] does not
    complete: the empty feature set reaches [train_test_split], which raises
    [ValueError] for the first attribute, and [train] passes the exception
    on.  Nothing is stored, and the caller's frame has received the lag
    columns. *)
Theorem train_short_table_raises (e : Env) :
  well_formed (frame e) -> has_columns (frame e) feature_columns ->
  nrows (frame e) < 8 ->
  train e =
  (mkEnv (lagged 7 (frame e)) (self e) (np_random e),
   Raise (ValueError
     ("With n_samples=0, test_size=0.2 and train_size=None, the resulting " ++
      "train set will be empty. Adjust any of the aforementioned parameters."))).
Proof.
  intros Hwf Hcols Hn. rewrite train_spec by exact Hcols.
  destruct (feature_frame_short 7 (frame e) Hwf Hcols) as (H0 & _); [lia |].
  unfold feature_columns. rewrite bank_after_empty by exact H0. reflexivity.
Qed.

Lemma predict_all_first_raise (m : WeatherPredictionModel) (X : DataFrame)
  (before after : list string) (t : string) (p : gmap string Q) (x : exn) :
  (forall t', In t' before -> is_ok (predict_one m X t') = true) ->
  predict_one m X t = Raise x ->
  predict_all m X (before ++ t :: after) p = Raise x.
Proof.
  revert p. induction before as [| t0 before IH]; intros p Hbefore Ht.
  - cbn [app predict_all]. now rewrite Ht.
  - cbn [app predict_all].
    pose proof (Hbefore t0 (or_introl eq_refl)) as H0.
    destruct (predict_one m X t0) as [v0 |]; [| discriminate H0].
    apply IH; [| exact Ht]. intros t' Ht'. apply Hbefore. now right.
Qed.

Lemma predict_answers (app : App) (m : WeatherPredictionModel) (df : DataFrame)
  (env : Env) (r : result (gmap string Q)) :
  model app = Some m -> load_dataset app = Ok df ->
  predict_next_day (mkEnv df m (numpy_random app)) = (env, r) ->
  predict app =
  (mkApp (Some (self env)) (weather_data_csv app) (np_random env),
   match r with
   | Ok p => mkResponse "success" None (Some p) 200
   | Raise x => mkResponse "error" (Some (str_exn x)) None 500
   end).
Proof.
  intros Hm Hload Hp. unfold predict. rewrite Hm, Hload, Hp.
  now destruct r.
Qed.

(** C4 (as amended).  With fewer than 8 rows of history [predict_next_day]
    raises nothing and returns the empty mapping, whatever is stored: no
    attribute gets a value, and [GET /api/predict] answers 200 with that
    empty mapping.  With enough history for a feature row, a tracked
    attribute without a stored scaler or model is not left out of the
    mapping: the call raises and returns no mapping at all.  The exception
    is the [KeyError] for the first attribute that fails, when it fails for
    lack of its scaler, or for lack of its model after its scaler has
    transformed the row.  The route catches what is raised: it answers with
    status [error], code 500, the text of the exception and no predictions,
    and leaves the model object as it was. *)
Theorem predict_next_day_unavailable (e : Env) :
  well_formed (frame e) -> has_columns (frame e) feature_columns ->
  (nrows (frame e) < 8 ->
   predict_next_day e =
   (mkEnv (lagged 7 (frame e)) (self e) (np_random e), Ok ∅)) /\
  (0 < nrows (feature_frame 7 (frame e)) ->
   forall t, In t feature_columns ->
     scalers (self e) !! t = None \/ models (self e) !! t = None ->
     exists x, snd (predict_next_day e) = Raise x) /\
  (0 < nrows (feature_frame 7 (frame e)) ->
   scalers (self e) !! "temperature" = None ->
   snd (predict_next_day e) = Raise (KeyError "temperature")) /\
  (0 < nrows (feature_frame 7 (frame e)) ->
   forall before t after,
     feature_columns = before ++ t :: after ->
     (forall t', In t' before ->
        is_ok (predict_one (self e) (feature_frame 7 (frame e)) t') = true) ->
     scalers (self e) !! t = None \/
     (exists scaler scaled,
        scalers (self e) !! t = Some scaler /\
        StandardScaler_transform scaler
          (last_row_values (feature_frame 7 (frame e))) = Ok scaled /\
        models (self e) !! t = None) ->
     snd (predict_next_day e) = Raise (KeyError t)) /\
  (forall app,
     model app = Some (self e) -> load_dataset app = Ok (frame e) ->
     numpy_random app = np_random e ->
     (nrows (frame e) < 8 ->
      predict app =
      (mkApp (Some (self e)) (weather_data_csv app) (np_random e),
       mkResponse "success" None (Some ∅) 200)) /\
     (forall x, snd (predict_next_day e) = Raise x ->
        predict app =
        (mkApp (Some (self e)) (weather_data_csv app) (np_random e),
         mkResponse "error" (Some (str_exn x)) None 500))).
Proof.
  intros Hwf Hcols.
  pose proof (predict_next_day_spec e Hcols) as Hspec.
  assert (Hshort : nrows (frame e) < 8 ->
                   predict_next_day e =
                   (mkEnv (lagged 7 (frame e)) (self e) (np_random e), Ok ∅)).
  { intros Hn. rewrite Hspec.
    destruct (feature_frame_short 7 (frame e) Hwf Hcols) as (H0 & _); [lia |].
    rewrite H0. reflexivity. }
  split; [exact Hshort |]. split; [| split; [| split]].
  - intros Hpos t Ht Hno. rewrite Hspec. cbn [snd].
    apply Nat.ltb_lt in Hpos. rewrite Hpos.
    apply (predict_all_raises _ _ _ _ t Ht).
    now apply predict_one_no_entry.
  - intros Hpos Hno. rewrite Hspec. cbn [snd].
    apply Nat.ltb_lt in Hpos. rewrite Hpos.
    unfold feature_columns. cbn [predict_all].
    unfold predict_one, dict_get, bind_result. rewrite Hno. reflexivity.
  - intros Hpos before t after Hsplit Hbefore Hno. rewrite Hspec. cbn [snd].
    apply Nat.ltb_lt in Hpos. rewrite Hpos, Hsplit.
    apply predict_all_first_raise; [exact Hbefore |].
    unfold predict_one, dict_get, bind_result.
    destruct Hno as [Hno | (scaler & scaled & Hs & Ht & Hno)].
    + now rewrite Hno.
    + now rewrite Hs, Ht, Hno.
  - intros app Hm Hload Hg.
    assert (Hrun : predict_next_day (mkEnv (frame e) (self e) (numpy_random app))
                   = predict_next_day e).
    { rewrite Hg. now destruct e. }
    split.
    + intros Hn.
      rewrite (predict_answers app (self e) (frame e) _ _ Hm Hload
                 (eq_trans Hrun (Hshort Hn))).
      reflexivity.
    + intros x Hx.
      assert (Hp : predict_next_day e =
                   (mkEnv (lagged 7 (frame e)) (self e) (np_random e), Raise x)).
      { rewrite Hspec in Hx |- *. cbn [snd] in Hx. now rewrite Hx. }
      rewrite (predict_answers app (self e) (frame e) _ _ Hm Hload
                 (eq_trans Hrun Hp)).
      reflexivity.
Qed.

(** C5 (as amended).  [predict_next_day] on a table that holds the tracked
    columns: the same feature rows serve every attribute, so the mapping it
    returns is all or nothing.  Without a feature row it is empty.  With one,
    it is returned when every tracked attribute can be predicted, and then it
    holds every tracked attribute, each with [round(pred, 2)] for the single
    prediction [pred] that the attribute's stored model makes from the last
    feature row scaled by the attribute's stored scaler; such a value is a
    whole number of hundredths. *)
Theorem predict_next_day_mapping (e : Env) :
  has_columns (frame e) feature_columns ->
  let X := feature_frame 7 (frame e) in
  (nrows X = 0 -> snd (predict_next_day e) = Ok ∅) /\
  (0 < nrows X ->
   (forall t, In t feature_columns ->
              is_ok (predict_one (self e) X t) = true) ->
   exists p, snd (predict_next_day e) = Ok p) /\
  (forall p, snd (predict_next_day e) = Ok p -> 0 < nrows X ->
     dom p = list_to_set feature_columns /\
     forall t, In t feature_columns ->
       exists scaler model scaled pred rest,
         scalers (self e) !! t = Some scaler /\
         models (self e) !! t = Some model /\
         StandardScaler_transform scaler (last_row_values X) = Ok scaled /\
         RandomForestRegressor_predict model scaled = Ok (pred :: rest) /\
         p !! t = Some (py_round pred 2) /\
         exists z : Z, py_round pred 2 = (inject_Z z / inject_Z 100)%Q).
Proof.
  intros Hcols X. rewrite predict_next_day_spec by exact Hcols. fold X.
  cbn [snd]. split; [| split].
  - intros H0. rewrite H0. reflexivity.
  - intros Hpos Hall. apply Nat.ltb_lt in Hpos. rewrite Hpos.
    now apply predict_all_ok.
  - intros p Hp Hpos. apply Nat.ltb_lt in Hpos. rewrite Hpos in Hp.
    destruct (predict_all_lookup _ _ _ _ _ Hp) as [Hin Hout]. split.
    + apply set_eq. intros t. rewrite elem_of_dom, elem_of_list_to_set.
      rewrite list_elem_of_In. split.
      * intros Hsome. destruct (in_dec string_dec t feature_columns) as [H | H];
          [exact H |].
        rewrite (Hout t H), lookup_empty in Hsome. now destruct Hsome.
      * intros Ht. destruct (Hin t Ht) as (v & _ & Hv). now exists v.
    + intros t Ht. destruct (Hin t Ht) as (v & Hone & Hv).
      apply predict_one_Ok in Hone.
      destruct Hone as (scaler & model & scaled & pred & rest &
                        H1 & H2 & H3 & H4 & ->).
      exists scaler, model, scaled, pred, rest.
      repeat (split; [assumption |]).
      apply py_round_two_places.
Qed.

(** *** Determinism of training *)

(** C6.  [train] never reads numpy's shared generator: the split and the
    forest are seeded with 42.  Two runs on the same table, from the same
    stored entries and from any two states of the shared generator, raise or
    complete alike and leave the same scalers and models for every attribute
    and the same frame; each leaves the shared generator as it found it.  On a
    table that holds the tracked columns, a second run on the objects that
    the first one left reproduces the outcome and every stored entry. *)
Theorem train_deterministic (df : DataFrame) (m : WeatherPredictionModel)
  (g1 g2 : rng) :
  (snd (train (mkEnv df m g1)) = snd (train (mkEnv df m g2)) /\
   self (fst (train (mkEnv df m g1))) = self (fst (train (mkEnv df m g2))) /\
   frame (fst (train (mkEnv df m g1))) = frame (fst (train (mkEnv df m g2))) /\
   np_random (fst (train (mkEnv df m g1))) = g1 /\
   np_random (fst (train (mkEnv df m g2))) = g2) /\
  (has_columns df feature_columns ->
   train (fst (train (mkEnv df m g1))) = train (mkEnv df m g1)).
Proof.
  split.
  - unfold train. rewrite !train_loop_eq. cbn [fst snd frame self np_random].
    repeat split.
  - intros Hcols. rewrite (train_spec (mkEnv df m g1)) by exact Hcols.
    cbn [fst frame self np_random].
    rewrite train_spec by (cbn [frame]; now apply has_columns_lagged).
    cbn [frame self np_random].
    rewrite lagged_idempotent, feature_frame_lagged.
    replace (target_series 7 (lagged 7 df)) with (target_series 7 df)
      by (unfold target_series; now rewrite lagged_idempotent).
    rewrite bank_after_idempotent by exact NoDup_feature_columns.
    reflexivity.
Qed.

(** *** The caller's frame *)

(** C10 (as amended).  [prepare_data] writes into the frame it is given.  On
    a table that holds the tracked columns, whatever the target, the
    caller's frame afterwards has the same rows, holds under [c_lag_i] the
    column [c] shifted by [i] for each of the 5 tracked attributes and each
    [i] from 1 to 7, and is unchanged under every other name.  Columns are
    added only to a table that had none of these names: then the 35 columns
    are appended and the frame has changed.  A further call on the frame so
    filled, for any target, adds nothing and leaves it as it is.  [train]
    and [predict_next_day] leave the frame they are given in the state in
    which one call of [prepare_data] leaves it, whether they complete or
    raise. *)
Theorem prepare_data_mutates_frame (df : DataFrame) (target : string) :
  has_columns df feature_columns ->
  let df' := fst (prepare_data df target 7) in
  nrows df' = nrows df /\
  (forall c i, In c feature_columns -> 1 <= i <= 7 ->
     getitem df' (lag_name c i) = Ok (shift i (column df c))) /\
  (forall nm, ~ is_lag_name 7 nm ->
     assoc_get nm (columns df') = assoc_get nm (columns df)) /\
  ((forall nm, In nm (names df) -> ~ is_lag_name 7 nm) ->
   names df' = names df ++ lag_names (seq 1 7) /\
   length (names df') = length (names df) + 35 /\
   df' <> df) /\
  (forall m g, frame (fst (train (mkEnv df m g))) = df') /\
  (forall m g, frame (fst (predict_next_day (mkEnv df m g))) = df') /\
  (forall target', fst (prepare_data df' target' 7) = df' /\
                   names (fst (prepare_data df' target' 7)) = names df').
Proof.
  intros Hcols df'. subst df'. rewrite prepare_data_frame by exact Hcols.
  split; [reflexivity |]. split; [| split; [| split; [| split; [| split]]]].
  - intros c i Hc Hi. unfold getitem, lagged. cbn [columns].
    rewrite lag_lookup; [reflexivity | exact Hc | apply in_seq; lia].
  - intros nm Hnm. unfold lagged. cbn [columns]. apply other_lookup.
    intros c i Hc Hi ->. apply Hnm. apply in_seq in Hi.
    exists c, i. repeat split; [exact Hc | lia | lia].
  - intros Hfresh.
    assert (Hnames : names (lagged 7 df) = names df ++ lag_names (seq 1 7))
      by now apply lagged_fresh_names.
    assert (Hlen : length (names (lagged 7 df)) = length (names df) + 35).
    { rewrite Hnames, length_app, lag_names_length, length_seq. reflexivity. }
    repeat split; [exact Hnames | exact Hlen |].
    intros Heq. rewrite Heq in Hlen. lia.
  - intros m g. rewrite train_spec by exact Hcols. reflexivity.
  - intros m g. rewrite predict_next_day_spec by exact Hcols. reflexivity.
  - intros target'.
    assert (H : fst (prepare_data (lagged 7 df) target' 7) = lagged 7 df).
    { rewrite prepare_data_frame by (apply has_columns_lagged; exact Hcols).
      apply lagged_idempotent. }
    split; [exact H | rewrite H; reflexivity].
Qed.

(** *** The predict route *)

(** C8.  Before any initialize, [GET /api/predict] answers with status
    [error], code 400 and the message that the model is not initialized; the
    answer carries no predictions and the application is unchanged, however
    often the route is called. *)
Theorem predict_before_initialize (csv : result DataFrame) (g : rng) (n : nat) :
  predict (start csv g) =
  (start csv g,
   mkResponse "error"
     (Some "Model not initialized. Please call /api/initialize first")
     None 400) /\
  predictions (snd (predict (start csv g))) = None /\
  serve (start csv g) (repeat GET_predict n) =
  (start csv g,
   repeat (mkResponse "error"
             (Some "Model not initialized. Please call /api/initialize first")
             None 400) n).
Proof.
  split; [reflexivity | split; [reflexivity |]].
  induction n as [| n IH]; [reflexivity |].
  cbn [repeat serve handle]. change (predict (start csv g))
    with (start csv g,
          mkResponse "error"
            (Some "Model not initialized. Please call /api/initialize first")
            None 400).
  cbv iota beta. rewrite IH. reflexivity.
Qed.

End ModelClaims.

(** * The historical store *)

Lemma dict_get_is_Some (d : gmap string cell) (k : string) :
  is_Some (d !! k) -> exists c, dict_get d k = Ok c.
Proof. intros [c Hc]. exists c. unfold dict_get. now rewrite Hc. Qed.

Lemma new_data_ok (wd : gmap string cell) (now : Z) :
  has_keys wd -> exists row, new_data wd now = Ok row.
Proof.
  intros H. unfold new_data, bind_result.
  repeat match goal with
  | |- context [dict_get wd ?k] =>
      let c := fresh "c" in let Hc := fresh "Hc" in
      destruct (dict_get_is_Some wd k) as [c Hc];
      [apply H; unfold payload_keys; simpl; tauto | rewrite Hc]
  end.
  eexists. reflexivity.
Qed.

Lemma historical_data_ok (wd : gmap string cell) (now : Z) :
  has_keys wd ->
  exists city temperature humidity wind_speed pressure description,
    historical_data wd now =
    Ok (Historical.mk (strftime_date now) city temperature humidity
                      wind_speed pressure description).
Proof.
  intros H. unfold historical_data, bind_result.
  repeat match goal with
  | |- context [dict_get wd ?k] =>
      let c := fresh "c" in let Hc := fresh "Hc" in
      destruct (dict_get_is_Some wd k) as [c Hc];
      [apply H; unfold payload_keys; simpl; tauto | rewrite Hc]
  end.
  do 6 eexists. reflexivity.
Qed.

Lemma store_true (wd : gmap string cell) (now now' : Z)
  (a a' : WeatherDataAnalyzer) :
  store_current_weather wd now now' a = (a', true) ->
  exists row hrow,
    new_data wd now = Ok row /\ historical_data wd now' = Ok hrow /\
    a' = mkAnalyzer (current_data_file a ++ [row])
                    (historical_data_file a ++ [hrow]) (analysis_file a).
Proof.
  unfold store_current_weather. intros H.
  destruct (new_data wd now) as [row |]; [| discriminate].
  destruct (historical_data wd now') as [hrow |]; [| discriminate].
  injection H as <-. eauto.
Qed.

(** C9.  A store that answers [True] has appended exactly one record to each
    of the two logs and nothing else.  A reading that carries the eight keys
    is always stored, and storing the same reading twice leaves two records
    more in each log: nothing is deduplicated.  The two historical records
    differ at most in their date, so they are equal when both calls fall on
    the same day. *)
Theorem store_twice_keeps_both (weather_data : gmap string cell)
  (a : WeatherDataAnalyzer) (now1 now1' now2 now2' : Z) :
  has_keys weather_data ->
  (forall wd now now' a0 a',
     store_current_weather wd now now' a0 = (a', true) ->
     exists row hrow,
       current_data_file a' = current_data_file a0 ++ [row] /\
       historical_data_file a' = historical_data_file a0 ++ [hrow] /\
       analysis_file a' = analysis_file a0) /\
  exists row1 row2 hrow1 hrow2 a1 a2,
    store_current_weather weather_data now1 now1' a = (a1, true) /\
    store_current_weather weather_data now2 now2' a1 = (a2, true) /\
    current_data_file a2 = current_data_file a ++ [row1; row2] /\
    historical_data_file a2 = historical_data_file a ++ [hrow1; hrow2] /\
    length (historical_data_file a2) = length (historical_data_file a) + 2 /\
    length (current_data_file a2) = length (current_data_file a) + 2 /\
    (strftime_date now1' = strftime_date now2' -> hrow1 = hrow2).
Proof.
  intros Hkeys. split.
  - intros wd now now' a0 a' H. apply store_true in H.
    destruct H as (row & hrow & _ & _ & ->). exists row, hrow. auto.
  - destruct (new_data_ok weather_data now1 Hkeys) as [row1 Hrow1].
    destruct (new_data_ok weather_data now2 Hkeys) as [row2 Hrow2].
    destruct (historical_data_ok weather_data now1' Hkeys)
      as (c & t & h & w & p & d & Hh1).
    pose proof Hh1 as Hh2. unfold historical_data in Hh1, Hh2.
    assert (Hh2' : historical_data weather_data now2' =
                   Ok (Historical.mk (strftime_date now2') c t h w p d)).
    { unfold historical_data, bind_result in *.
      repeat match goal with
      | H : context [dict_get weather_data ?k] |- _ =>
          destruct (dict_get weather_data k); [| discriminate]
      end.
      injection Hh1 as <- <- <- <- <- <-. reflexivity. }
    fold (historical_data weather_data now1') in Hh1.
    exists row1, row2, (Historical.mk (strftime_date now1') c t h w p d),
      (Historical.mk (strftime_date now2') c t h w p d).
    eexists. eexists.
    unfold store_current_weather. rewrite Hrow1, Hh1. cbn [current_data_file
      historical_data_file analysis_file].
    split; [reflexivity |]. rewrite Hrow2, Hh2'.
    cbn [current_data_file historical_data_file analysis_file].
    split; [reflexivity |].
    cbn [current_data_file historical_data_file analysis_file].
    rewrite <- !app_assoc. cbn [app].
    split; [reflexivity |]. split; [reflexivity |].
    split; [rewrite length_app; reflexivity |].
    split; [rewrite length_app; reflexivity |].
    intros ->. reflexivity.
Qed.

(** *** The summary *)

Lemma numeric_values_count (s : Series) (xs : list Q) :
  numeric_values s = Ok xs -> length xs = count_numbers s.
Proof.
  revert xs. unfold count_numbers.
  induction s as [| c s IH]; intros xs H.
  - injection H as <-. reflexivity.
  - destruct c as [| q | str | t]; cbn [numeric_values] in H; try discriminate.
    + cbn [List.filter]. auto.
    + unfold bind_result in H.
      destruct (numeric_values s) as [qs |]; [| discriminate].
      injection H as <-. cbn [List.filter length]. f_equal. auto.
Qed.


Section AnalyzerClaims.

Context {toolkit : Toolkit}.



End AnalyzerClaims.

(** * Instances of the theorems *)

Lemma sample_table_ok (n : nat) :
  well_formed (sample_table n) /\ has_columns (sample_table n) feature_columns.
Proof.
  split.
  - split.
    + apply distinct_NoDup. reflexivity.
    + intros nm s Hin. cbn [sample_table columns nrows] in *.
      unfold sample_column in Hin.
      repeat (destruct Hin as [Hin | Hin];
              [injection Hin as <- <-; now rewrite length_map, length_seq |]).
      destruct Hin.
  - apply has_columns_b_sound. reflexivity.
Qed.

(** C3, witness: a week of observations. *)
Lemma train_short_table_raises_witness :
  nrows (frame short_env) < 8 /\
  snd (train short_env) =
  Raise (ValueError
    ("With n_samples=0, test_size=0.2 and train_size=None, the resulting " ++
     "train set will be empty. Adjust any of the aforementioned parameters.")).
Proof.
  split; [vm_compute; lia |].
  rewrite (@train_short_table_raises toy_toolkit short_env).
  - reflexivity.
  - apply (sample_table_ok 7).
  - apply (sample_table_ok 7).
  - vm_compute. lia.
Defined.

(** C4, witness: with a week of observations nothing is predicted. *)
Lemma predict_next_day_unavailable_witness :
  nrows (frame short_env) < 8 /\ snd (predict_next_day short_env) = Ok ∅.
Proof.
  assert (Hn : nrows (frame short_env) < 8) by (vm_compute; lia).
  split; [exact Hn |].
  rewrite (proj1 (@predict_next_day_unavailable toy_toolkit short_env
                    (proj1 (sample_table_ok 7)) (proj2 (sample_table_ok 7))) Hn).
  reflexivity.
Defined.

Lemma predict_first_missing {toolkit : Toolkit} (e : Env) :
  has_columns (frame e) feature_columns ->
  0 < nrows (feature_frame 7 (frame e)) ->
  scalers (self e) !! "temperature" = None ->
  snd (predict_next_day e) = Raise (KeyError "temperature").
Proof.
  intros Hcols Hpos Hno. rewrite predict_next_day_spec by exact Hcols.
  cbn [snd]. apply Nat.ltb_lt in Hpos. rewrite Hpos.
  unfold feature_columns. cbn [predict_all].
  unfold predict_one, dict_get, bind_result. rewrite Hno. reflexivity.
Qed.

(** C4, counterexample to the claim as stated.  Eight complete days and a
    model object in which nothing is stored: the temperature is not left out
    of a returned mapping, [predict_next_day] raises [KeyError], with every
    library behind it. *)
Lemma predict_without_model_raises :
  nrows (sample_table 8) = 8 /\
  nrows (feature_frame 7 (sample_table 8)) = 1 /\
  forall (toolkit : Toolkit) (g : rng),
    models new_model !! "temperature" = None /\
    snd (predict_next_day (mkEnv (sample_table 8) new_model g)) =
    Raise (KeyError "temperature").
Proof.
  split; [reflexivity |]. split; [vm_compute; reflexivity |].
  intros toolkit g. split; [apply lookup_empty |].
  apply predict_first_missing.
  - apply (sample_table_ok 8).
  - cbn [frame]. change (nrows (feature_frame 7 (sample_table 8))) with 1. lia.
  - apply lookup_empty.
Qed.

(** C5, witness: after training on twelve days every attribute is
    predicted. *)
Lemma predict_next_day_mapping_witness :
  has_columns (frame trained_env) feature_columns /\
  exists p, snd (predict_next_day trained_env) = Ok p /\
            dom p = list_to_set feature_columns.
Proof.
  assert (Hcols : has_columns (frame trained_env) feature_columns)
    by (apply has_columns_b_sound; vm_compute; reflexivity).
  split; [exact Hcols |].
  destruct (@predict_next_day_mapping toy_toolkit trained_env Hcols)
    as (_ & Hreturns & Hmapping).
  assert (Hpos : 0 < nrows (feature_frame 7 (frame trained_env)))
    by (vm_compute; lia).
  destruct (Hreturns Hpos) as [p Hp].
  - intros t Ht. each_feature Ht; vm_compute; reflexivity.
  - exists p. split; [exact Hp |]. now apply Hmapping.
Defined.

(** C5, counterexample to the claim as stated.  Eight complete days and a
    model object in which only the temperature has been fitted, as [train]
    leaves it when it raises on the second attribute: the mapping is not
    returned with the temperature alone.  [predict_next_day] raises, with
    every library behind it, and on the example instance what it raises is
    the [KeyError] for the humidity, after the temperature was predicted. *)
Lemma predict_partial_bank_raises :
  nrows (feature_frame 7 (sample_table 8)) = 1 /\
  (forall (toolkit : Toolkit) (scaler : Scaler) (model : Forest) (g : rng),
     exists x,
       snd (predict_next_day
              (mkEnv (sample_table 8) (only_temperature scaler model) g)) =
       Raise x) /\
  is_ok (@predict_one toy_toolkit (@only_temperature toy_toolkit tt 0%Q)
           (feature_frame 7 (sample_table 8)) "temperature") = true /\
  snd (@predict_next_day toy_toolkit
         (@mkEnv toy_toolkit (sample_table 8)
                 (@only_temperature toy_toolkit tt 0%Q) 0)) =
  Raise (KeyError "humidity").
Proof.
  split; [vm_compute; reflexivity |]. split; [| split].
  - intros toolkit scaler model g.
    rewrite predict_next_day_spec by apply (sample_table_ok 8).
    cbn [snd frame self].
    change (nrows (feature_frame 7 (sample_table 8))) with 1.
    change (0 <? 1) with true. cbv iota.
    apply (predict_all_raises _ _ _ _ "humidity").
    + right. left. reflexivity.
    + apply predict_one_no_entry. left. apply lookup_singleton_ne.
      discriminate.
  - vm_compute. reflexivity.
  - vm_compute. reflexivity.
Qed.

(** C10, witness: nine days as loaded; the call appends 35 columns. *)
Lemma prepare_data_mutates_frame_witness :
  has_columns (sample_table 9) feature_columns /\
  length (names (fst (prepare_data (sample_table 9) "humidity" 7))) =
  length (names (sample_table 9)) + 35.
Proof.
  split; [apply (sample_table_ok 9) |].
  apply (@prepare_data_mutates_frame toy_toolkit (sample_table 9) "humidity"
           (proj2 (sample_table_ok 9))).
  intros nm Hin. cbn in Hin.
  destruct Hin as [<- | Hin].
  - intros (c & i & Hc & _ & Heq). unfold lag_name in Heq.
    each_feature Hc; cbv [String.append] in Heq; discriminate Heq.
  - apply feature_not_lag. exact Hin.
Defined.

(** C10, counterexample to the claim as stated.  Nine days as loaded: the
    first call of [prepare_data] appends the 35 lag columns; a second call
    on the frame it has left, as [train] makes it for the next attribute,
    adds no column and leaves the frame as it is. *)
Lemma prepare_data_second_call_adds_nothing :
  length (names (fst (prepare_data (sample_table 9) "temperature" 7))) =
    length (names (sample_table 9)) + 35 /\
  fst (prepare_data (fst (prepare_data (sample_table 9) "temperature" 7))
         "humidity" 7) =
    fst (prepare_data (sample_table 9) "temperature" 7) /\
  length (names (fst (prepare_data
                        (fst (prepare_data (sample_table 9) "temperature" 7))
                        "humidity" 7))) =
    length (names (fst (prepare_data (sample_table 9) "temperature" 7))).
Proof.
  split; [vm_compute; reflexivity |].
  split; vm_compute; reflexivity.
Qed.

(** C9, witness: the example reading stored twice in an empty store. *)
Lemma store_twice_keeps_both_witness :
  has_keys sample_reading /\
  exists row1 row2 hrow1 hrow2 a1 a2,
    store_current_weather sample_reading noon noon empty_store = (a1, true) /\
    store_current_weather sample_reading noon noon a1 = (a2, true) /\
    current_data_file a2 = current_data_file empty_store ++ [row1; row2] /\
    historical_data_file a2 =
      historical_data_file empty_store ++ [hrow1; hrow2] /\
    length (historical_data_file a2) =
      length (historical_data_file empty_store) + 2 /\
    length (current_data_file a2) =
      length (current_data_file empty_store) + 2 /\
    (strftime_date noon = strftime_date noon -> hrow1 = hrow2).
Proof.
  assert (Hkeys : has_keys sample_reading).
  { intros k Hk. unfold payload_keys in Hk. cbn [In] in Hk.
    repeat (destruct Hk as [<- | Hk]; [vm_compute; eauto |]). destruct Hk. }
  split; [exact Hkeys |].
  apply (store_twice_keeps_both sample_reading empty_store noon noon noon noon
           Hkeys).
Defined.


(** * Further properties of the feature builder *)

Lemma for_each_app {S A : Type} (l1 l2 : list A) (body : A -> M S unit) (s : S) :
  for_each (l1 ++ l2) body s =
  match for_each l1 body s with
  | (s', Ok _) => for_each l2 body s'
  | (s', Raise e) => (s', Raise e)
  end.
Proof.
  revert s. induction l1 as [| a l1 IH]; intros s; [reflexivity |].
  cbn [app for_each]. unfold bind.
  destruct (body a s) as [s' [[] | e]]; [apply IH | reflexivity].
Qed.

Lemma for_each_assign_lag_present (df cur : DataFrame) (i : nat)
  (cols : list string) :
  (forall c, In c cols -> In c feature_columns) ->
  (forall c, In c cols -> assoc_get c (columns cur) = Some (column df c)) ->
  for_each cols (fun col => assign_lag i col) cur =
  (mkDF (nrows cur) (assign_all (lag_columns df cols i) (columns cur)), Ok tt).
Proof.
  revert cur. induction cols as [| c cols IH]; intros cur Hsub Hcur.
  - cbn. now destruct cur.
  - cbn [for_each]. unfold bind, assign_lag at 1, getitem.
    rewrite (Hcur c) by now left.
    rewrite IH.
    + reflexivity.
    + intros c' Hc'. apply Hsub. now right.
    + intros c' Hc'. cbn [setitem columns]. rewrite assoc_get_set.
      destruct (String.eqb (lag_name c i) c') eqn:E;
        [| apply Hcur; now right].
      apply String.eqb_eq in E. exfalso.
      apply (lag_name_not_feature c c' i); [apply Hsub; now left | | exact E].
      apply Hsub. now right.
Qed.

(** X1.  When a tracked column is missing from the table, [prepare_data]
    (with a positive lag depth) raises [KeyError] for the first missing one
    in the order of [feature_columns], whatever the target; by then the
    caller's frame has received the first lag of the tracked columns that
    come before it, and nothing else. *)
Theorem prepare_data_missing_column (df : DataFrame) (target : string)
  (n_steps : nat) (before after : list string) (c : string) :
  feature_columns = before ++ c :: after ->
  (forall b, In b before -> In b (names df)) ->
  ~ In c (names df) ->
  1 <= n_steps ->
  prepare_data df target n_steps =
  (mkDF (nrows df) (assign_all (lag_columns df before 1) (columns df)),
   Raise (KeyError c)).
Proof.
  intros Hsplit Hbefore Hc Hn.
  assert (Hsub : forall b, In b (before ++ c :: after) -> In b feature_columns)
    by (intros b Hb; now rewrite Hsplit).
  unfold prepare_data, create_lag_features.
  destruct n_steps as [| n]; [lia |].
  cbn [seq for_each]. unfold bind at 1. rewrite Hsplit at 1.
  rewrite for_each_app.
  rewrite (for_each_assign_lag_present df).
  - cbn [for_each]. unfold bind, assign_lag, getitem. cbn [columns].
    rewrite (feature_column_kept df).
    + apply assoc_get_None in Hc. rewrite Hc. reflexivity.
    + apply Hsub, in_or_app. right. now left.
    + intros nm. apply lag_columns_names.
      intros b Hb. apply Hsub, in_or_app. now left.
  - intros b Hb. apply Hsub, in_or_app. now left.
  - intros b Hb. unfold column.
    destruct (assoc_get_is_Some b _ (Hbefore b Hb)) as [s ->]. reflexivity.
Qed.

(** X1, witness: without the humidity column the call raises for it after
    assigning [temperature_lag_1]. *)
Lemma prepare_data_missing_column_witness :
  prepare_data table_without_humidity "pressure" 7 =
  (mkDF 9 (assign_all
             (lag_columns table_without_humidity ["temperature"] 1)
             (columns table_without_humidity)),
   Raise (KeyError "humidity")).
Proof.
  apply (prepare_data_missing_column table_without_humidity "pressure" 7
           ["temperature"] ["wind_speed"; "precipitation"; "pressure"]
           "humidity").
  - reflexivity.
  - intros b [<- | []]. vm_compute. tauto.
  - vm_compute. intuition discriminate.
  - lia.
Defined.

(** X2.  A call on the frame that an earlier call has modified finds the lag
    columns in place: it leaves the frame as it is and returns what a call
    on the original table returns for that target. *)
Theorem prepare_data_again (df : DataFrame) (t t' : string) (n_steps : nat) :
  has_columns df feature_columns -> In t' (names df) ->
  prepare_data (fst (prepare_data df t n_steps)) t' n_steps =
  (fst (prepare_data df t n_steps), snd (prepare_data df t' n_steps)).
Proof.
  intros Hcols Ht'. rewrite prepare_data_frame by exact Hcols.
  rewrite (prepare_data_ok df t') by assumption.
  rewrite prepare_data_ok.
  - cbn [snd]. rewrite lagged_idempotent, feature_frame_lagged.
    unfold target_series. rewrite lagged_idempotent. reflexivity.
  - now apply has_columns_lagged.
  - now apply names_lagged_incl.
Qed.

(** X2, witness *)
Lemma prepare_data_again_witness :
  prepare_data (fst (prepare_data (sample_table 9) "humidity" 7)) "pressure" 7 =
  (fst (prepare_data (sample_table 9) "humidity" 7),
   snd (prepare_data (sample_table 9) "pressure" 7)).
Proof.
  apply (prepare_data_again (sample_table 9) "humidity" "pressure" 7).
  - apply (sample_table_ok 9).
  - vm_compute. tauto.
Defined.

(** ** Tables with gaps *)

Lemma filter_seq_sorted (f : nat -> bool) (a n : nat) :
  StronglySorted lt (List.filter f (seq a n)).
Proof.
  revert a. induction n as [| n IH]; intros a; [constructor |].
  cbn [seq List.filter]. destruct (f a); [| apply IH].
  constructor; [apply IH |].
  apply List.Forall_forall. intros x Hx. apply List.filter_In in Hx.
  destruct Hx as [Hx _]. apply in_seq in Hx. lia.
Qed.

Lemma filter_length_le {A} (f : A -> bool) (l : list A) :
  length (List.filter f l) <= length l.
Proof.
  induction l as [| a l IH]; [reflexivity |].
  cbn [List.filter]. destruct (f a); cbn [length]; lia.
Qed.

Lemma filter_implies {A} (f g : A -> bool) (l : list A) :
  (forall x, In x l -> f x = true -> g x = true) ->
  List.filter f l = List.filter f (List.filter g l).
Proof.
  induction l as [| a l IH]; intros H; [reflexivity |].
  cbn [List.filter].
  destruct (f a) eqn:Ef.
  - rewrite (H a (or_introl eq_refl) Ef). cbn [List.filter]. rewrite Ef.
    f_equal. apply IH. intros x Hx. apply H. now right.
  - destruct (g a); cbn [List.filter]; rewrite ?Ef;
      apply IH; intros x Hx; apply H; now right.
Qed.

Lemma kept_rows_bound (n_steps : nat) (df : DataFrame) :
  well_formed df -> has_columns df feature_columns ->
  length (kept_rows (lagged n_steps df)) <= nrows df - n_steps.
Proof.
  intros Hwf Hcols. unfold kept_rows. cbn [lagged nrows].
  rewrite (filter_implies _ (fun r => n_steps <=? r)).
  - rewrite filter_seq_from.
    etransitivity; [apply filter_length_le |]. now rewrite length_seq.
  - intros r Hr Hf. apply Nat.leb_le.
    assert (Hin : In r (kept_rows (lagged n_steps df))).
    { unfold kept_rows. apply List.filter_In. split; assumption. }
    apply kept_rows_from in Hin; auto. lia.
Qed.

Lemma kept_rows_usable (n_steps : nat) (df : DataFrame) (r : nat) :
  well_formed df -> has_columns df feature_columns ->
  In r (kept_rows (lagged n_steps df)) <-> usable_day n_steps df r.
Proof.
  intros Hwf Hcols. split.
  - intros Hin. pose proof (kept_rows_from n_steps df r Hwf Hcols Hin) as Hr.
    unfold kept_rows in Hin. apply List.filter_In in Hin.
    destruct Hin as [_ Hrow]. rewrite row_complete_true in Hrow.
    split; [exact Hr | split].
    + intros nm s Hs Hnm. apply (Hrow nm). unfold lagged. cbn [columns].
      apply assoc_get_In. rewrite other_lookup.
      * apply In_assoc_get; [apply Hwf | exact Hs].
      * intros c i Hc Hi ->. apply Hnm. apply in_seq in Hi.
        exists c, i. repeat split; [exact Hc | lia | lia].
    + intros c i Hc Hi.
      assert (Hlag : In (lag_name c i, shift i (column df c))
                        (columns (lagged n_steps df))).
      { apply assoc_get_In. unfold lagged. cbn [columns].
        apply lag_lookup; [exact Hc | apply in_seq; lia]. }
      apply Hrow in Hlag. rewrite cell_at_shift in Hlag.
      * destruct (r <? i) eqn:E; [discriminate Hlag | exact Hlag].
      * rewrite column_length; [lia | exact Hwf | apply Hcols, Hc].
  - intros (Hr & Hown & Hlags). unfold kept_rows. apply List.filter_In. split.
    + apply in_seq. cbn [lagged nrows]. lia.
    + apply row_complete_true. intros nm s Hin.
      apply (lagged_columns n_steps df) in Hin; [| exact Hwf].
      destruct Hin as [(c & i & Hc & Hi & -> & ->) | [Hin Hno]].
      * rewrite cell_at_shift
          by (rewrite column_length; [lia | exact Hwf | apply Hcols, Hc]).
        destruct (r <? i) eqn:E; [apply Nat.ltb_lt in E; lia |].
        now apply Hlags.
      * now apply (Hown nm).
Qed.

(** X3.  The feature rows of a table with gaps, for any lag depth.  On a
    table that holds the tracked columns, [prepare_data] returns one feature
    row for each usable day, in the order of the days, and never more than
    [len - n_steps] rows: a day is dropped when it has fewer than [n_steps]
    days before it, when one of its own values is missing, or when a tracked
    value of one of the [n_steps] days before it is missing.  The [j]-th
    target value is the target of the [j]-th usable day, and under
    [c_lag_i] (for [i] up to 7) the [j]-th row holds the value of [c] from
    [i] days before that day. *)
Theorem feature_rows_with_gaps (n_steps : nat) (df : DataFrame) (target : string) :
  well_formed df -> has_columns df feature_columns ->
  In target feature_columns ->
  exists X y days,
    snd (prepare_data df target n_steps) = Ok (X, y) /\
    StronglySorted lt days /\
    (forall r, In r days <-> usable_day n_steps df r) /\
    nrows X = length days /\ length y = length days /\
    length days <= nrows df - n_steps /\
    (forall j, j < length days ->
       cell_at y j = cell_at (column df target) (nth j days 0)) /\
    (forall c i j, In c feature_columns -> 1 <= i <= n_steps -> i <= 7 ->
       j < length days ->
       cell_at (column X (lag_name c i)) j =
       cell_at (column df c) (nth j days 0 - i)).
Proof.
  intros Hwf Hcols Ht.
  exists (feature_frame n_steps df), (target_series n_steps df target),
    (kept_rows (lagged n_steps df)).
  split; [rewrite prepare_data_ok; [reflexivity | exact Hcols |
                                    apply Hcols, Ht] |].
  split; [apply filter_seq_sorted |].
  split; [intros r; now apply kept_rows_usable |].
  split; [reflexivity |].
  split; [apply take_rows_length |].
  split; [now apply kept_rows_bound |].
  split.
  - intros j Hj. unfold target_series, take_rows, cell_at at 1.
    rewrite (nth_indep _ NaN (cell_at (column (lagged n_steps df) target) 0))
      by now rewrite length_map.
    rewrite (map_nth (cell_at (column (lagged n_steps df) target))).
    now rewrite lagged_feature_column.
  - intros c i j Hc Hi Hi7 Hj.
    destruct (feature_frame_lag_column n_steps df c i Hc Hi) as [_ ->].
    { apply lag_name_endswith; [exact Hc | lia]. }
    unfold take_rows, cell_at at 1.
    rewrite (nth_indep _ NaN (cell_at (shift i (column df c)) 0))
      by now rewrite length_map.
    rewrite (map_nth (cell_at (shift i (column df c)))).
    assert (Hday : In (nth j (kept_rows (lagged n_steps df)) 0)
                      (kept_rows (lagged n_steps df))) by now apply nth_In.
    apply kept_rows_from in Hday; [| exact Hwf | exact Hcols].
    rewrite cell_at_shift
      by (rewrite column_length; [lia | exact Hwf | apply Hcols, Hc]).
    destruct (_ <? i) eqn:E; [apply Nat.ltb_lt in E; lia | reflexivity].
Qed.

(** X3, witness: twelve days, the humidity of the third missing; the days 10
    and 11 are the usable ones. *)
Lemma feature_rows_with_gaps_witness :
  exists X y days,
    snd (prepare_data table_with_gap "temperature" 7) = Ok (X, y) /\
    StronglySorted lt days /\
    (forall r, In r days <-> usable_day 7 table_with_gap r) /\
    nrows X = length days /\ length y = length days /\
    length days <= nrows table_with_gap - 7 /\
    (forall j, j < length days ->
       cell_at y j = cell_at (column table_with_gap "temperature") (nth j days 0)) /\
    (forall c i j, In c feature_columns -> 1 <= i <= 7 -> i <= 7 ->
       j < length days ->
       cell_at (column X (lag_name c i)) j =
       cell_at (column table_with_gap c) (nth j days 0 - i)).
Proof.
  apply (feature_rows_with_gaps 7 table_with_gap "temperature").
  - apply well_formed_b_sound. vm_compute. reflexivity.
  - apply has_columns_b_sound. vm_compute. reflexivity.
  - left. reflexivity.
Defined.

Example gap_drops_eight_days :
  kept_rows (lagged 7 table_with_gap) = [10; 11].
Proof. vm_compute. reflexivity. Qed.

(** * Further properties of the regressor bank *)

Lemma validate_shuffle_split_Ok (n n_train n_test : nat) :
  validate_shuffle_split n (1 # 5) = Ok (n_train, n_test) ->
  1 <= n_train /\ 1 <= n_test /\ n_train + n_test = n /\
  n <= 5 * n_test < n + 5.
Proof.
  unfold validate_shuffle_split.
  set (x := ((1 # 5) * inject_Z (Z.of_nat n))%Q).
  pose proof (Qle_ceiling x) as Hlo. pose proof (Qceiling_lt x) as Hhi.
  set (z := Qceiling x) in *.
  destruct (n - Z.to_nat z =? 0) eqn:E; [discriminate |].
  intros [= <- <-]. apply Nat.eqb_neq in E.
  unfold x, Qle, Qlt, Qmult, inject_Z in Hlo, Hhi. cbn in Hlo, Hhi.
  lia.
Qed.

Section BankFacts.

Context {toolkit : Toolkit}.

Lemma fit_target_Ok (X : DataFrame) (y : Series) r :
  fit_target X y = Ok r -> 2 <= nrows X.
Proof.
  unfold fit_target, seeded_split, bind_result. intros H.
  destruct (validate_shuffle_split (nrows X) (1 # 5)) as [[a b] |] eqn:E;
    [| discriminate].
  apply validate_shuffle_split_Ok in E. lia.
Qed.

Lemma train_pure_dom (targets : list string) (df : DataFrame)
  (m : WeatherPredictionModel) :
  let m' := snd (fst (train_pure targets df m)) in
  (dom (models m) = dom (scalers m) -> dom (models m') = dom (scalers m')) /\
  dom (models m) ⊆ dom (models m') /\
  dom (models m') ⊆ dom (models m) ∪ list_to_set targets.
Proof.
  revert df m. induction targets as [| t rest IH]; intros df m.
  - cbn. set_solver.
  - cbn [train_pure].
    destruct (prepare_data df t 7) as [df' [[X y] | x]]; [| cbn; set_solver].
    destruct (fit_target X y) as [[[[model scaler] y_test] y_pred] | x];
      [| cbn; set_solver].
    destruct (plot_predictions y_test y_pred t).
    + specialize (IH df' (mkModel (<[t:=model]> (models m))
                                  (<[t:=scaler]> (scalers m)))).
      cbn zeta in IH. cbn [models scalers] in IH.
      rewrite !dom_insert_L in IH.
      destruct IH as (H1 & H2 & H3). cbn zeta. cbn [list_to_set].
      split; [intros Heq; apply H1; now rewrite Heq | set_solver].
    + cbn [fst snd models scalers]. rewrite !dom_insert_L. cbn [list_to_set].
      split; [intros ->; reflexivity | set_solver].
Qed.

(** X4.  [train] stores the scaler and the model of an attribute together:
    when the two dictionaries hold the same attributes before it, they do so
    after it, also when it raises part way.  It removes no entry and adds
    entries for tracked attributes only. *)
Theorem train_keeps_dictionaries_aligned (e : Env) :
  dom (models (self e)) = dom (scalers (self e)) ->
  dom (models (self (fst (train e)))) = dom (scalers (self (fst (train e)))) /\
  dom (models (self e)) ⊆ dom (models (self (fst (train e)))) /\
  dom (models (self (fst (train e)))) ⊆
    dom (models (self e)) ∪ list_to_set feature_columns.
Proof.
  intros Heq. unfold train. rewrite train_loop_eq. cbn [fst self].
  destruct (train_pure_dom feature_columns (frame e) (self e)) as (H1 & H2 & H3).
  auto.
Qed.

Lemma bank_after_Ok (X : DataFrame) (Y : string -> Series)
  (targets : list string) (m : WeatherPredictionModel) :
  snd (bank_after X Y targets m) = Ok tt ->
  forall t, In t targets ->
    (exists r, fit_target X (Y t) = Ok r) /\
    is_Some (models (fst (bank_after X Y targets m)) !! t) /\
    is_Some (scalers (fst (bank_after X Y targets m)) !! t).
Proof.
  revert m. induction targets as [| t0 rest IH]; intros m H t Ht; [destruct Ht |].
  cbn [bank_after] in *.
  destruct (fit_target X (Y t0)) as [[[[model scaler] y_test] y_pred] | x] eqn:E;
    [| discriminate].
  destruct (plot_predictions y_test y_pred t0); [| discriminate].
  destruct (in_dec string_dec t rest) as [Hr | Hr].
  - destruct (IH _ H t Hr) as (H1 & H2 & H3). auto.
  - destruct Ht as [<- | Ht]; [| contradiction].
    split; [eauto |].
    destruct (bank_after_keeps X Y rest
                (mkModel (<[t0:=model]> (models m)) (<[t0:=scaler]> (scalers m)))
                t0 Hr) as [-> ->].
    cbn [models scalers]. rewrite !lookup_insert_eq. split; eauto.
Qed.

(** X5.  A [train] that completes has fitted every tracked attribute: both
    dictionaries hold an entry for each of the five.  It completes only on a
    table that gives at least two feature rows (one to fit on, one held
    out), that is on at least 9 rows: 8 rows give a feature row, but not a
    model. *)
Theorem train_completes (e : Env) :
  well_formed (frame e) -> has_columns (frame e) feature_columns ->
  snd (train e) = Ok tt ->
  9 <= nrows (frame e) /\
  2 <= nrows (feature_frame 7 (frame e)) /\
  forall t, In t feature_columns ->
    is_Some (models (self (fst (train e))) !! t) /\
    is_Some (scalers (self (fst (train e))) !! t).
Proof.
  intros Hwf Hcols. rewrite train_spec by exact Hcols. cbn [fst snd self].
  intros Hok.
  pose proof (bank_after_Ok _ _ _ _ Hok) as Hall.
  assert (Hrows : 2 <= nrows (feature_frame 7 (frame e))).
  { destruct (Hall "temperature" In_temperature) as ([r Hr] & _).
    now apply fit_target_Ok in Hr. }
  split; [| split; [exact Hrows |]].
  - pose proof (kept_rows_bound 7 (frame e) Hwf Hcols) as Hb.
    unfold feature_frame in Hrows. cbn [nrows] in Hrows. lia.
  - intros t Ht. now destruct (Hall t Ht) as (_ & H1 & H2).
Qed.

(** *** predict_next_day *)

Lemma predict_target_reads_only (p : gmap string Q) (t : string) (e : Env) :
  self (fst (predict_target p t e)) = self e /\
  np_random (fst (predict_target p t e)) = np_random e.
Proof.
  unfold predict_target, bind, on_frame, lift, ret.
  destruct (prepare_data (frame e) t 7) as [df' [[X y] | x]]; [| now split].
  destruct (0 <? nrows X); [| now split].
  cbn [self].
  destruct (dict_get (scalers (self e)) t) as [scaler |]; [| now split].
  destruct (StandardScaler_transform scaler _) as [scaled |]; [| now split].
  destruct (dict_get (models (self e)) t) as [model |]; [| now split].
  destruct (RandomForestRegressor_predict model scaled) as [y_pred |];
    [| now split].
  destruct (first y_pred); now split.
Qed.

Lemma predict_loop_reads_only (targets : list string) (p : gmap string Q)
  (e : Env) :
  self (fst (predict_loop targets p e)) = self e /\
  np_random (fst (predict_loop targets p e)) = np_random e.
Proof.
  revert p e. induction targets as [| t rest IH]; intros p e; [now split |].
  cbn [predict_loop]. unfold bind.
  destruct (predict_target_reads_only p t e) as [Hs Hg].
  destruct (predict_target p t e) as [e' [p' | x]]; cbn [fst] in *.
  - destruct (IH p' e') as [-> ->]. now split.
  - now split.
Qed.

(** X6.  [predict_next_day] only reads the model object: whatever the table
    and whatever is stored, and whether it returns or raises, the two
    dictionaries and numpy's generator are afterwards what they were. *)
Theorem predict_next_day_reads_only (e : Env) :
  self (fst (predict_next_day e)) = self e /\
  np_random (fst (predict_next_day e)) = np_random e.
Proof. apply predict_loop_reads_only. Qed.

(** *** The split *)

(** X7.  The split that [train] asks for, when the generator's permutation of
    [n] is a permutation of the [n] row positions: with fewer than two
    feature rows it raises; otherwise the held-out part has [ceil(n/5)] rows
    and the fitting part the rest, every feature row goes to exactly one of
    the two parts, the target values go with their rows, and numpy's shared
    generator is not advanced. *)
Theorem train_test_split_partition (X : DataFrame) (y : Series) (g : rng) :
  Permutation (fst (permutation (RandomState 42) (nrows X)))
              (seq 0 (nrows X)) ->
  match train_test_split X y (1 # 5) (Some 42%Z) g with
  | (Raise _, g') => nrows X < 2 /\ g' = g
  | (Ok (X_train, X_test, y_train, y_test), g') =>
      g' = g /\ 2 <= nrows X /\
      nrows X_train + nrows X_test = nrows X /\
      nrows X <= 5 * nrows X_test < nrows X + 5 /\
      exists ind_train ind_test,
        Permutation (ind_train ++ ind_test) (seq 0 (nrows X)) /\
        X_train = iloc X ind_train /\ X_test = iloc X ind_test /\
        y_train = take_rows ind_train y /\ y_test = take_rows ind_test y
  end.
Proof.
  intros Hperm. rewrite train_test_split_seeded. unfold seeded_split.
  set (perm := fst (permutation (RandomState 42) (nrows X))) in *.
  assert (Hlen : length perm = nrows X)
    by (rewrite (Permutation_length Hperm); apply length_seq).
  destruct (validate_shuffle_split (nrows X) (1 # 5)) as [[a b] |] eqn:E.
  - apply validate_shuffle_split_Ok in E. destruct E as (Ha & Hb & Hab & Hceil).
    assert (Htrain : firstn a (skipn b perm) = skipn b perm).
    { apply firstn_all2. rewrite length_skipn. lia. }
    rewrite Htrain.
    split; [reflexivity |]. split; [lia |].
    cbn [iloc nrows]. rewrite length_skipn, length_firstn.
    split; [lia |]. split; [lia |].
    exists (skipn b perm), (firstn b perm). split; [| auto].
    rewrite Permutation_app_comm, firstn_skipn. exact Hperm.
  - split; [| reflexivity].
    unfold validate_shuffle_split in E.
    set (x := ((1 # 5) * inject_Z (Z.of_nat (nrows X)))%Q) in E.
    pose proof (Qle_ceiling x) as Hlo. pose proof (Qceiling_lt x) as Hhi.
    set (z := Qceiling x) in *.
    destruct (nrows X - Z.to_nat z =? 0) eqn:E0; [| discriminate].
    apply Nat.eqb_eq in E0.
    unfold x, Qle, Qlt, Qmult, inject_Z in Hlo, Hhi. cbn in Hlo, Hhi. lia.
Qed.

End BankFacts.

(** X4, witness: a new model object. *)
Lemma train_keeps_dictionaries_aligned_witness :
  dom (models (self trained_env)) = dom (scalers (self trained_env)).
Proof.
  apply (@train_keeps_dictionaries_aligned toy_toolkit
           (@mkEnv toy_toolkit (sample_table 12) (@new_model toy_toolkit) 0)).
  reflexivity.
Defined.

(** X5, witness: twelve days. *)
Lemma train_completes_witness :
  9 <= nrows (sample_table 12) /\
  is_Some (models (self trained_env) !! "pressure").
Proof.
  destruct (@train_completes toy_toolkit
              (@mkEnv toy_toolkit (sample_table 12) (@new_model toy_toolkit) 0))
    as (H9 & _ & Hall).
  - apply (sample_table_ok 12).
  - apply (sample_table_ok 12).
  - vm_compute. reflexivity.
  - split; [exact H9 |]. apply Hall. do 4 right. left. reflexivity.
Defined.

(** X7, witness: the five feature rows of twelve days. *)
Lemma train_test_split_partition_witness :
  exists X_train X_test y_train y_test,
    fst (@train_test_split toy_toolkit (feature_frame 7 (sample_table 12))
           (target_series 7 (sample_table 12) "humidity") (1 # 5) (Some 42%Z) 0)
    = Ok (X_train, X_test, y_train, y_test) /\
    nrows X_train = 4 /\ nrows X_test = 1.
Proof.
  pose proof (@train_test_split_partition toy_toolkit
                (feature_frame 7 (sample_table 12))
                (target_series 7 (sample_table 12) "humidity") 0) as H.
  destruct (@train_test_split toy_toolkit (feature_frame 7 (sample_table 12))
              (target_series 7 (sample_table 12) "humidity") (1 # 5)
              (Some 42%Z) 0)
    as [[[[[X_train X_test] y_train] y_test] | x] g'] eqn:E.
  - exists X_train, X_test, y_train, y_test. split; [reflexivity |].
    destruct H as (_ & _ & Hsum & Hceil & _).
    + vm_compute. apply Permutation_refl.
    + change (nrows (feature_frame 7 (sample_table 12))) with 5 in *. lia.
  - vm_compute in E. discriminate E.
Defined.

(** * Further properties of the script and of the two model routes *)

Lemma names_setitem_other (df : DataFrame) (nm c : string) (s : Series) :
  In c (names (setitem df nm s)) -> c <> nm -> In c (names df).
Proof.
  unfold names, setitem. cbn [columns]. rewrite assoc_set_names.
  destruct (assoc_get nm (columns df)); [tauto |].
  rewrite in_app_iff. cbn [In]. intros [H | [H | []]] Hne; [exact H |].
  now subst.
Qed.

Lemma for_each_assign_lag_Ok (cols : list string) (i : nat)
  (cur cur' : DataFrame) :
  (forall c, In c cols -> In c feature_columns) ->
  for_each cols (fun col => assign_lag i col) cur = (cur', Ok tt) ->
  forall c, In c cols -> In c (names cur).
Proof.
  revert cur. induction cols as [| c0 cols IH]; intros cur Hsub H c Hc;
    [destruct Hc |].
  cbn [for_each] in H. unfold bind, assign_lag at 1, getitem in H.
  destruct (assoc_get c0 (columns cur)) as [s |] eqn:E; [| discriminate].
  destruct Hc as [<- | Hc].
  - apply assoc_get_In in E. change c0 with (fst (c0, s)). now apply in_map.
  - apply (names_setitem_other cur (lag_name c0 i) c (shift i s)).
    + apply (IH _ (fun x Hx => Hsub x (or_intror Hx)) H c Hc).
    + intros Heq. symmetry in Heq. revert Heq.
      apply lag_name_not_feature; apply Hsub; [now left | now right].
Qed.

(** A call that returns has found every tracked column. *)
Lemma prepare_data_Ok_has_columns (df : DataFrame) (t : string) (n_steps : nat) r :
  1 <= n_steps -> snd (prepare_data df t n_steps) = Ok r ->
  has_columns df feature_columns.
Proof.
  intros Hn H. unfold prepare_data, create_lag_features in H.
  destruct n_steps as [| n]; [lia |].
  cbn [seq for_each] in H. unfold bind at 1 in H.
  destruct (for_each feature_columns (fun col => assign_lag 1 col) df)
    as [df1 [[] | x]] eqn:E; [| discriminate H].
  intros c Hc. apply (for_each_assign_lag_Ok _ _ _ _ (fun x Hx => Hx) E c Hc).
Qed.

Section RouteFacts.

Context {toolkit : Toolkit}.

Lemma load_dataset_ext (a b : App) :
  weather_data_csv a = weather_data_csv b -> load_dataset a = load_dataset b.
Proof. unfold load_dataset. now intros ->. Qed.

Lemma train_Ok_has_columns (e : Env) :
  snd (train e) = Ok tt -> has_columns (frame e) feature_columns.
Proof.
  unfold train. rewrite train_loop_eq. cbn [snd]. unfold feature_columns at 1.
  cbn [train_pure].
  destruct (prepare_data (frame e) "temperature" 7) as [df' [[X y] | x]] eqn:E;
    [| discriminate].
  intros _. apply (prepare_data_Ok_has_columns (frame e) "temperature" 7 (X, y));
    [lia |]. now rewrite E.
Qed.

Lemma predict_next_day_lagged (df : DataFrame) (m : WeatherPredictionModel)
  (g g' : rng) :
  has_columns df feature_columns ->
  snd (predict_next_day (mkEnv (lagged 7 df) m g)) =
  snd (predict_next_day (mkEnv df m g')).
Proof.
  intros Hcols.
  rewrite !predict_next_day_spec
    by (cbn [frame]; auto using has_columns_lagged).
  cbn [snd frame self]. now rewrite feature_frame_lagged.
Qed.

Lemma train_empty_features (e : Env) :
  has_columns (frame e) feature_columns ->
  nrows (feature_frame 7 (frame e)) = 0 ->
  train e =
  (mkEnv (lagged 7 (frame e)) (self e) (np_random e),
   Raise (ValueError
     ("With n_samples=0, test_size=0.2 and train_size=None, the resulting " ++
      "train set will be empty. Adjust any of the aforementioned parameters."))).
Proof.
  intros Hcols H0. rewrite train_spec by exact Hcols.
  unfold feature_columns. rewrite bank_after_empty by exact H0. reflexivity.
Qed.

Lemma initialize_model_raises (app : App) (df : DataFrame) (env : Env) (x : exn) :
  load_dataset app = Ok df ->
  train (mkEnv df new_model (numpy_random app)) = (env, Raise x) ->
  initialize_model app =
  (mkApp (Some (self env)) (weather_data_csv app) (np_random env),
   error_response (str_exn x) 500).
Proof. intros Hload Htrain. unfold initialize_model. now rewrite Hload, Htrain. Qed.

Lemma predict_returns (app : App) (m : WeatherPredictionModel) (df : DataFrame)
  (env : Env) (p : gmap string Q) :
  model app = Some m -> load_dataset app = Ok df ->
  predict_next_day (mkEnv df m (numpy_random app)) = (env, Ok p) ->
  predict app =
  (mkApp (Some (self env)) (weather_data_csv app) (np_random env),
   mkResponse "success" None (Some p) 200).
Proof.
  intros Hm Hload Hp. unfold predict. now rewrite Hm, Hload, Hp.
Qed.

(** X8.  Initialize on a table with fewer than 8 rows, then predict.  The
    first request is answered with status [error], code 500 and the message
    of the [ValueError] of the split, yet it has bound the global [model] to
    the new, empty model object; so the second request is not answered with
    "not initialized" but with status [success], code 200 and an empty
    mapping of predictions. *)
Theorem initialize_then_predict_short_table (app : App) (df : DataFrame) :
  load_dataset app = Ok df ->
  well_formed df -> has_columns df feature_columns -> nrows df < 8 ->
  serve app [GET_initialize; GET_predict] =
  (mkApp (Some new_model) (weather_data_csv app) (numpy_random app),
   [mkResponse "error"
      (Some ("With n_samples=0, test_size=0.2 and train_size=None, the " ++
             "resulting train set will be empty. Adjust any of the " ++
             "aforementioned parameters.")%string)
      None 500;
    mkResponse "success" None (Some ∅) 200]).
Proof.
  intros Hload Hwf Hcols Hn.
  destruct (feature_frame_short 7 df Hwf Hcols) as (H0 & _); [lia |].
  cbn [serve handle].
  rewrite (initialize_model_raises app df _ _ Hload
             (train_empty_features (mkEnv df new_model (numpy_random app))
                                   Hcols H0)).
  cbn [self np_random frame].
  rewrite (predict_returns _ new_model df
             (mkEnv (lagged 7 df) new_model (numpy_random app)) ∅).
  - reflexivity.
  - reflexivity.
  - rewrite <- Hload. now apply load_dataset_ext.
  - rewrite predict_next_day_spec by exact Hcols.
    cbn [frame self np_random numpy_random]. rewrite H0. reflexivity.
Qed.

Lemma initialize_model_completes (app : App) (df : DataFrame) (env : Env) :
  load_dataset app = Ok df ->
  train (mkEnv df new_model (numpy_random app)) = (env, Ok tt) ->
  initialize_model app =
  (mkApp (Some (self env)) (weather_data_csv app) (np_random env),
   mkResponse "success" (Some "Model initialized and trained successfully")
     None 200).
Proof. intros Hload Htrain. unfold initialize_model. now rewrite Hload, Htrain. Qed.

(** X9.  The script and the two routes agree.  When [main] prints a mapping,
    initialize followed by predict answers 200 twice and the second answer
    carries that same mapping: predicting from the frame that [train] has
    filled with lag columns (the script) gives what predicting from the
    reloaded file gives (the route). *)
Theorem main_agrees_with_routes (csv : result DataFrame) (g : rng)
  (p : gmap string Q) :
  main csv g = Ok p ->
  snd (serve (start csv g) [GET_initialize; GET_predict]) =
  [mkResponse "success" (Some "Model initialized and trained successfully")
     None 200;
   mkResponse "success" None (Some p) 200].
Proof.
  unfold main. intros H.
  destruct (load_dataset (start csv g)) as [df |] eqn:Hload; [| discriminate].
  destruct (train (mkEnv df new_model g)) as [env [[] | x]] eqn:Htrain;
    [| discriminate].
  assert (Hcols : has_columns df feature_columns).
  { apply (train_Ok_has_columns (mkEnv df new_model g)). now rewrite Htrain. }
  assert (Hfr : frame env = lagged 7 df).
  { pose proof (train_spec (mkEnv df new_model g) Hcols) as Hspec.
    rewrite Htrain in Hspec. apply (f_equal fst) in Hspec.
    cbn [fst] in Hspec. rewrite Hspec. reflexivity. }
  assert (Hp : snd (predict_next_day (mkEnv df (self env) (np_random env)))
               = Ok p).
  { rewrite <- H. destruct env as [fr m' g']. cbn [frame self np_random] in *.
    subst fr. symmetry. now apply predict_next_day_lagged. }
  destruct (predict_next_day (mkEnv df (self env) (np_random env)))
    as [env' r] eqn:Hpred. cbn [snd] in Hp. subst r.
  cbn [serve handle].
  rewrite (initialize_model_completes (start csv g) df env Hload Htrain).
  rewrite (predict_returns _ (self env) df env' p); [reflexivity | reflexivity | |].
  - rewrite <- Hload. now apply load_dataset_ext.
  - exact Hpred.
Qed.

End RouteFacts.

(** X8, witness: a week of observations behind the routes. *)
Lemma initialize_then_predict_short_table_witness :
  map code
    (snd (@serve toy_toolkit (@start toy_toolkit (Ok (sample_table 7)) 0)
            [GET_initialize; GET_predict])) = [500; 200].
Proof.
  rewrite (@initialize_then_predict_short_table toy_toolkit
             (@start toy_toolkit (Ok (sample_table 7)) 0)
             (setitem (sample_table 7) "date" (column (sample_table 7) "date"))).
  - reflexivity.
  - reflexivity.
  - apply well_formed_b_sound. vm_compute. reflexivity.
  - apply has_columns_b_sound. vm_compute. reflexivity.
  - vm_compute. lia.
Defined.

(** X9, witness: nine days; the script prints five predictions. *)
Lemma main_agrees_with_routes_witness :
  exists p,
    @main toy_toolkit (Ok (sample_table 9)) 0 = Ok p /\
    map code
      (snd (@serve toy_toolkit (@start toy_toolkit (Ok (sample_table 9)) 0)
              [GET_initialize; GET_predict])) = [200; 200].
Proof.
  assert (H : exists p, @main toy_toolkit (Ok (sample_table 9)) 0 = Ok p)
    by (eexists; vm_compute; reflexivity).
  destruct H as [p Hp]. exists p. split; [exact Hp |].
  rewrite (@main_agrees_with_routes toy_toolkit (Ok (sample_table 9)) 0 p Hp).
  reflexivity.
Defined.

(** * Further properties of the historical store *)

Lemma cell_eqb_Str (c : cell) (s : string) :
  cell_eqb c (Str s) = true <-> c = Str s.
Proof.
  destruct c as [| q | s' | t]; cbn; try (split; [discriminate | discriminate]).
  rewrite String.eqb_eq. split; [now intros -> | now intros [= ->]].
Qed.

Lemma city_filter {A} (proj : A -> cell) (city : option string) (l : list A) :
  (if truthy city
   then List.filter (fun r => cell_eqb (proj r) (Str (default "" city))) l
   else l) = List.filter (fun r => of_city city (proj r)) l.
Proof.
  unfold of_city. destruct (truthy city); [reflexivity |].
  induction l as [| r l IH]; [reflexivity |].
  cbn [List.filter]. now rewrite <- IH.
Qed.

Lemma tail_suffix {A} (n : Z) (l : list A) :
  exists older, l = older ++ tail n l.
Proof.
  unfold tail. destruct (0 <=? n)%Z.
  - exists (firstn (length l - Z.to_nat n) l). now rewrite firstn_skipn.
  - exists (firstn (Z.to_nat (- n)) l). now rewrite firstn_skipn.
Qed.

Lemma tail_length {A} (n : Z) (l : list A) :
  (0 <= n)%Z -> length (tail n l) = Nat.min (Z.to_nat n) (length l).
Proof.
  intros Hn. unfold tail. apply Z.leb_le in Hn. rewrite Hn.
  rewrite length_skipn. lia.
Qed.

(** X10.  [get_recent_weather] with a limit that is not negative returns the
    last [min(limit, m)] of the [m] records of the current-weather log that
    pass the city filter, in the order of the log: the log of the city ends
    with the answer.  With a city, every record of the answer is of that
    city. *)
Theorem get_recent_weather_last (city : option string) (limit : Z)
  (a : WeatherDataAnalyzer) :
  (0 <= limit)%Z ->
  let matching :=
    List.filter (fun r => of_city city (Current.city r)) (current_data_file a) in
  (exists older, matching = older ++ get_recent_weather city limit a) /\
  length (get_recent_weather city limit a) =
    Nat.min (Z.to_nat limit) (length matching) /\
  (forall r c, In r (get_recent_weather city limit a) ->
               city = Some c -> c <> "" -> Current.city r = Str c).
Proof.
  intros Hlimit matching.
  assert (Hdf : get_recent_weather city limit a = tail limit matching).
  { unfold get_recent_weather, matching. now rewrite (city_filter Current.city). }
  rewrite Hdf. split; [apply tail_suffix |]. split; [now apply tail_length |].
  intros r c Hr -> Hc.
  destruct (tail_suffix limit matching) as [older Holder].
  assert (Hin : In r matching) by (rewrite Holder; apply in_or_app; now right).
  unfold matching in Hin. apply List.filter_In in Hin. destruct Hin as [_ Hcity].
  unfold of_city, truthy in Hcity. cbn [default] in Hcity.
  apply String.eqb_neq in Hc. rewrite Hc in Hcity. cbn [negb] in Hcity.
  now apply cell_eqb_Str.
Qed.

(** X10, witness: the last record of a store with two. *)
Lemma get_recent_weather_last_witness :
  length (get_recent_weather None 1
            (fst (store_current_weather sample_reading noon noon one_reading)))
  = 1.
Proof.
  rewrite (proj1 (proj2 (get_recent_weather_last None 1 _ ltac:(lia)))).
  reflexivity.
Defined.

(** X12.  The bounds of [get_historical_data].  Both bounds are inclusive and
    the answer keeps the order of the log; an empty text is no bound; a bound
    that [pd.to_datetime] refuses, or reads as [NaT], gives the empty list
    and no error. *)
Theorem get_historical_data_bounds (to_timestamp : string -> result cell)
  (city : option string) (s e : string) (ts te : Z) (a : WeatherDataAnalyzer) :
  s <> "" -> e <> "" ->
  to_timestamp s = Ok (Time ts) -> to_timestamp e = Ok (Time te) ->
  get_historical_data to_timestamp city (Some s) (Some e) a =
    List.filter
      (fun r => of_city city (Historical.city r) &&
                (ts <=? Historical.date r)%Z && (Historical.date r <=? te)%Z)
      (historical_data_file a) /\
  get_historical_data to_timestamp city (Some "") (Some e) a =
    get_historical_data to_timestamp city None (Some e) a /\
  get_historical_data to_timestamp city (Some s) (Some "") a =
    get_historical_data to_timestamp city (Some s) None a /\
  (forall bad x, bad <> "" ->
     to_timestamp bad = Raise x \/ to_timestamp bad = Ok NaN ->
     get_historical_data to_timestamp city (Some bad) (Some e) a = [] /\
     get_historical_data to_timestamp city (Some s) (Some bad) a = []).
Proof.
  intros Hs He Hts Hte.
  apply String.eqb_neq in Hs. apply String.eqb_neq in He.
  unfold get_historical_data, historical_query, given, bind_result.
  cbn [truthy from_option id]. rewrite Hs, He. cbn [negb].
  rewrite Hts, Hte, (city_filter Historical.city).
  split; [| split; [reflexivity | split; [reflexivity |]]].
  - induction (historical_data_file a) as [| r l IH]; [reflexivity |].
    cbn [List.filter date_ge date_le].
    destruct (of_city city (Historical.city r)); cbn [andb List.filter];
      [| exact IH].
    cbn [date_ge]. destruct (ts <=? Historical.date r)%Z;
      cbn [andb List.filter]; [| exact IH].
    cbn [date_le]. destruct (Historical.date r <=? te)%Z;
      [now rewrite IH | exact IH].
  - intros bad x Hbad Hparse. apply String.eqb_neq in Hbad.
    rewrite Hbad. cbn [negb].
    destruct Hparse as [-> | ->]; [now split |].
    split.
    + induction (List.filter _ (historical_data_file a)) as [| r l IH];
        [reflexivity |]. cbn [List.filter date_ge]. exact IH.
    + induction (List.filter (date_ge (Time ts)) _) as [| r l IH];
        [reflexivity |]. cbn [List.filter date_le]. exact IH.
Qed.

(** X12, witness: the readings of Pune from day 1 to day 3, bounds
    included. *)
Lemma get_historical_data_bounds_witness :
  get_historical_data toy_timestamp (Some "Pune") (Some "d1") (Some "d3")
    sample_history =
  [reading_of "Pune" 1 21; reading_of "Pune" 3 23].
Proof.
  rewrite (proj1 (get_historical_data_bounds toy_timestamp (Some "Pune")
                    "d1" "d3" (1 * day) (3 * day) sample_history
                    ltac:(discriminate) ltac:(discriminate)
                    eq_refl eq_refl)).
  reflexivity.
Defined.

(** X13.  A payload that lacks one of the eight keys is refused as a whole:
    [store_current_weather] answers [False] and neither log has changed
    (every key is read before the first record is appended). *)
Theorem store_refuses_incomplete (weather_data : gmap string cell)
  (now now' : Z) (a : WeatherDataAnalyzer) (k : string) :
  In k payload_keys -> weather_data !! k = None ->
  store_current_weather weather_data now now' a = (a, false).
Proof.
  intros Hk Hnone. unfold store_current_weather.
  assert (Hraise : exists x, new_data weather_data now = Raise x).
  { unfold new_data, bind_result, dict_get.
    unfold payload_keys in Hk. cbn [In] in Hk.
    repeat match goal with
           | |- context [match weather_data !! ?key with _ => _ end] =>
               destruct (weather_data !! key) eqn:?; [| eauto]
           end.
    repeat (destruct Hk as [<- | Hk]; [congruence |]). destruct Hk. }
  destruct Hraise as [x ->]. reflexivity.
Qed.

(** X13, witness: the reading without its icon. *)
Lemma store_refuses_incomplete_witness :
  store_current_weather (delete "icon" sample_reading) noon noon one_reading =
  (one_reading, false).
Proof.
  apply (store_refuses_incomplete _ noon noon one_reading "icon").
  - do 7 right. left. reflexivity.
  - apply lookup_delete_eq.
Defined.

(** * Further properties of the summary *)

Lemma round_half_even_floor (x : Q) :
  (Qfloor x <= round_half_even x <= Qfloor x + 1)%Z.
Proof.
  unfold round_half_even.
  destruct (Qcompare (x - inject_Z (Qfloor x)) (1 # 2)); [| lia | lia].
  destruct (Z.even (Qfloor x)); lia.
Qed.

Ltac compare_facts :=
  repeat match goal with
         | H : Qcompare _ _ = Eq |- _ => apply Qeq_alt in H
         | H : Qcompare _ _ = Lt |- _ => apply Qlt_alt in H
         | H : Qcompare _ _ = Gt |- _ => apply Qgt_alt in H
         end.

Lemma round_half_even_mono (x y : Q) :
  (x <= y)%Q -> (round_half_even x <= round_half_even y)%Z.
Proof.
  intros Hxy. pose proof (Qfloor_resp_le x y Hxy) as Hf.
  pose proof (round_half_even_floor x) as Hx.
  pose proof (round_half_even_floor y) as Hy.
  destruct (Z.eq_dec (Qfloor x) (Qfloor y)) as [E | E]; [| lia].
  clear Hx Hy. unfold round_half_even. rewrite <- E.
  destruct (Qcompare (x - inject_Z (Qfloor x)) (1 # 2)) eqn:Ex;
    destruct (Qcompare (y - inject_Z (Qfloor x)) (1 # 2)) eqn:Ey;
    try (destruct (Z.even (Qfloor x))); try lia;
    exfalso; compare_facts; lra.
Qed.

Lemma py_round_mono (x y : Q) (d : nat) :
  (x <= y)%Q -> (py_round x d <= py_round y d)%Q.
Proof.
  intros Hxy. unfold py_round.
  set (scale := inject_Z (10 ^ Z.of_nat d)).
  assert (Hscale : (0 < scale)%Q).
  { unfold scale. change 0%Q with (inject_Z 0). rewrite <- Zlt_Qlt.
    apply Z.pow_pos_nonneg; lia. }
  unfold Qdiv. apply Qmult_le_compat_r.
  - rewrite <- Zle_Qle. apply round_half_even_mono.
    apply Qmult_le_compat_r; [exact Hxy | now apply Qlt_le_weak].
  - apply Qlt_le_weak. now apply Qinv_lt_0_compat.
Qed.

Lemma fold_Qmin_lower (l : list Q) (a : Q) :
  (fold_left Qmin l a <= a)%Q /\
  List.Forall (fun x => (fold_left Qmin l a <= x)%Q) l.
Proof.
  revert a. induction l as [| b l IH]; intros a; cbn [fold_left].
  - split; [apply Qle_refl | constructor].
  - destruct (IH (Qmin a b)) as [H1 H2]. split.
    + eapply Qle_trans; [exact H1 | apply Q.le_min_l].
    + constructor; [| exact H2].
      eapply Qle_trans; [exact H1 | apply Q.le_min_r].
Qed.

Lemma fold_Qmax_upper (l : list Q) (a : Q) :
  (a <= fold_left Qmax l a)%Q /\
  List.Forall (fun x => (x <= fold_left Qmax l a)%Q) l.
Proof.
  revert a. induction l as [| b l IH]; intros a; cbn [fold_left].
  - split; [apply Qle_refl | constructor].
  - destruct (IH (Qmax a b)) as [H1 H2]. split.
    + eapply Qle_trans; [apply Q.le_max_l | exact H1].
    + constructor; [| exact H2].
      eapply Qle_trans; [apply Q.le_max_r | exact H1].
Qed.

Section SummaryFacts.

Context {toolkit : Toolkit}.

Lemma describe_ordered (s : Series) (st : Stats.t) :
  describe s = Ok st -> 1 <= count_numbers s -> ordered_extremes st.
Proof.
  unfold describe, bind_result. intros H Hcount.
  destruct (numeric_values s) as [xs |] eqn:E; [| discriminate].
  apply numeric_values_count in E. injection H as <-.
  destruct xs as [| x xs]; [cbn [length] in E; lia |].
  unfold ordered_extremes. cbn [Stats.min Stats.max].
  cbn [series_min series_max round_cell].
  destruct (fold_Qmin_lower xs x) as [Hlo _].
  destruct (fold_Qmax_upper xs x) as [Hhi _].
  do 2 eexists. repeat split. apply py_round_mono.
  eapply Qle_trans; [exact Hlo | exact Hhi].
Qed.

Lemma numeric_values_raises (s : Series) (x : exn) :
  numeric_values s = Raise x -> x = TypeError "Could not convert to numeric".
Proof.
  induction s as [| c s IH]; [discriminate |].
  destruct c; cbn [numeric_values]; unfold bind_result;
    try (now intros [= <-]); [exact IH |].
  destruct (numeric_values s); [discriminate |]. intros [= <-]. now apply IH.
Qed.

Lemma analyse_raises (df : list Historical.row) (x : exn) :
  analyse df = Raise x -> x = TypeError "Could not convert to numeric".
Proof.
  unfold analyse, describe, bind_result. intros H.
  repeat match type of H with
         | context [match numeric_values ?s with _ => _ end] =>
             let E := fresh "E" in
             destruct (numeric_values s) eqn:E;
             [| injection H as <-; now apply numeric_values_raises in E]
         end.
  discriminate H.
Qed.


(** X14.  In a summary, for every attribute of which at least one filtered
    record has a number, the minimum and the maximum are numbers (not NaN)
    and are in order, also after rounding to one decimal: [min <= max]. *)
Theorem summary_statistics_ordered (city : option string) (days now : Z)
  (beyond : result Z) (int64 : string -> bool)
  (a a' : WeatherDataAnalyzer) (data : Analysis.t) :
  get_weather_analysis city days now beyond int64 a =
    (a', analysis_success data) ->
  exists start_date,
    window_start beyond days now = Ok start_date /\
    let df := filter_history (historical_data_file a) city start_date in
    (1 <= count_numbers (map Historical.temperature df) ->
     ordered_extremes (Analysis.temperature data)) /\
    (1 <= count_numbers (map Historical.humidity df) ->
     ordered_extremes (Analysis.humidity data)) /\
    (1 <= count_numbers (map Historical.wind_speed df) ->
     ordered_extremes (Analysis.wind_speed data)) /\
    (1 <= count_numbers (map Historical.pressure df) ->
     ordered_extremes (Analysis.pressure data)).
Proof.
  intros H. unfold get_weather_analysis in H.
  destruct (window_start beyond days now) as [start_date |]; [| discriminate].
  exists start_date. split; [reflexivity |].
  cbv zeta in H |- *.
  set (df := filter_history (historical_data_file a) city start_date) in *.
  destruct (length df =? 0); [discriminate |].
  destruct (analyse df) as [analysis |] eqn:Ean; [| discriminate].
  unfold json_dump in H. destruct (List.find int64 _); [discriminate |].
  injection H as _ <-.
  unfold analyse, bind_result in Ean.
  destruct (describe (map Historical.temperature df)) as [st1 |] eqn:E1;
    [| discriminate].
  destruct (describe (map Historical.humidity df)) as [st2 |] eqn:E2;
    [| discriminate].
  destruct (describe (map Historical.wind_speed df)) as [st3 |] eqn:E3;
    [| discriminate].
  destruct (describe (map Historical.pressure df)) as [st4 |] eqn:E4;
    [| discriminate].
  injection Ean as <-.
  cbn [Analysis.temperature Analysis.humidity Analysis.wind_speed
       Analysis.pressure].
  repeat split; now apply describe_ordered.
Qed.


Lemma filter_history_empty (rows : list Historical.row)
  (city : option string) (start_date : Z) :
  filter_history rows city start_date = [] <->
  forall r, In r rows -> of_city city (Historical.city r) = true ->
            (Historical.date r < start_date)%Z.
Proof.
  unfold filter_history. rewrite (city_filter Historical.city). split.
  - intros Hnil r Hr Hc.
    destruct (Z.ltb_spec (Historical.date r) start_date) as [Hlt | Hge];
      [exact Hlt | exfalso].
    assert (Hin : In r (List.filter
                          (fun r => (start_date <=? Historical.date r)%Z)
                          (List.filter
                             (fun r => of_city city (Historical.city r)) rows))).
    { apply List.filter_In. split.
      - apply List.filter_In. now split.
      - now apply Z.leb_le. }
    rewrite Hnil in Hin. destruct Hin.
  - intros Hall.
    destruct (List.filter _ (List.filter _ rows)) as [| r l] eqn:E;
      [reflexivity | exfalso].
    assert (Hin : In r (r :: l)) by now left.
    rewrite <- E in Hin. apply List.filter_In in Hin.
    destruct Hin as [Hin Hge]. apply List.filter_In in Hin.
    destruct Hin as [Hin Hc]. apply Z.leb_le in Hge.
    specialize (Hall r Hin Hc). lia.
Qed.

(** X16.  The window of a summary, for a number of days from -36500 to
    106751.  [get_weather_analysis] answers "No data available for the
    specified period" exactly when every record of the log that passes the
    city filter is dated before [now - days].  A record of a day is dated
    at its midnight: so a summary over [days = 0] does not count the
    records of today unless [now] is a midnight itself, and answers "No
    data available" whenever the log holds no record dated after today's
    midnight. *)
Theorem summary_window (city : option string) (days now : Z)
  (beyond : result Z) (int64 : string -> bool) (a : WeatherDataAnalyzer) :
  (-36500 <= days <= 106751)%Z ->
  (snd (get_weather_analysis city days now beyond int64 a) =
     analysis_error "No data available for the specified period" <->
   forall r, In r (historical_data_file a) ->
             of_city city (Historical.city r) = true ->
             (Historical.date r < now - days * day)%Z) /\
  (days = 0%Z -> (0 < now mod day)%Z ->
   (forall r, In r (historical_data_file a) ->
              (Historical.date r <= strftime_date now)%Z) ->
   get_weather_analysis city days now beyond int64 a =
     (a, analysis_error "No data available for the specified period")).
Proof.
  intros [Hlo Hhi].
  assert (Hstart : window_start beyond days now = Ok (now - days * day)%Z).
  { unfold window_start. apply Z.leb_le in Hlo, Hhi. now rewrite Hlo, Hhi. }
  assert (Hempty : filter_history (historical_data_file a) city
                     (now - days * day) = [] ->
                   get_weather_analysis city days now beyond int64 a =
                   (a, analysis_error
                         "No data available for the specified period")).
  { intros Hnil. unfold get_weather_analysis. rewrite Hstart. cbv zeta.
    now rewrite Hnil. }
  split; [split |].
  - intros Hanswer. apply filter_history_empty.
    unfold get_weather_analysis in Hanswer. rewrite Hstart in Hanswer.
    cbv zeta in Hanswer.
    destruct (filter_history (historical_data_file a) city (now - days * day))
      as [| r l] eqn:E; [reflexivity | exfalso].
    cbn [length Nat.eqb] in Hanswer.
    destruct (analyse (r :: l)) as [analysis | x] eqn:Ean.
    + unfold json_dump in Hanswer.
      destruct (List.find int64 _); cbn [snd str_exn] in Hanswer;
        discriminate Hanswer.
    + apply analyse_raises in Ean. subst x.
      cbn [snd str_exn] in Hanswer. discriminate Hanswer.
  - intros Hall. rewrite Hempty; [reflexivity |].
    now apply filter_history_empty.
  - intros -> Hmid Hall. apply Hempty. apply filter_history_empty.
    intros r Hr _. specialize (Hall r Hr). unfold strftime_date in Hall. lia.
Qed.

End SummaryFacts.

Lemma summary_statistics_ordered_witness :
  exists a' data,
    @get_weather_analysis toy_toolkit (Some "Pune") 30 (5 * day)
      (Raise (OtherError "date value out of range")) (fun _ => false)
      fractional_history = (a', analysis_success data) /\
    ordered_extremes (Analysis.temperature data) /\
    ordered_extremes (Analysis.pressure data).
Proof.
  destruct (@get_weather_analysis toy_toolkit (Some "Pune") 30 (5 * day)
              (Raise (OtherError "date value out of range")) (fun _ => false)
              fractional_history) as [a' [msg | data]] eqn:E.
  - vm_compute in E. discriminate E.
  - exists a', data. split; [reflexivity |].
    destruct (@summary_statistics_ordered toy_toolkit (Some "Pune") 30
                (5 * day) _ _ fractional_history a' data E)
      as (start_date & Hstart & Ht & _ & _ & Hp).
    vm_compute in Hstart. injection Hstart as <-.
    split; [apply Ht | apply Hp]; vm_compute; lia.
Defined.

Lemma summary_window_witness :
  @get_weather_analysis toy_toolkit None 0 noon
    (Raise (OtherError "date value out of range")) (fun _ => false)
    one_reading =
  (one_reading, analysis_error "No data available for the specified period") /\
  snd (@get_weather_analysis toy_toolkit None 1 noon
         (Raise (OtherError "date value out of range")) (fun _ => false)
         one_reading) <>
  analysis_error "No data available for the specified period".
Proof.
  split.
  - apply (@summary_window toy_toolkit None 0 noon _ _ one_reading);
      [lia | reflexivity | vm_compute; reflexivity |].
    intros r [<- | []]. vm_compute. discriminate.
  - intros H.
    destruct (@summary_window toy_toolkit None 1 noon
                (Raise (OtherError "date value out of range"))
                (fun _ => false) one_reading ltac:(lia)) as [[Hall _] _].
    specialize (Hall H _ (or_introl eq_refl) eq_refl). vm_compute in Hall.
    discriminate Hall.
Defined.

(** ** The weather routes of app.py *)

Lemma error_codes_dict (code message : string) :
  In code error_codes -> is_error_dict (error_dict code message).
Proof.
  intros H. now exists code, message.
Qed.

Lemma error_dict_lacks (d : json) (k : string) :
  is_error_dict d -> k <> "error" -> k <> "message" ->
  subscript d k = Raise (KeyError k) /\ json_truthy d = true /\ d <> JNull.
Proof.
  intros (code & message & -> & _) Hk1 Hk2.
  unfold error_dict, subscript. cbn [fields_get].
  apply String.eqb_neq in Hk1, Hk2.
  rewrite (String.eqb_sym "error" k), (String.eqb_sym "message" k), Hk1, Hk2.
  repeat split. discriminate.
Qed.

Section FetchFacts.

Variable requests_get : string -> http_result.
Variable OPENWEATHER_API_KEY : option string.

Local Notation key := (default "" OPENWEATHER_API_KEY).
Local Notation current_url city := (weather_url "weather" city key).
Local Notation forecast_url city := (weather_url "forecast" city key).
Local Notation weather_data city log :=
  (get_weather_data requests_get OPENWEATHER_API_KEY city log).

Lemma fetch_answered (kind what city k : string) (log : list string) :
  fst (fetch requests_get kind what city k log) =
    log ++ [weather_url kind city k] /\
  match answered (requests_get (weather_url kind city k)) with
  | Some document =>
      snd (fetch requests_get kind what city k log) = inr document
  | None =>
      exists error,
        snd (fetch requests_get kind what city k log) = inl error /\
        is_error_dict error
  end.
Proof.
  assert (Hcodes : forall code message,
            In code error_codes -> is_error_dict (error_dict code message)).
  { intros code message H. now exists code, message. }
  assert (Hfail : forall f, is_error_dict (failure_dict f)).
  { intros [msg | msg]; apply Hcodes; unfold error_codes; cbn [In]; tauto. }
  unfold fetch, answered.
  destruct (requests_get (weather_url kind city k)) as [f | code text body].
  - split; [reflexivity |]. eexists. split; [reflexivity | apply Hfail].
  - destruct (code =? 401) eqn:E401.
    + apply Nat.eqb_eq in E401.
      assert (E200 : (code =? 200) = false) by (subst code; reflexivity).
      split; [reflexivity |].
      destruct body; rewrite ?E200; (eexists; split; [reflexivity |]);
        apply Hcodes; unfold error_codes; cbn [In]; tauto.
    + destruct (code =? 200) eqn:E200; cbn [negb].
      * destruct body as [f | document]; (split; [reflexivity |]);
          [| reflexivity].
        eexists. split; [reflexivity | apply Hfail].
      * split; [reflexivity |].
        destruct body; (eexists; split; [reflexivity |]);
          apply Hcodes; unfold error_codes; cbn [In]; tauto.
Qed.

(** X17.  The requests of [get_weather_data].  Without a configured key
    nothing is requested; with one, the address of the current weather is
    requested first, and the address of the forecast after it exactly when
    the first answer had status 200 and a readable body.  Nothing else is
    requested, and what was requested before stays. *)
Theorem get_weather_data_requests (city : string) (log : list string) :
  exists new,
    fst (weather_data city log) = log ++ new /\
    (truthy OPENWEATHER_API_KEY = false -> new = []) /\
    (truthy OPENWEATHER_API_KEY = true ->
     answered (requests_get (current_url city)) = None ->
     new = [current_url city]) /\
    (truthy OPENWEATHER_API_KEY = true ->
     answered (requests_get (current_url city)) <> None ->
     new = [current_url city; forecast_url city]).
Proof.
  unfold get_weather_data.
  destruct (truthy OPENWEATHER_API_KEY) eqn:Ekey; cbn [negb].
  - destruct (fetch_answered "weather" "weather" city key log) as [E1 H1].
    destruct (fetch requests_get "weather" "weather" city key log)
      as [log1 r1]. cbn [fst snd] in E1, H1. subst log1.
    destruct (answered (requests_get (current_url city))) as [c |] eqn:Ec.
    + subst r1.
      destruct (fetch_answered "forecast" "forecast" city key
                  (log ++ [current_url city])) as [E2 _].
      destruct (fetch requests_get "forecast" "forecast" city key
                  (log ++ [current_url city])) as [log2 r2].
      cbn [fst] in E2. subst log2.
      exists [current_url city; forecast_url city].
      split; [| repeat split; congruence].
      destruct r2; cbn [fst]; now rewrite <- app_assoc.
    + destruct H1 as (error & -> & _).
      exists [current_url city]. split; [reflexivity |].
      repeat split; congruence.
  - exists []. split; [cbn [fst]; now rewrite app_nil_r |].
    repeat split; congruence.
Qed.

Lemma get_weather_data_cases (city : string) (log : list string) :
  (exists c f,
     truthy OPENWEATHER_API_KEY = true /\
     answered (requests_get (current_url city)) = Some c /\
     answered (requests_get (forecast_url city)) = Some f /\
     snd (weather_data city log) = JObj [("current", c); ("forecast", f)]) \/
  (is_error_dict (snd (weather_data city log)) /\
   (truthy OPENWEATHER_API_KEY = false \/
    answered (requests_get (current_url city)) = None \/
    answered (requests_get (forecast_url city)) = None)).
Proof.
  unfold get_weather_data.
  destruct (truthy OPENWEATHER_API_KEY) eqn:Ekey; cbn [negb].
  - destruct (fetch_answered "weather" "weather" city key log) as [E1 H1].
    destruct (fetch requests_get "weather" "weather" city key log)
      as [log1 r1]. cbn [fst snd] in E1, H1. subst log1.
    destruct (answered (requests_get (current_url city))) as [c |] eqn:Ec.
    + subst r1.
      destruct (fetch_answered "forecast" "forecast" city key
                  (log ++ [current_url city])) as [_ H2].
      destruct (fetch requests_get "forecast" "forecast" city key
                  (log ++ [current_url city])) as [log2 r2].
      cbn [snd] in H2.
      destruct (answered (requests_get (forecast_url city))) as [f |] eqn:Ef.
      * subst r2. left. exists c, f. now repeat split.
      * destruct H2 as (error & -> & Hdict). right. cbn [snd].
        split; [exact Hdict | tauto].
    + destruct H1 as (error & -> & Hdict). right. cbn [snd].
      split; [exact Hdict | tauto].
  - right. cbn [snd]. split; [| tauto].
    do 2 eexists. split; [reflexivity |]. unfold error_codes; cbn [In]; tauto.
Qed.

(** X18.  The answer of [get_weather_data] is a dictionary in every case:
    the two documents under "current" and "forecast" exactly when the key
    is set and both requests were answered with status 200 and a readable
    body; otherwise a dictionary with an "error" code out of five and a
    message, which has neither "current" nor "forecast" and is true as a
    condition. *)
Theorem get_weather_data_outcome (city : string) (log : list string) :
  (forall c f,
     snd (weather_data city log) = JObj [("current", c); ("forecast", f)] <->
     truthy OPENWEATHER_API_KEY = true /\
     answered (requests_get (current_url city)) = Some c /\
     answered (requests_get (forecast_url city)) = Some f) /\
  ((forall c f,
      snd (weather_data city log) <> JObj [("current", c); ("forecast", f)]) ->
   is_error_dict (snd (weather_data city log)) /\
   subscript (snd (weather_data city log)) "current" =
     Raise (KeyError "current") /\
   subscript (snd (weather_data city log)) "forecast" =
     Raise (KeyError "forecast")) /\
  json_truthy (snd (weather_data city log)) = true.
Proof.
  destruct (get_weather_data_cases city log)
    as [(c & f & Hk & Hc & Hf & ->) | [Hdict Hnot]].
  - split; [| split; [| reflexivity]].
    + intros c' f'. split.
      * intros [= <- <-]. now repeat split.
      * intros (_ & Hc' & Hf'). congruence.
    + intros H. now contradiction (H c f).
  - split; [| split].
    + intros c f. split.
      * intros H. destruct Hdict as (code & message & Hd & _).
        rewrite Hd in H. discriminate H.
      * intros (Hk & Hc & Hf). destruct Hnot as [H | [H | H]]; congruence.
    + intros _. split; [exact Hdict |].
      split; now apply error_dict_lacks.
    + now apply (error_dict_lacks _ "current").
Qed.

End FetchFacts.


Lemma last_of_each_day_adjacent (ds : list daily) :
  (forall d rest, last_of_each_day ds = d :: rest ->
                  exists d0 ds0, ds = d0 :: ds0 /\ d_date d0 = d_date d) /\
  forall i d d',
    last_of_each_day ds !! i = Some d ->
    last_of_each_day ds !! S i = Some d' ->
    d_date d <> d_date d'.
Proof.
  induction ds as [| d0 ds IH].
  - split; [discriminate | intros i d d' H; discriminate H].
  - destruct IH as [IHhead IHadj]. cbn [last_of_each_day].
    destruct ds as [| d1 ds]; [| destruct (String.eqb (d_date d1) (d_date d0))
                                   eqn:Eday].
    + split.
      * intros d rest [= <- <-]. now exists d0, [].
      * intros [| i] d d' H H'; discriminate H'.
    + apply String.eqb_eq in Eday. split.
      * intros d rest H. destruct (IHhead d rest H) as (d2 & ds2 & [= <- <-] & E).
        exists d0, (d1 :: ds). split; [reflexivity | congruence].
      * exact IHadj.
    + apply String.eqb_neq in Eday. split.
      * intros d rest [= <- <-]. now exists d0, (d1 :: ds).
      * intros [| i] d d' H H'.
        -- injection H as <-.
           destruct (last_of_each_day (d1 :: ds)) as [| d2 rest] eqn:E;
             [discriminate H' |].
           injection H' as <-.
           destruct (IHhead d2 rest eq_refl) as (d3 & ds3 & [= <- <-] & E').
           congruence.
        -- now apply (IHadj i).
Qed.

Lemma last_of_each_day_length (ds : list daily) :
  length (last_of_each_day ds) <= length ds /\
  (ds <> [] -> last_of_each_day ds <> []).
Proof.
  induction ds as [| d0 ds [IHlen IHne]];
    [split; [cbn [last_of_each_day length]; lia | congruence] |].
  cbn [last_of_each_day].
  destruct ds as [| d1 ds]; [split; [cbn [length]; lia | discriminate] |].
  destruct (String.eqb (d_date d1) (d_date d0)).
  - split; [cbn [length] in *; lia | intros _; now apply IHne].
  - split; [cbn [length] in *; lia | discriminate].
Qed.

Section ForecastFacts.

Variable strftime_day : Q -> result string.

Lemma read_item_date (item : json) (d : daily) :
  read_item strftime_day item = Ok d ->
  exists q, strftime_day q = Ok (d_date d).
Proof.
  unfold read_item, bind_result. intros H.
  repeat match type of H with
         | match ?x with _ => _ end = _ =>
             let E := fresh "E" in destruct x eqn:E; [| discriminate H]
         end.
  injection H as <-. cbn [d_date]. eauto.
Qed.

Lemma group_loop_runs (items : list json) :
  (forall q s, strftime_day q = Ok s -> s <> "") ->
  forall (d : daily) (acc : list daily),
    d_date d <> "" ->
    match reads strftime_day items with
    | Raise e =>
        group_loop strftime_day (Some (d_date d), Some d, acc) items = Raise e
    | Ok ds =>
        exists cd dd acc',
          group_loop strftime_day (Some (d_date d), Some d, acc) items =
            Ok (cd, Some dd, acc') /\
          acc' ++ [dd] = acc ++ last_of_each_day (d :: ds)
    end.
Proof.
  intros Hfmt. induction items as [| item rest IH]; intros d acc Hd.
  - cbn [reads group_loop]. now exists (Some (d_date d)), d, acc.
  - cbn [reads group_loop]. unfold group_step.
    destruct (read_item strftime_day item) as [d' | e] eqn:Eread;
      cbn [bind_result]; [| reflexivity].
    assert (Hd' : d_date d' <> "").
    { destruct (read_item_date _ _ Eread) as [q Hq]. now apply (Hfmt q). }
    destruct (String.eqb (d_date d') (d_date d)) eqn:Eday; cbn [negb].
    + apply String.eqb_eq in Eday.
      replace (mkDaily (d_date d) (d_temperature d') (d_humidity d')
                 (d_pressure d') (d_wind_speed d') (d_description d')
                 (d_icon d')) with d'
        by (rewrite <- Eday; now destruct d').
      cbn [bind_result]. rewrite <- Eday.
      specialize (IH d' acc Hd').
      destruct (reads strftime_day rest) as [ds | e]; cbn [bind_result];
        [| exact IH].
      destruct IH as (cd & dd & acc' & Hloop & Hacc).
      exists cd, dd, acc'. split; [exact Hloop |].
      rewrite Hacc. cbn [last_of_each_day].
      now rewrite (proj2 (String.eqb_eq _ _) Eday).
    + assert (Htruthy : truthy (Some (d_date d)) = true).
      { cbn [truthy]. apply negb_true_iff. now apply String.eqb_neq. }
      rewrite Htruthy. cbn [bind_result].
      specialize (IH d' (acc ++ [d]) Hd').
      destruct (reads strftime_day rest) as [ds | e]; cbn [bind_result];
        [| exact IH].
      destruct IH as (cd & dd & acc' & Hloop & Hacc).
      exists cd, dd, acc'. split; [exact Hloop |].
      rewrite Hacc, <- app_assoc. cbn [last_of_each_day app].
      now rewrite Eday.
Qed.

Lemma daily_forecasts_of_reads (forecast : json) (items : list json) :
  (forall q s, strftime_day q = Ok s -> s <> "") ->
  subscript forecast "list" = Ok (JArr items) ->
  daily_forecasts_of strftime_day forecast =
    (let? ds := reads strftime_day items in Ok (last_of_each_day ds)).
Proof.
  intros Hfmt Hlist. unfold daily_forecasts_of.
  rewrite Hlist. cbn [bind_result iterate].
  destruct items as [| item rest]; [reflexivity |].
  cbn [reads group_loop]. unfold group_step.
  destruct (read_item strftime_day item) as [d |] eqn:Eread;
    cbn [bind_result negb]; [| reflexivity].
  assert (Hd : d_date d <> "").
  { destruct (read_item_date _ _ Eread) as [q Hq]. now apply (Hfmt q). }
  pose proof (group_loop_runs rest Hfmt d [] Hd) as Hruns.
  destruct (reads strftime_day rest) as [ds | e]; cbn [bind_result].
  - destruct Hruns as (cd & dd & acc' & -> & Hacc). cbn [bind_result].
    now rewrite Hacc.
  - now rewrite Hruns.
Qed.

Lemma reads_length (items : list json) (ds : list daily) :
  reads strftime_day items = Ok ds -> length ds = length items.
Proof.
  revert ds. induction items as [| item rest IH]; intros ds.
  - now intros [= <-].
  - cbn [reads]. unfold bind_result.
    destruct (read_item strftime_day item); [| discriminate].
    destruct (reads strftime_day rest) as [ds' |]; [| discriminate].
    intros [= <-]. cbn [length]. now rewrite (IH ds').
Qed.

(** X20.  The forecast by day.  Provided the formatter of dates gives no
    empty text, the daily forecasts for a document with a list of items are
    these: every item is read in turn, and of every run of successive items
    with one date the values of the last item are kept, under that date.
    If one item cannot be read, this raises what the first such item
    raises. *)
Theorem daily_forecasts_grouping (forecast : json) (items : list json) :
  (forall q s, strftime_day q = Ok s -> s <> "") ->
  subscript forecast "list" = Ok (JArr items) ->
  daily_forecasts_of strftime_day forecast =
    (let? ds := reads strftime_day items in Ok (last_of_each_day ds)).
Proof.
  exact (daily_forecasts_of_reads forecast items).
Qed.

(** X21.  The shape of a forecast answer.  Under the same provisos, when the
    daily forecasts are produced, two neighbours in them never have the same
    date, there are at most as many entries as items, and there is no entry
    only when there is no item. *)
Theorem daily_forecasts_days (forecast : json) (items : list json)
  (days : list daily) :
  (forall q s, strftime_day q = Ok s -> s <> "") ->
  subscript forecast "list" = Ok (JArr items) ->
  daily_forecasts_of strftime_day forecast = Ok days ->
  (forall i d d',
     days !! i = Some d -> days !! S i = Some d' -> d_date d <> d_date d') /\
  length days <= length items /\
  (days = [] <-> items = []).
Proof.
  intros Hfmt Hlist Hdays.
  rewrite (daily_forecasts_of_reads forecast items Hfmt Hlist) in Hdays.
  unfold bind_result in Hdays.
  destruct (reads strftime_day items) as [ds |] eqn:Ereads; [| discriminate].
  injection Hdays as <-. apply reads_length in Ereads.
  destruct (last_of_each_day_length ds) as [Hlen Hne].
  split; [apply last_of_each_day_adjacent |].
  split; [lia |]. split.
  - intros Hnil. destruct ds; [now destruct items |].
    now contradiction Hne.
  - intros ->. now destruct ds.
Qed.

End ForecastFacts.

Lemma payload_is_complete (v1 v2 v3 v4 v5 v6 v7 v8 v9 v10 : cell) (now : Z) :
  let data : gmap string cell :=
    list_to_map
      [("temperature", v1); ("feels_like", v2); ("humidity", v3);
       ("pressure", v4); ("wind_speed", v5); ("description", v6);
       ("icon", v7); ("city", v8); ("country", v9); ("timestamp", v10)] in
  new_data data now =
    Ok (Current.mk (strftime_seconds now) v8 v1 v2 v3 v4 v5 v6 v7) /\
  historical_data data now =
    Ok (Historical.mk (strftime_date now) v8 v1 v3 v5 v4 v6).
Proof.
  split; reflexivity.
Qed.

Section WeatherRouteFacts.

Variable requests_get : string -> http_result.
Variable OPENWEATHER_API_KEY : option string.
Variable strftime_full : Q -> result string.
Variable strftime_day : Q -> result string.
Variable py_str : json -> string.

Local Notation weather_data city log :=
  (get_weather_data requests_get OPENWEATHER_API_KEY city log).
Local Notation alerts_route city log :=
  (get_weather_alerts requests_get OPENWEATHER_API_KEY city log).
Local Notation forecast_route city log :=
  (get_weather_forecast requests_get OPENWEATHER_API_KEY strftime_day city log).
Local Notation current_route city now now' st :=
  (get_current_weather requests_get OPENWEATHER_API_KEY strftime_full py_str
     city now now' st).

Lemma current_route_on_error (city : string) (now now' : Z)
  (log : list string) (a : WeatherDataAnalyzer) :
  is_error_dict (snd (weather_data city log)) ->
  current_route city now now' (log, a) =
    ((fst (weather_data city log), a),
     mkReply "error"
       (Some "Error parsing weather data. Please check the API response format.")
       None 500).
Proof.
  intros Hdict.
  destruct (error_dict_lacks _ "current" Hdict) as (Hc & _ & Hn);
    [discriminate | discriminate |].
  unfold get_current_weather.
  destruct (weather_data city log) as [log' d]. cbn [fst snd] in *.
  rewrite Hc. cbn [bind_result].
  destruct d; [contradiction Hn | ..]; reflexivity.
Qed.

(** X22.  What the three weather routes do when [get_weather_data] answers
    with an error dictionary.  The alerts route and the forecast route take
    the dictionary for data and let the [KeyError] of their first lookup out
    (they catch nothing); the current-weather route catches it, answers 500
    with its parsing message and stores nothing. *)
Theorem routes_on_fetch_error (city : string) (now now' : Z)
  (log : list string) (a : WeatherDataAnalyzer) :
  is_error_dict (snd (weather_data city log)) ->
  snd (alerts_route city log) = Raise (KeyError "current") /\
  snd (forecast_route city log) = Raise (KeyError "forecast") /\
  current_route city now now' (log, a) =
    ((fst (weather_data city log), a),
     mkReply "error"
       (Some "Error parsing weather data. Please check the API response format.")
       None 500).
Proof.
  intros Hdict.
  destruct (error_dict_lacks _ "current" Hdict) as (Hc & Ht & _);
    [discriminate | discriminate |].
  destruct (error_dict_lacks _ "forecast" Hdict) as (Hf & _ & _);
    [discriminate | discriminate |].
  split; [| split; [| now apply current_route_on_error]].
  - unfold get_weather_alerts.
    destruct (weather_data city log) as [log' d]. cbn [fst snd] in *.
    rewrite Ht. cbn [snd]. now rewrite Hc.
  - unfold get_weather_forecast.
    destruct (weather_data city log) as [log' d]. cbn [fst snd] in *.
    rewrite Ht. cbn [snd]. now rewrite Hf.
Qed.

(** X23.  The answers "Failed to fetch ..." of the three weather routes are
    never given: whatever the network does, an answer of the alerts route or
    of the forecast route is a success with status 200 (otherwise the route
    raises), and the current-weather route answers with one of its two
    messages of the [try] block or with a success. *)
Theorem failed_to_fetch_is_dead (city : string) (now now' : Z)
  (log : list string) (a : WeatherDataAnalyzer) :
  (forall r, snd (alerts_route city log) = Ok r ->
             reply_status r = "success" /\ reply_code r = 200) /\
  (forall r, snd (forecast_route city log) = Ok r ->
             reply_status r = "success" /\ reply_code r = 200) /\
  (reply_code (snd (current_route city now now' (log, a))) = 200 /\
   reply_message (snd (current_route city now now' (log, a))) = None \/
   reply_code (snd (current_route city now now' (log, a))) = 500 /\
   (reply_message (snd (current_route city now now' (log, a))) =
      Some "Error parsing weather data. Please check the API response format."
    \/
    reply_message (snd (current_route city now now' (log, a))) =
      Some "An unexpected error occurred while processing weather data.")).
Proof.
  destruct (get_weather_data_outcome requests_get OPENWEATHER_API_KEY city log) as (_ & _ & Ht).
  unfold get_weather_alerts, get_weather_forecast, get_current_weather.
  destruct (weather_data city log) as [log' d]. cbn [fst snd] in *.
  rewrite Ht. cbn [snd]. split; [| split].
  - intros r. unfold bind_result.
    destruct (subscript d "current"); [| discriminate].
    destruct (alerts_of _); [| discriminate].
    intros [= <-]. now split.
  - intros r. unfold bind_result.
    destruct (subscript d "forecast"); [| discriminate].
    destruct (daily_forecasts_of _ _); [| discriminate].
    intros [= <-]. now split.
  - destruct d; try discriminate Ht;
      (destruct (bind_result _ _) as [data | []];
       [destruct (store_current_weather data now now' a); left
       | right ..]; cbn [snd reply_code reply_message]; tauto).
Qed.

Lemma current_data_complete (current : json) (data : gmap string cell)
  (now now' : Z) :
  current_data strftime_full py_str current = Ok data ->
  exists row hrow,
    new_data data now = Ok row /\ historical_data data now' = Ok hrow /\
    (exists t, Current.temperature row = Num (py_round t 1) /\
               Historical.temperature hrow = Num (py_round t 1)).
Proof.
  unfold current_data, bind_result. intros H.
  repeat match type of H with
         | match ?x with _ => _ end = _ =>
             let E := fresh "E" in destruct x eqn:E; [| discriminate H]
         end.
  injection H as <-.
  do 2 eexists.
  split; [apply payload_is_complete |].
  split; [apply payload_is_complete |].
  eexists. split; reflexivity.
Qed.

(** X24.  The current-weather route stores a reading exactly when it answers
    200.  It asks [get_weather_data] once; then either it answers 200 with
    the data it built from the document under "current", and each of the
    two logs has got one record more, made from these data (the temperature
    rounded to one decimal), or it answers 500 without data and both logs
    are what they were. *)
Theorem get_current_weather_stores (city : string) (now now' : Z)
  (log : list string) (a : WeatherDataAnalyzer) :
  fst (fst (current_route city now now' (log, a))) =
    fst (weather_data city log) /\
  ((reply_code (snd (current_route city now now' (log, a))) = 200 /\
    exists current data row hrow,
      subscript (snd (weather_data city log)) "current" = Ok current /\
      current_data strftime_full py_str current = Ok data /\
      reply_data (snd (current_route city now now' (log, a))) = Some data /\
      new_data data now = Ok row /\
      historical_data data now' = Ok hrow /\
      (exists t, Current.temperature row = Num (py_round t 1) /\
                 Historical.temperature hrow = Num (py_round t 1)) /\
      snd (fst (current_route city now now' (log, a))) =
        mkAnalyzer (current_data_file a ++ [row])
                   (historical_data_file a ++ [hrow]) (analysis_file a)) \/
   (reply_code (snd (current_route city now now' (log, a))) = 500 /\
    reply_data (snd (current_route city now now' (log, a))) = None /\
    snd (fst (current_route city now now' (log, a))) = a)).
Proof.
  destruct (get_weather_data_cases requests_get OPENWEATHER_API_KEY city log)
    as [(c & f & _ & _ & _ & Hd) | [Hdict _]].
  - unfold get_current_weather.
    destruct (weather_data city log) as [log' d]. cbn [fst snd] in *.
    subst d. cbv iota.
    change (subscript (JObj [("current", c); ("forecast", f)]) "current")
      with (Ok c).
    cbn [bind_result].
    destruct (current_data strftime_full py_str c) as [data | e] eqn:Edata.
    + destruct (current_data_complete c data now now' Edata)
        as (row & hrow & Hrow & Hhrow & Ht).
      unfold store_current_weather. rewrite Hrow.
      cbn [current_data_file historical_data_file analysis_file].
      rewrite Hhrow. cbn [fst snd reply_code reply_data].
      split; [reflexivity |]. left. split; [reflexivity |].
      exists c, data, row, hrow. now repeat split.
    + destruct e; cbn [fst snd reply_code reply_data]; tauto.
  - rewrite (current_route_on_error city now now' log a Hdict). cbn [fst snd reply_code reply_data]. tauto.
Qed.

End WeatherRouteFacts.

(** Examples on the toy network *)

(** Examples on the toy network *)

Lemma toy_day_not_empty (q : Q) (s : string) : toy_day q = Ok s -> s <> "".
Proof.
  unfold toy_day. now intros [= <-].
Qed.


Lemma daily_forecasts_grouping_witness :
  exists days,
    daily_forecasts_of toy_day toy_forecast = Ok days /\
    map d_date days = ["d0"; "d1"; "d2"] /\
    map (fun d => Qred (d_temperature d)) days = [22; 24; 19]%Q.
Proof.
  rewrite (daily_forecasts_grouping toy_day toy_forecast _ toy_day_not_empty
             eq_refl).
  eexists. split; [vm_compute; reflexivity |]. split; reflexivity.
Defined.

Lemma daily_forecasts_days_witness :
  exists days,
    daily_forecasts_of toy_day toy_forecast = Ok days /\
    length days <= 5 /\ days <> [].
Proof.
  destruct (daily_forecasts_of toy_day toy_forecast) as [days |] eqn:E;
    [| vm_compute in E; discriminate E].
  exists days. split; [reflexivity |].
  destruct (daily_forecasts_days toy_day toy_forecast _ days toy_day_not_empty
              eq_refl E) as (_ & Hlen & Hnil).
  split; [exact Hlen |]. intros H. apply Hnil in H. discriminate H.
Defined.

Lemma routes_on_fetch_error_witness :
  snd (get_weather_alerts down_network (Some "k") "Pune" []) =
    Raise (KeyError "current") /\
  snd (get_weather_forecast down_network (Some "k") toy_day "Pune" []) =
    Raise (KeyError "forecast") /\
  reply_code (snd (get_current_weather down_network (Some "k") toy_day toy_str
                     "Pune" noon noon ([], one_reading))) = 500 /\
  snd (fst (get_current_weather down_network (Some "k") toy_day toy_str
              "Pune" noon noon ([], one_reading))) = one_reading.
Proof.
  destruct (routes_on_fetch_error down_network (Some "k") toy_day toy_day
              toy_str "Pune" noon noon [] one_reading) as (Ha & Hf & Hc).
  - exists "NETWORK_ERROR", "Network error: unreachable".
    split; [reflexivity |]. do 3 right. left. reflexivity.
  - split; [exact Ha |]. split; [exact Hf |]. rewrite Hc. now split.
Defined.
